(** * Package discovery service: a shallow embedding of [package_discovery.py]

    The development follows the Python module top-down:
    - [PyStr]: the [str] methods the module calls ([startswith], [split],
      [replace], [join], [lstrip], [lower], the [in] operator, [quote]);
    - [pyval]: the dynamically typed values that attributes of a
      [PackageMetadata] object and decoded JSON bodies hold;
    - [M]: awaited calls as a trace of events plus a result or a raised
      exception;
    - [PackageMetadata], [_parse_purl], [_merge_metadata], the provider
      fetchers and [discover], each translated from the method of that name.

    Strings are sequences of 8-bit characters (the UTF-8 encoding of the
    Python string): [PyStr.lower] is [str.lower] on ASCII text, and
    [str.lower] on any text is the library function [str_lower] of [PyLib].
    JSON numbers are integers. *)

From Stdlib Require Import String Ascii List ZArith Bool Lia Permutation.
From Stdlib Require Import DecimalString.
Import ListNotations.
Local Open Scope list_scope.
Local Open Scope string_scope.

(** ** Python [str] methods *)

Module PyStr.

(** [s.startswith(p)] *)
Fixpoint startswith (p s : string) : bool :=
  match p with
  | EmptyString => true
  | String a p' =>
      match s with
      | EmptyString => false
      | String b s' => Ascii.eqb a b && startswith p' s'
      end
  end.

(** [s[n:]] *)
Fixpoint drop (n : nat) (s : string) : string :=
  match n with
  | O => s
  | S n' => match s with EmptyString => EmptyString | String _ s' => drop n' s' end
  end.

(** [s.partition(sep)]: the text before and after the first occurrence of
    [sep], or [None] when [sep] does not occur ([sep] is never empty in the
    module). *)
Fixpoint partition (sep s : string) : option (string * string) :=
  if startswith sep s then Some (EmptyString, drop (String.length sep) s)
  else
    match s with
    | EmptyString => None
    | String c s' =>
        match partition sep s' with
        | Some (a, b) => Some (String c a, b)
        | None => None
        end
    end.

(** [sub in s] *)
Definition contains (sub s : string) : bool :=
  match partition sub s with Some _ => true | None => false end.

(** [s.split(sep, maxsplit)] *)
Fixpoint split_max (maxsplit : nat) (sep s : string) : list string :=
  match maxsplit with
  | O => [s]
  | S n =>
      match partition sep s with
      | None => [s]
      | Some (a, b) => a :: split_max n sep b
      end
  end.

(** [s.split(sep)]: a string of length [n] holds at most [n] occurrences of a
    non-empty separator. *)
Definition split (sep s : string) : list string :=
  split_max (String.length s) sep s.

(** [s.replace(old, new)] for a non-empty [old]: every occurrence, left to
    right, without overlap. *)
Fixpoint replace_max (count : nat) (old new s : string) : string :=
  match count with
  | O => s
  | S n =>
      match partition old s with
      | None => s
      | Some (a, b) => a ++ new ++ replace_max n old new b
      end
  end.

Definition replace (old new s : string) : string :=
  replace_max (String.length s) old new s.

(** [sep.join(l)] *)
Fixpoint join (sep : string) (l : list string) : string :=
  match l with
  | [] => EmptyString
  | x :: rest =>
      match rest with
      | [] => x
      | _ :: _ => x ++ sep ++ join sep rest
      end
  end.

Fixpoint mem (c : ascii) (chars : string) : bool :=
  match chars with
  | EmptyString => false
  | String d chars' => Ascii.eqb c d || mem c chars'
  end.

(** [s.lstrip(chars)] *)
Fixpoint lstrip (chars s : string) : string :=
  match s with
  | EmptyString => EmptyString
  | String c s' => if mem c chars then lstrip chars s' else s
  end.

Fixpoint rev_append (s acc : string) : string :=
  match s with
  | EmptyString => acc
  | String c s' => rev_append s' (String c acc)
  end.

Definition rev (s : string) : string := rev_append s EmptyString.

(** [s.rstrip(chars)] and [s.strip(chars)] *)
Definition rstrip (chars s : string) : string := rev (lstrip chars (rev s)).
Definition strip (chars s : string) : string := rstrip chars (lstrip chars s).

Definition lower_ascii (c : ascii) : ascii :=
  let n := nat_of_ascii c in
  if (65 <=? n)%nat && (n <=? 90)%nat then ascii_of_nat (n + 32) else c.

(** [s.lower()] for a string of ASCII characters: the letters [A] to [Z]
    are lowered and nothing else changes. *)
Fixpoint lower (s : string) : string :=
  match s with
  | EmptyString => EmptyString
  | String c s' => String (lower_ascii c) (lower s')
  end.

(** [s.isascii()] *)
Fixpoint is_ascii (s : string) : bool :=
  match s with
  | EmptyString => true
  | String c s' => (nat_of_ascii c <? 128)%nat && is_ascii s'
  end.

Definition hex_digit (n : nat) : ascii :=
  if (n <? 10)%nat then ascii_of_nat (48 + n) else ascii_of_nat (55 + n).

Definition unreserved (c : ascii) : bool :=
  let n := nat_of_ascii c in
  ((65 <=? n) && (n <=? 90) || (97 <=? n) && (n <=? 122) ||
   (48 <=? n) && (n <=? 57) || mem c "_.-~")%nat.

(** [urllib.parse.quote(s, safe="")]: every byte outside letters, digits and
    [_.-~] becomes [%XX]. *)
Fixpoint quote (s : string) : string :=
  match s with
  | EmptyString => EmptyString
  | String c s' =>
      if unreserved c then String c (quote s')
      else
        let n := nat_of_ascii c in
        String "%" (String (hex_digit (n / 16)) (String (hex_digit (n mod 16)) (quote s')))
  end.

(** [str(z)] for an [int] *)
Definition of_Z (z : Z) : string := NilZero.string_of_int (Z.to_int z).

End PyStr.

(** ** Python values

    An attribute annotated [Optional[str]] holds [None], a [str], or whatever a
    decoded JSON body had at the place it was read from. *)

#[warnings="-register-all"]
Inductive pyval : Type :=
| PyNone
| PyBool (b : bool)
| PyInt (z : Z)
| PyStr (s : string)
| PyList (l : list pyval)
| PyDict (d : list (string * pyval)).

(** Truth value of an object, as [if v:] and [bool(v)] test it. *)
Definition truthy (v : pyval) : bool :=
  match v with
  | PyNone => false
  | PyBool b => b
  | PyInt z => negb (Z.eqb z 0)
  | PyStr s => negb (String.eqb s "")
  | PyList l => match l with [] => false | _ :: _ => true end
  | PyDict d => match d with [] => false | _ :: _ => true end
  end.

(** [a or b] *)
Definition py_or (a b : pyval) : pyval := if truthy a then a else b.

(** [v == "k"] for a string literal [k] *)
Definition py_eq_str (v : pyval) (k : string) : bool :=
  match v with PyStr s => String.eqb s k | _ => false end.

Fixpoint lookup (k : string) (d : list (string * pyval)) : option pyval :=
  match d with
  | [] => None
  | (k', v) :: d' => if String.eqb k' k then Some v else lookup k d'
  end.

(** Exceptions the module can meet; all derive from [Exception]. *)
Inductive exn : Type :=
| ValueError (msg : string)
| TypeError
| KeyError
| IndexError
| AttributeError
| ConnectError
| JSONDecodeError.

Inductive result (A : Type) : Type :=
| Ok (a : A)
| Raise (e : exn).
Arguments Ok {A} a.
Arguments Raise {A} e.

(** ** Awaited computations: a trace of events and a result *)

Definition M (E A : Type) : Type := (list E * result A)%type.

Definition ret {E A} (a : A) : M E A := ([], Ok a).
Definition raise {E A} (e : exn) : M E A := ([], Raise e).
Definition emit {E} (ev : E) : M E unit := ([ev], Ok tt).
Definition lift {E A} (r : result A) : M E A := ([], r).

Definition bind {E A B} (c : M E A) (k : A -> M E B) : M E B :=
  match c with
  | (t, Ok a) => let '(t', r) := k a in ((t ++ t')%list, r)
  | (t, Raise e) => (t, Raise e)
  end.

(** [try: c except Exception as e: h e] *)
Definition try_except {E A} (c : M E A) (h : exn -> M E A) : M E A :=
  match c with
  | (t, Ok a) => (t, Ok a)
  | (t, Raise e) => let '(t', r) := h e in ((t ++ t')%list, r)
  end.

Definition map_events {E F A} (f : E -> F) (c : M E A) : M F A :=
  (map f (fst c), snd c).

Declare Scope py_scope.
Delimit Scope py_scope with py.
Notation "x <- c ;; k" := (bind c (fun x => k))
  (at level 61, c at next level, right associativity) : py_scope.
Notation "c ;;; k" := (bind c (fun _ => k))
  (at level 61, right associativity) : py_scope.
Local Open Scope py_scope.

(** ** The network and the library functions the module imports *)

Record request : Type := { url : string; params : list (string * pyval) }.

Record response : Type := { status_code : Z; body : option pyval }.

(** What [await client.get(...)] does for a request: raise (connection error,
    timeout) or return a response. *)
Inductive http_reply : Type :=
| Failed
| Reply (r : response).

Class Network : Type := { http_get : request -> http_reply }.

(** Library functions taken as given: [urlparse(link).path], [repr] of lists
    and dicts, [s.lower()] (which also maps letters outside ASCII, and is
    [PyStr.lower] on ASCII text), and the order in which [list(set(l))]
    enumerates a set. *)
Class PyLib : Type := {
  urlparse_path : string -> string;
  py_repr : pyval -> string;
  str_lower : string -> string;
  str_lower_ascii : forall s, PyStr.is_ascii s = true -> str_lower s = PyStr.lower s;
  set_to_list : list string -> list string;
  set_to_list_NoDup : forall l, NoDup (set_to_list l);
  set_to_list_In : forall l x, In x (set_to_list l) <-> In x l
}.

(** [await client.get(url, params=ps)] *)
Definition client_get {N : Network} (u : string) (ps : list (string * pyval)) : M request response :=
  let r := {| url := u; params := ps |} in
  ([r], match http_get r with Failed => Raise ConnectError | Reply resp => Ok resp end).

(** [response.json()] *)
Definition json (r : response) : result pyval :=
  match body r with Some v => Ok v | None => Raise JSONDecodeError end.

(** [f"{v}"] *)
Definition py_format {L : PyLib} (v : pyval) : string :=
  match v with
  | PyStr s => s
  | PyNone => "None"
  | PyBool true => "True"
  | PyBool false => "False"
  | PyInt z => PyStr.of_Z z
  | PyList _ | PyDict _ => py_repr v
  end.

(** ["k" in v] *)
Definition py_in (k : string) (v : pyval) : result bool :=
  match v with
  | PyStr s => Ok (PyStr.contains k s)
  | PyList l => Ok (existsb (fun x => py_eq_str x k) l)
  | PyDict d => Ok (match lookup k d with Some _ => true | None => false end)
  | PyNone | PyBool _ | PyInt _ => Raise TypeError
  end.

(** [v.get(k, default)] *)
Definition py_get (v : pyval) (k : string) (default : pyval) : result pyval :=
  match v with
  | PyDict d => Ok (match lookup k d with Some x => x | None => default end)
  | _ => Raise AttributeError
  end.

(** [v["k"]] *)
Definition py_getitem (v : pyval) (k : string) : result pyval :=
  match v with
  | PyDict d => match lookup k d with Some x => Ok x | None => Raise KeyError end
  | _ => Raise TypeError
  end.

(** [v[0]] *)
Definition py_first (v : pyval) : result pyval :=
  match v with
  | PyList l => match l with x :: _ => Ok x | [] => Raise IndexError end
  | PyStr s => match s with String c _ => Ok (PyStr (String c EmptyString)) | EmptyString => Raise IndexError end
  | PyDict _ => Raise KeyError
  | PyNone | PyBool _ | PyInt _ => Raise TypeError
  end.

(** [v[-1]] *)
Definition py_last (v : pyval) : result pyval :=
  match v with
  | PyList l => py_first (PyList (List.rev l))
  | PyStr s => py_first (PyStr (PyStr.rev s))
  | PyDict _ => Raise KeyError
  | PyNone | PyBool _ | PyInt _ => Raise TypeError
  end.

Fixpoint chars (s : string) : list pyval :=
  match s with
  | EmptyString => []
  | String c s' => PyStr (String c EmptyString) :: chars s'
  end.

(** The items [for x in v] visits. *)
Definition py_iter (v : pyval) : result (list pyval) :=
  match v with
  | PyList l => Ok l
  | PyDict d => Ok (map (fun kv => PyStr (fst kv)) d)
  | PyStr s => Ok (chars s)
  | PyNone | PyBool _ | PyInt _ => Raise TypeError
  end.

(** A method of [str] applied to [v]: [AttributeError] on anything else. *)
Definition as_str (v : pyval) : result string :=
  match v with PyStr s => Ok s | _ => Raise AttributeError end.

(** [quote(v, safe="")]: [TypeError] unless [v] is a [str]. *)
Definition py_quote (v : pyval) : result string :=
  match v with PyStr s => Ok (PyStr.quote s) | _ => Raise TypeError end.

(** [table.get(k)] on a dict with string keys and values: an unhashable key
    raises, any other key that is not in the table gives [None]. *)
Definition table_get (table : list (string * string)) (k : pyval) : result (option string) :=
  match k with
  | PyStr s =>
      Ok (match find (fun kv => String.eqb (fst kv) s) table with
          | Some kv => Some (snd kv)
          | None => None
          end)
  | PyList _ | PyDict _ => Raise TypeError
  | PyNone | PyBool _ | PyInt _ => Ok None
  end.

(** ** [PackageMetadata] *)

Record PackageMetadata : Type := mkPackageMetadata {
  purl : string;
  ecosystem : pyval;
  name : pyval;
  version : pyval;
  repo_url : pyval;
  license : pyval;
  description : pyval;
  homepage : pyval;
  latest_version : pyval;
  maintainers : list string;
  source : pyval
}.

(** [PackageMetadata(purl)] *)
Definition PackageMetadata__init__ (p : string) : PackageMetadata :=
  mkPackageMetadata p PyNone PyNone PyNone PyNone PyNone PyNone PyNone PyNone [] PyNone.

Definition set_ecosystem (v : pyval) (m : PackageMetadata) : PackageMetadata :=
  mkPackageMetadata (purl m) v (name m) (version m) (repo_url m) (license m)
    (description m) (homepage m) (latest_version m) (maintainers m) (source m).
Definition set_name (v : pyval) (m : PackageMetadata) : PackageMetadata :=
  mkPackageMetadata (purl m) (ecosystem m) v (version m) (repo_url m) (license m)
    (description m) (homepage m) (latest_version m) (maintainers m) (source m).
Definition set_version (v : pyval) (m : PackageMetadata) : PackageMetadata :=
  mkPackageMetadata (purl m) (ecosystem m) (name m) v (repo_url m) (license m)
    (description m) (homepage m) (latest_version m) (maintainers m) (source m).
Definition set_repo_url (v : pyval) (m : PackageMetadata) : PackageMetadata :=
  mkPackageMetadata (purl m) (ecosystem m) (name m) (version m) v (license m)
    (description m) (homepage m) (latest_version m) (maintainers m) (source m).
Definition set_license (v : pyval) (m : PackageMetadata) : PackageMetadata :=
  mkPackageMetadata (purl m) (ecosystem m) (name m) (version m) (repo_url m) v
    (description m) (homepage m) (latest_version m) (maintainers m) (source m).
Definition set_description (v : pyval) (m : PackageMetadata) : PackageMetadata :=
  mkPackageMetadata (purl m) (ecosystem m) (name m) (version m) (repo_url m) (license m)
    v (homepage m) (latest_version m) (maintainers m) (source m).
Definition set_homepage (v : pyval) (m : PackageMetadata) : PackageMetadata :=
  mkPackageMetadata (purl m) (ecosystem m) (name m) (version m) (repo_url m) (license m)
    (description m) v (latest_version m) (maintainers m) (source m).
Definition set_latest_version (v : pyval) (m : PackageMetadata) : PackageMetadata :=
  mkPackageMetadata (purl m) (ecosystem m) (name m) (version m) (repo_url m) (license m)
    (description m) (homepage m) v (maintainers m) (source m).
Definition set_source (v : pyval) (m : PackageMetadata) : PackageMetadata :=
  mkPackageMetadata (purl m) (ecosystem m) (name m) (version m) (repo_url m) (license m)
    (description m) (homepage m) (latest_version m) (maintainers m) v.

(** [is_complete]: [bool(self.ecosystem and self.name and self.repo_url)] *)
Definition is_complete (m : PackageMetadata) : bool :=
  truthy (ecosystem m) && truthy (name m) && truthy (repo_url m).

(** ** [_parse_purl]

    The method assigns attributes of [metadata] and returns a flag; here it
    returns the updated record with the flag. The version is already assigned
    when the segment count is tested, as in the source. [partition] stands for
    the test ["@" in purl_body] followed by [purl_body.split("@", 1)]. *)
Definition _parse_purl (p : string) (metadata : PackageMetadata) : PackageMetadata * bool :=
  if negb (PyStr.startswith "pkg:" p) then (metadata, false)
  else
    let purl_body := PyStr.drop 4 p in
    let '(purl_body, metadata) :=
      match PyStr.partition "@" purl_body with
      | Some (before, v) =>
          let v := hd EmptyString (PyStr.split "#" (hd EmptyString (PyStr.split "?" v))) in
          (before, set_version (PyStr v) metadata)
      | None => (purl_body, metadata)
      end in
    let parts := PyStr.split "/" purl_body in
    if (List.length parts <? 2)%nat then (metadata, false)
    else
      let metadata := set_ecosystem (PyStr (nth 0 parts EmptyString)) metadata in
      let metadata :=
        if (List.length parts =? 2)%nat
        then set_name (PyStr (nth 1 parts EmptyString)) metadata
        else set_name (PyStr (PyStr.join "/" (skipn 1 parts))) metadata in
      (metadata, true).

(** ** [_merge_metadata] *)
Definition _merge_metadata {L : PyLib} (base new : PackageMetadata) : PackageMetadata :=
  {| purl := purl base;
     ecosystem := py_or (ecosystem base) (ecosystem new);
     name := py_or (name base) (name new);
     version := py_or (version base) (version new);
     repo_url := py_or (repo_url base) (repo_url new);
     license := py_or (license base) (license new);
     description := py_or (description base) (description new);
     homepage := py_or (homepage base) (homepage new);
     latest_version := py_or (latest_version base) (latest_version new);
     maintainers := set_to_list (maintainers base ++ maintainers new)%list;
     source := py_or (source base) (source new) |}.

(** ** Provider fetchers *)

Definition Fetcher : Type := PackageMetadata -> M request (option PackageMetadata).

(** The record a fetcher starts from: [PackageMetadata(metadata.purl)] with
    ecosystem, name and version copied. *)
Definition fresh_result (metadata : PackageMetadata) : PackageMetadata :=
  set_version (version metadata)
    (set_name (name metadata)
       (set_ecosystem (ecosystem metadata) (PackageMetadata__init__ (purl metadata)))).

Definition system_map : list (string * string) :=
  [("npm", "npm"); ("pypi", "pypi"); ("maven", "maven"); ("golang", "go");
   ("cargo", "cargo"); ("go", "go"); ("nuget", "nuget")].

Definition repo_hosts : list string := ["github.com"; "gitlab.com"; "bitbucket.org"].

Definition path_suffixes : list string := ["/issues"; "/pulls"; "/wiki"; "/tree"; "/blob"].

(** Lines 342-346 of [_fetch_deps_dev]: the value of [cleaned_url] for a link
    [url_val]. *)
Definition cleaned_url (url_val : string) : string :=
  let cleaned := PyStr.replace ".git" "" (PyStr.replace "git+" "" url_val) in
  fold_left
    (fun cleaned suffix =>
       if PyStr.contains suffix cleaned then hd EmptyString (PyStr.split suffix cleaned)
       else cleaned)
    path_suffixes cleaned.

(** One iteration of [for link in version_data["links"]]; an exception leaves
    [result] as it was before the iteration. *)
Definition link_step {L : PyLib} (link : pyval) (result : PackageMetadata) : M request PackageMetadata :=
  label_v <- lift (py_get link "label" (PyStr "")) ;;
  label <- lift (as_str label_v) ;;
  let label := str_lower label in
  url_v <- lift (py_get link "url" (PyStr "")) ;;
  url_val <- lift (as_str url_v) ;;
  if existsb (fun host => PyStr.contains host (str_lower url_val)) repo_hosts then
    if negb (truthy (repo_url result))
    then ret (set_repo_url (PyStr (cleaned_url url_val)) result)
    else ret result
  else if PyStr.contains "homepage" label && negb (truthy (homepage result))
  then ret (set_homepage (PyStr url_val) result)
  else ret result.

(** The loop over the links: attributes assigned before an exception stay
    assigned, so the loop returns the record with what stopped it, if
    anything. *)
Fixpoint links_loop {L : PyLib} (links : list pyval) (result : PackageMetadata) : PackageMetadata * option exn :=
  match links with
  | [] => (result, None)
  | link :: rest =>
      match snd (link_step link result) with
      | Ok result' => links_loop rest result'
      | Raise e => (result, Some e)
      end
  end.

(** Lines 333-354: links, then licenses, from the decoded [version_data]. *)
Definition version_details {L : PyLib} (version_data : pyval) (result : PackageMetadata) : PackageMetadata * option exn :=
  let after_links :=
    match py_in "links" version_data with
    | Raise e => (result, Some e)
    | Ok false => (result, None)
    | Ok true =>
        match py_getitem version_data "links" with
        | Raise e => (result, Some e)
        | Ok links =>
            match py_iter links with
            | Raise e => (result, Some e)
            | Ok items => links_loop items result
            end
        end
    end in
  match after_links with
  | (result, Some e) => (result, Some e)
  | (result, None) =>
      match py_in "licenses" version_data with
      | Raise e => (result, Some e)
      | Ok false => (result, None)
      | Ok true =>
          match py_getitem version_data "licenses" with
          | Raise e => (result, Some e)
          | Ok licenses =>
              if truthy licenses then
                match py_first licenses with
                | Raise e => (result, Some e)
                | Ok l => (set_license l result, None)
                end
              else (result, None)
          end
      end
  end.

(** [_fetch_deps_dev] *)
Definition _fetch_deps_dev {N : Network} {L : PyLib} : Fetcher := fun metadata =>
  system <- lift (table_get system_map (ecosystem metadata)) ;;
  match system with
  | None => ret None
  | Some system =>
      package_name <-
        (if py_eq_str (ecosystem metadata) "maven"
         then s <- lift (as_str (name metadata)) ;; ret (PyStr (PyStr.replace "/" ":" s))
         else ret (name metadata)) ;;
      encoded_name <- lift (py_quote package_name) ;;
      let url := "https://api.deps.dev/v3/systems/" ++ system ++ "/packages/" ++ encoded_name in
      response <- client_get url [] ;;
      if negb (status_code response =? 200)%Z then ret None
      else
        data <- lift (json response) ;;
        let result := fresh_result metadata in
        has_versions <- lift (py_in "versions" data) ;;
        result <-
          (if has_versions then
             versions <- lift (py_getitem data "versions") ;;
             if truthy versions then
               last <- lift (py_last versions) ;;
               key <- lift (py_getitem last "versionKey") ;;
               v <- lift (py_getitem key "version") ;;
               ret (set_latest_version v result)
             else ret result
           else ret result) ;;
        quoted <- lift (py_quote (py_or (version metadata)
                                    (py_or (latest_version result) (PyStr "")))) ;;
        let version_url := url ++ "/versions/" ++ quoted in
        (* try: ... except Exception: pass *)
        let '(t, r) := client_get version_url [] in
        (t,
         Ok (Some
               match r with
               | Raise _ => result
               | Ok version_response =>
                   if (status_code version_response =? 200)%Z then
                     match json version_response with
                     | Raise _ => result
                     | Ok version_data => fst (version_details version_data result)
                     end
                   else result
               end))
  end.

Definition type_map : list (string * string) :=
  [("npm", "npm"); ("pypi", "pypi"); ("maven", "maven"); ("golang", "go");
   ("go", "go"); ("cargo", "crate"); ("nuget", "nuget"); ("gem", "gem")].

(** [_fetch_clearlydefined] *)
Definition _fetch_clearlydefined {N : Network} {L : PyLib} : Fetcher := fun metadata =>
  cd_type <- lift (table_get type_map (ecosystem metadata)) ;;
  match cd_type with
  | None => ret None
  | Some cd_type =>
      let provider := if String.eqb cd_type "npm" then "npmjs" else cd_type in
      namespaced <- lift (py_in "/" (name metadata)) ;;
      coords <-
        (if namespaced then
           s <- lift (as_str (name metadata)) ;;
           match PyStr.split_max 1 "/" s with
           | [a; b] => ret (PyStr.quote a, PyStr.quote b)
           | _ => raise IndexError
           end
         else
           q <- lift (py_quote (name metadata)) ;; ret ("-", q)) ;;
      let namespace := fst coords in
      let nm := snd coords in
      let ver := py_or (version metadata) (PyStr "-") in
      let coordinates :=
        cd_type ++ "/" ++ provider ++ "/" ++ namespace ++ "/" ++ nm ++ "/" ++ py_format ver in
      let url := "https://api.clearlydefined.io/definitions/" ++ coordinates in
      response <- client_get url [] ;;
      if negb (status_code response =? 200)%Z then ret None
      else
        match json response with
        | Raise _ => ret None
        | Ok data =>
            let result := fresh_result metadata in
            described <- lift (py_get data "described" (PyDict [])) ;;
            lic <- lift (py_get described "license" PyNone) ;;
            let result := set_license lic result in
            has_location <- lift (py_in "sourceLocation" described) ;;
            result <-
              (if has_location then
                 src <- lift (py_getitem described "sourceLocation") ;;
                 ty <- lift (py_get src "type" PyNone) ;;
                 if py_eq_str ty "git" then
                   provider <- lift (py_get src "provider" (PyStr "")) ;;
                   namespace <- lift (py_get src "namespace" (PyStr "")) ;;
                   nm <- lift (py_get src "name" (PyStr "")) ;;
                   if truthy provider && truthy namespace && truthy nm then
                     ret (set_repo_url
                            (PyStr ("https://" ++ py_format provider ++ "/" ++
                                    py_format namespace ++ "/" ++ py_format nm)) result)
                   else ret result
                 else ret result
               else ret result) ;;
            has_website <- lift (py_in "projectWebsite" described) ;;
            if has_website then
              w <- lift (py_getitem described "projectWebsite") ;;
              ret (Some (set_homepage w result))
            else ret (Some result)
        end
  end.

(** [_fetch_purl2src] and [_fetch_upmex]: placeholders. *)
Definition _fetch_purl2src : Fetcher := fun _ => ret None.
Definition _fetch_upmex : Fetcher := fun _ => ret None.

(** The loop of [_fetch_serpapi] over the organic results: the first link on
    the forge with an owner and a repository in its path is returned. *)
Fixpoint serpapi_results {L : PyLib} (metadata : PackageMetadata) (results : list pyval) : M request (option PackageMetadata) :=
  match results with
  | [] => ret None
  | result :: rest =>
      link <- lift (py_get result "link" (PyStr "")) ;;
      on_forge <- lift (py_in "github.com" link) ;;
      if on_forge then
        match link with
        | PyStr l =>
            let path_parts := PyStr.split "/" (PyStr.strip "/" (urlparse_path l)) in
            if (2 <=? List.length path_parts)%nat then
              let repo :=
                "https://github.com/" ++ nth 0 path_parts EmptyString ++ "/" ++
                nth 1 path_parts EmptyString in
              snippet <- lift (py_get result "snippet" PyNone) ;;
              ret (Some (set_description snippet (set_repo_url (PyStr repo) (fresh_result metadata))))
            else serpapi_results metadata rest
        | _ => raise AttributeError (* [urlparse] of a list or a dict *)
        end
      else serpapi_results metadata rest
  end.

(** [if key:] for an [Optional[str]] *)
Definition key_given (key : option string) : bool :=
  match key with Some k => negb (String.eqb k "") | None => false end.

(** [_fetch_serpapi], for a service created with [serpapi_key = key] *)
Definition _fetch_serpapi {N : Network} {L : PyLib} (key : option string) : Fetcher := fun metadata =>
  match key with
  | Some k =>
      if String.eqb k "" then ret None
      else
        let query :=
          py_format (name metadata) ++ " " ++ py_format (ecosystem metadata) ++
          " github repository" in
        let ps := [("q", PyStr query); ("api_key", PyStr k); ("num", PyInt 3)] in
        response <- client_get "https://serpapi.com/search" ps ;;
        if negb (status_code response =? 200)%Z then ret None
        else
          data <- lift (json response) ;;
          organic <- lift (py_get data "organic_results" (PyList [])) ;;
          results <- lift (py_iter organic) ;;
          serpapi_results metadata results
  | None => ret None
  end.

(** ** [PackageDiscoveryService]

    An instance holds the search key and its fetcher methods; the tests
    replace the methods ([patch.object]), [PackageDiscoveryService__init__]
    builds the instance with the methods of the class. *)

Record PackageDiscoveryService : Type := {
  serpapi_key : option string;
  fetch_deps_dev : Fetcher;
  fetch_clearlydefined : Fetcher;
  fetch_purl2src : Fetcher;
  fetch_upmex : Fetcher;
  fetch_serpapi : Fetcher
}.

Definition PackageDiscoveryService__init__ {N : Network} {L : PyLib} (key : option string) : PackageDiscoveryService :=
  {| serpapi_key := key;
     fetch_deps_dev := _fetch_deps_dev;
     fetch_clearlydefined := _fetch_clearlydefined;
     fetch_purl2src := _fetch_purl2src;
     fetch_upmex := _fetch_upmex;
     fetch_serpapi := _fetch_serpapi key |}.

(** What [discover] does that a caller or a test can observe: a request sent,
    or a fetcher of the chain called. *)
Inductive event : Type :=
| Http (r : request)
| Invoke (source_name : string).

(** The names of the fetchers called, in order. *)
Fixpoint invoked (t : list event) : list string :=
  match t with
  | [] => []
  | Invoke n :: t' => n :: invoked t'
  | Http _ :: t' => invoked t'
  end.

(** The requests sent, in order. *)
Fixpoint requests (t : list event) : list request :=
  match t with
  | [] => []
  | Http r :: t' => r :: requests t'
  | Invoke _ :: t' => requests t'
  end.

(** Lines 140-160 of [discover]: the repository URL of a [github] identifier,
    then the latest release, best effort. *)
Definition special_github {N : Network} {L : PyLib} (metadata : PackageMetadata) : M event PackageMetadata :=
  if py_eq_str (ecosystem metadata) "github" then
    has_slash <-
      (if truthy (name metadata) then lift (py_in "/" (name metadata)) else ret false) ;;
    if has_slash then
      let metadata :=
        set_repo_url (PyStr ("https://github.com/" ++ py_format (name metadata))) metadata in
      try_except
        (let api_url :=
           "https://api.github.com/repos/" ++ py_format (name metadata) ++ "/releases/latest" in
         response <- map_events Http (client_get api_url []) ;;
         if (status_code response =? 200)%Z then
           release_data <- lift (json response) ;;
           tag_name <- lift (py_get release_data "tag_name" (PyStr "")) ;;
           latest <-
             (if truthy tag_name
              then tag <- lift (as_str tag_name) ;; ret (PyStr (PyStr.lstrip "v" tag))
              else ret PyNone) ;;
           ret (set_latest_version latest metadata)
         else ret metadata)
        (fun _ => ret metadata)
    else ret metadata
  else ret metadata.

(** Lines 167-170 and 172-175: the first three segments of a module path. *)
Definition forge_repo (nm : string) (metadata : PackageMetadata) : PackageMetadata :=
  let parts := PyStr.split "/" nm in
  if (3 <=? List.length parts)%nat
  then set_repo_url (PyStr ("https://" ++ PyStr.join "/" (firstn 3 parts))) metadata
  else metadata.

(** Lines 162-175 of [discover]: Go module paths on a known forge. *)
Definition special_golang (metadata : PackageMetadata) : M event PackageMetadata :=
  if py_eq_str (ecosystem metadata) "golang" || py_eq_str (ecosystem metadata) "go" then
    nm <- lift (as_str (name metadata)) ;;
    if PyStr.startswith "github.com/" nm then ret (forge_repo nm metadata)
    else if PyStr.startswith "gitlab.com/" nm then ret (forge_repo nm metadata)
    else ret metadata
  else ret metadata.

(** Lines 177-187: the chain in priority order. *)
Definition sources (self : PackageDiscoveryService) : list (string * Fetcher) :=
  ([("deps.dev", fetch_deps_dev self);
    ("clearlydefined", fetch_clearlydefined self);
    ("purl2src", fetch_purl2src self);
    ("upmex", fetch_upmex self)] ++
   (if key_given (serpapi_key self) then [("serpapi", fetch_serpapi self)] else []))%list.

(** Lines 189-205: the loop over the chain. [inl result] is the early
    [return result], [inr metadata] the accumulator after the last source. *)
Fixpoint try_sources {L : PyLib} (srcs : list (string * Fetcher)) (metadata : PackageMetadata) : M event (PackageMetadata + PackageMetadata) :=
  match srcs with
  | [] => ret (inr metadata)
  | (source_name, fetch_func) :: rest =>
      emit (Invoke source_name) ;;;
      fetched <-
        try_except
          (result <- map_events Http (fetch_func metadata) ;; ret (Some result))
          (fun _ => ret None) ;;
      match fetched with
      | Some (Some result) =>
          if is_complete result then ret (inl (set_source (PyStr source_name) result))
          else try_sources rest (_merge_metadata metadata result)
      | Some None => try_sources rest metadata
      | None => try_sources rest metadata
      end
  end.

(** Lines 209-215: the required fields that are still empty. *)
Definition missing (metadata : PackageMetadata) : list string :=
  ((if truthy (ecosystem metadata) then [] else ["ecosystem"]) ++
   (if truthy (name metadata) then [] else ["name"]) ++
   (if truthy (repo_url metadata) then [] else ["repo_url"]))%list.

Definition incomplete_message (p : string) (metadata : PackageMetadata) : string :=
  "Could not discover complete metadata for " ++ p ++ ". " ++
  "Missing: " ++ PyStr.join ", " (missing metadata).

(** Lines 132-175: parse, then the special cases. *)
Definition prepare {N : Network} {L : PyLib} (p : string) : M event PackageMetadata :=
  let metadata := PackageMetadata__init__ p in
  let '(metadata, ok) := _parse_purl p metadata in
  if negb ok then raise (ValueError ("Invalid PURL format: " ++ p))
  else
    metadata <- special_github metadata ;;
    special_golang metadata.

(** [discover] *)
Definition discover {N : Network} {L : PyLib} (self : PackageDiscoveryService) (p : string) (allow_partial : bool) : M event PackageMetadata :=
  metadata <- prepare p ;;
  outcome <- try_sources (sources self) metadata ;;
  match outcome with
  | inl result => ret result
  | inr metadata =>
      if negb allow_partial && negb (is_complete metadata)
      then raise (ValueError (incomplete_message p metadata))
      else ret metadata
  end.

(** ** Sample environments

    A library instance (sets enumerated in order of first occurrence), networks
    that answer from a table, and fetchers that behave like the tests' mocks. *)

Definition sample_path (link : string) : string :=
  match PyStr.partition "://" link with
  | Some (_, rest) =>
      match PyStr.partition "/" rest with
      | Some (_, path) => "/" ++ hd EmptyString (PyStr.split "#" (hd EmptyString (PyStr.split "?" path)))
      | None => EmptyString
      end
  | None => hd EmptyString (PyStr.split "#" (hd EmptyString (PyStr.split "?" link)))
  end.

#[export] Instance sample_lib : PyLib := {|
  urlparse_path := sample_path;
  py_repr := fun _ => "[...]";
  str_lower := PyStr.lower;
  str_lower_ascii := fun _ _ => eq_refl;
  set_to_list := nodup string_dec;
  set_to_list_NoDup := NoDup_nodup string_dec;
  set_to_list_In := nodup_In string_dec
|}.

(** No request succeeds. *)
Definition offline : Network := {| http_get := fun _ => Failed |}.

(** Requests answered by URL from a table, with status 200 and a JSON body;
    any other URL gets a 404. *)
Definition scripted (table : list (string * pyval)) : Network :=
  {| http_get := fun r =>
       match lookup (url r) table with
       | Some v => Reply {| status_code := 200; body := Some v |}
       | None => Reply {| status_code := 404; body := None |}
       end |}.

(** [AsyncMock(return_value=r)] and [AsyncMock(side_effect=e)] *)
Definition returning (r : option PackageMetadata) : Fetcher := fun _ => ret r.
Definition failing (e : exn) : Fetcher := fun _ => raise e.

Definition mocked (deps_dev clearlydefined : Fetcher) : PackageDiscoveryService :=
  {| serpapi_key := None;
     fetch_deps_dev := deps_dev;
     fetch_clearlydefined := clearlydefined;
     fetch_purl2src := _fetch_purl2src;
     fetch_upmex := _fetch_upmex;
     fetch_serpapi := returning None |}.

Definition express_complete : PackageMetadata :=
  set_repo_url (PyStr "https://github.com/expressjs/express")
    (set_name (PyStr "express")
       (set_ecosystem (PyStr "npm") (PackageMetadata__init__ "pkg:npm/express"))).

(** ** Vocabulary of the statements *)

(** What [_parse_purl] leaves of the text after the scheme once the version is
    split off: the text before the first [@]. *)
Definition body_before_version (p : string) : string :=
  match PyStr.partition "@" (PyStr.drop 4 p) with
  | Some (before, _) => before
  | None => PyStr.drop 4 p
  end.

(** A version as [_parse_purl] stores it: cut at the first [?], then at the
    first [#]. *)
Definition version_text (v : string) : string :=
  hd EmptyString (PyStr.split "#" (hd EmptyString (PyStr.split "?" v))).

(** A segment of an identifier: no [/] and no [@] in it. *)
Definition plain (s : string) : Prop :=
  PyStr.contains "/" s = false /\ PyStr.contains "@" s = false.

(** The failure condition in the words of the specification: no scheme prefix,
    or fewer than two [/]-separated segments after the scheme. *)
Definition spec_parse_fails (p : string) : bool :=
  negb (PyStr.startswith "pkg:" p) || (List.length (PyStr.split "/" (PyStr.drop 4 p)) <? 2)%nat.

(** What a fetcher contributes for an accumulator: nothing when it raises or
    returns [None]. *)
Definition contribution (f : Fetcher) (metadata : PackageMetadata) : option PackageMetadata :=
  match snd (f metadata) with
  | Ok (Some result) => Some result
  | Ok None | Raise _ => None
  end.

(** The events of one turn of the loop: the call, then the fetcher's requests. *)
Definition turn (source_name : string) (f : Fetcher) (metadata : PackageMetadata) : list event :=
  Invoke source_name :: map Http (fst (f metadata)).
Arguments turn : simpl never.

(** The attributes merged by [or]. *)
Definition scalar_fields : list (PackageMetadata -> pyval) :=
  [ecosystem; name; version; repo_url; license; description; homepage; latest_version; source].

(** Cleaning of a repository link in the words of the specification: strip a
    [git+] prefix, strip a trailing [.git], cut at the first occurrence of any
    of the path suffixes. *)
Definition strip_prefix (p s : string) : string :=
  if PyStr.startswith p s then PyStr.drop (String.length p) s else s.

Definition strip_suffix (p s : string) : string :=
  PyStr.rev (strip_prefix (PyStr.rev p) (PyStr.rev s)).

Fixpoint cut_at_first (suffixes : list string) (s : string) : string :=
  if existsb (fun x => PyStr.startswith x s) suffixes then EmptyString
  else
    match s with
    | EmptyString => EmptyString
    | String c s' => String c (cut_at_first suffixes s')
    end.

(** A suffix as the fetcher lists them: a [/] followed by text without [/]. *)
Definition path_segment (x : string) : Prop :=
  exists w, x = String "/" w /\ PyStr.mem "/" w = false.

Definition clean_repo_url_spec (link : string) : string :=
  cut_at_first path_suffixes (strip_suffix ".git" (strip_prefix "git+" link)).

(** Sample answers of the primary source for an npm package: the listing names
    [latest] as the last version, and the details of version [queried] hold
    one repository link and the license MIT. *)
Definition deps_dev_answers (package latest queried link : string) : Network :=
  scripted
    [("https://api.deps.dev/v3/systems/npm/packages/" ++ package,
      PyDict [("versions", PyList [PyDict [("versionKey", PyDict [("version", PyStr latest)])]])]);
     ("https://api.deps.dev/v3/systems/npm/packages/" ++ package ++ "/versions/" ++ queried,
      PyDict [("links", PyList [PyDict [("label", PyStr "SOURCE_REPO"); ("url", PyStr link)]]);
              ("licenses", PyList [PyStr "MIT"])])].

(** The release API answers 200 with the tag [tag]. *)
Definition release_tagged (owner_repo tag : string) : Network :=
  scripted
    [("https://api.github.com/repos/" ++ owner_repo ++ "/releases/latest",
      PyDict [("tag_name", PyStr tag)])].

Definition parsed (p : string) : PackageMetadata :=
  fst (_parse_purl p (PackageMetadata__init__ p)).

(** A contribution with a repository URL and no name. *)
Definition nameless_repo : PackageMetadata :=
  set_repo_url (PyStr "https://github.com/expressjs/express")
    (PackageMetadata__init__ "pkg:npm/express").

(** Lines 153-157 of [discover] as a function of the reply of the release
    API: the value assigned to [latest_version], if the assignment is reached. *)
Definition release_version (reply : http_reply) : option pyval :=
  match reply with
  | Failed => None
  | Reply resp =>
      if (status_code resp =? 200)%Z then
        match json resp with
        | Raise _ => None
        | Ok release_data =>
            match py_get release_data "tag_name" (PyStr "") with
            | Raise _ => None
            | Ok tag_name =>
                if truthy tag_name then
                  match as_str tag_name with
                  | Ok tag => Some (PyStr (PyStr.lstrip "v" tag))
                  | Raise _ => None
                  end
                else Some PyNone
            end
        end
      else None
  end.

Definition assign_latest (v : option pyval) (metadata : PackageMetadata) : PackageMetadata :=
  match v with
  | Some x => set_latest_version x metadata
  | None => metadata
  end.

(** [to_dict] *)
Definition to_dict (self : PackageMetadata) : pyval :=
  PyDict
    [("purl", PyStr (purl self));
     ("ecosystem", ecosystem self);
     ("name", name self);
     ("version", version self);
     ("repo_url", repo_url self);
     ("license", license self);
     ("description", description self);
     ("homepage", homepage self);
     ("latest_version", latest_version self);
     ("maintainers", PyList (map PyStr (maintainers self)));
     ("source", source self)].

(** [discover_package] *)
Definition discover_package {N : Network} {L : PyLib} (p : string) (key : option string) : M event pyval :=
  let service := PackageDiscoveryService__init__ key in
  metadata <- discover service p false ;;
  ret (to_dict metadata).

(** [r] describes the package of [md] and carries no tag of its own: same
    purl, ecosystem, name and version, no maintainers, no source. *)
Definition same_package (md r : PackageMetadata) : Prop :=
  purl r = purl md /\ ecosystem r = ecosystem md /\ name r = name md /\
  version r = version md /\ maintainers r = [] /\ source r = PyNone.

(** A request to one of the three metadata services, without parameters. *)
Definition metadata_request (r : request) : bool :=
  (PyStr.startswith "https://api.github.com/repos/" (url r) ||
   PyStr.startswith "https://api.deps.dev/v3/systems/" (url r) ||
   PyStr.startswith "https://api.clearlydefined.io/definitions/" (url r)) &&
  match params r with [] => true | _ :: _ => false end.

(** The request of the paid search, carrying the key [k]. *)
Definition search_request (k : string) (r : request) : bool :=
  String.eqb (url r) "https://serpapi.com/search" &&
  match lookup "api_key" (params r) with
  | Some v => py_eq_str v k
  | None => false
  end.

(** The search API answers with one organic result, a link and a snippet. *)
Definition search_answers (link snippet : string) : Network :=
  scripted
    [("https://serpapi.com/search",
      PyDict [("organic_results",
               PyList [PyDict [("link", PyStr link); ("snippet", PyStr snippet)]])])].

(** [v] is the cleaning of the [url] of one of the link objects [items], a
    URL that names one of the forges once lowered. *)
Definition listed_forge_link {L : PyLib} (items : list pyval) (v : pyval) : Prop :=
  exists item link,
    In item items /\
    py_get item "url" (PyStr "") = Ok (PyStr link) /\
    existsb (fun host => PyStr.contains host (str_lower link)) repo_hosts = true /\
    v = PyStr (cleaned_url link).

(** The primary source answers the listing of an npm package, naming [latest]
    as its last version; every other request fails. *)
Definition listing_only (package latest : string) : Network :=
  {| http_get := fun r =>
       if String.eqb (url r) ("https://api.deps.dev/v3/systems/npm/packages/" ++ package)
       then Reply {| status_code := 200;
                     body := Some (PyDict [("versions",
                                            PyList [PyDict [("versionKey",
                                                             PyDict [("version", PyStr latest)])]])]) |}
       else Failed |}.

(** Every request is answered with status 200 and a body that is not JSON. *)
Definition garbled : Network :=
  {| http_get := fun _ => Reply {| status_code := 200; body := None |} |}.

(** * Properties *)

(** ** Facts about the string methods *)

Module PyStrFacts.
Import PyStr.

Lemma app_nil_r (s : string) : s ++ "" = s.
Proof. induction s; simpl; congruence. Qed.

Lemma app_assoc (a b c : string) : (a ++ b) ++ c = a ++ b ++ c.
Proof. induction a; simpl; congruence. Qed.

Lemma length_app (a b : string) : String.length (a ++ b) = String.length a + String.length b.
Proof. induction a; simpl; congruence. Qed.

Lemma startswith_app (p s : string) : startswith p (p ++ s) = true.
Proof. induction p; simpl; [reflexivity|]. now rewrite Ascii.eqb_refl. Qed.

Lemma drop_app (p s : string) : drop (String.length p) (p ++ s) = s.
Proof. induction p; simpl; auto. Qed.

Lemma startswith_drop (p s : string) :
  startswith p s = true -> s = p ++ drop (String.length p) s.
Proof.
  revert s; induction p as [|a p IH]; intros s H; simpl in *; [reflexivity|].
  destruct s as [|b s]; [discriminate|].
  apply andb_true_iff in H as [Hab Hp].
  apply Ascii.eqb_eq in Hab; subst b.
  f_equal; auto.
Qed.

(** [partition] cuts [s] around an occurrence of [sep]. *)
Lemma partition_spec (sep s a b : string) :
  partition sep s = Some (a, b) -> s = a ++ sep ++ b.
Proof.
  revert a; induction s as [|c s IH]; intros a; simpl.
  - destruct (startswith sep "") eqn:E; [|discriminate].
    intros [= <- <-]. now apply startswith_drop in E.
  - destruct (startswith sep (String c s)) eqn:E.
    + intros [= <- <-]. now apply startswith_drop in E.
    + destruct (partition sep s) as [[a' b']|]; [|discriminate].
      intros [= <- <-]. simpl. f_equal. now apply IH.
Qed.

Lemma partition_length (sep s a b : string) :
  partition sep s = Some (a, b) ->
  String.length s = String.length a + String.length sep + String.length b.
Proof.
  intros H; apply partition_spec in H; subst s.
  rewrite !length_app; lia.
Qed.

Lemma partition_empty (sep : string) : sep <> "" -> partition sep "" = None.
Proof. destruct sep; [congruence|reflexivity]. Qed.

Lemma split_max_nonempty (n : nat) (sep s : string) :
  exists x l, split_max n sep s = x :: l.
Proof.
  destruct n; simpl; [eauto|].
  destruct (partition sep s) as [[a b]|]; eauto.
Qed.

(** Once the budget of splits covers the length of the string it no longer
    matters. *)
Lemma split_max_budget (sep : string) (n m : nat) (s : string) :
  sep <> "" -> String.length s <= n -> String.length s <= m ->
  split_max n sep s = split_max m sep s.
Proof.
  intros Hsep; revert m s; induction n as [|n IH]; intros m s Hn Hm.
  - destruct s; [|simpl in Hn; lia].
    destruct m; cbn [split_max]; [reflexivity|]. now rewrite partition_empty.
  - destruct m as [|m].
    + destruct s; [|simpl in Hm; lia]. cbn [split_max]. now rewrite partition_empty.
    + cbn [split_max]. destruct (partition sep s) as [[a b]|] eqn:E; [|reflexivity].
      f_equal. apply partition_length in E.
      assert (0 < String.length sep) by (destruct sep; [congruence|simpl; lia]).
      apply IH; lia.
Qed.

Lemma split_max_enough (sep s : string) (n : nat) :
  sep <> "" -> String.length s <= n -> split_max n sep s = split sep s.
Proof. intros; unfold split; apply split_max_budget; auto. Qed.

Lemma split_max_none (n : nat) (sep s : string) :
  partition sep s = None -> split_max n sep s = [s].
Proof. intros H; destruct n; simpl; [reflexivity|now rewrite H]. Qed.

Lemma split_some (sep s a b : string) :
  sep <> "" -> partition sep s = Some (a, b) -> split sep s = a :: split sep b.
Proof.
  intros Hsep E. unfold split at 1.
  pose proof (partition_length _ _ _ _ E) as L.
  assert (0 < String.length sep) by (destruct sep; [congruence|simpl; lia]).
  destruct (String.length s) as [|n] eqn:Len; [lia|].
  cbn [split_max]. rewrite E. f_equal. apply split_max_enough; auto; lia.
Qed.

Lemma join_cons (sep a x : string) (l : list string) :
  join sep (a :: x :: l) = a ++ sep ++ join sep (x :: l).
Proof. reflexivity. Qed.

(** Joining what [split] produced gives the string back. *)
Lemma join_split_max (sep : string) (n : nat) (s : string) :
  join sep (split_max n sep s) = s.
Proof.
  revert s; induction n as [|n IH]; intros s; cbn [split_max]; [reflexivity|].
  destruct (partition sep s) as [[a b]|] eqn:E; [|reflexivity].
  specialize (IH b).
  destruct (split_max_nonempty n sep b) as (x & l & Hx).
  rewrite Hx in *. rewrite join_cons, IH.
  symmetry; now apply partition_spec.
Qed.

Lemma join_split (sep s : string) : join sep (split sep s) = s.
Proof. apply join_split_max. Qed.

Lemma hd_split (sep s : string) :
  hd "" (split sep s) = match partition sep s with Some (a, _) => a | None => s end.
Proof.
  destruct s as [|c s].
  - unfold split; simpl. destruct (startswith sep ""); reflexivity.
  - unfold split. cbn [String.length split_max].
    destruct (partition sep (String c s)) as [[a b]|]; reflexivity.
Qed.

(** [sep in s] followed by [s.split(sep, 1)] is [partition]. *)
Lemma split_once (sep s : string) :
  split_max 1 sep s =
  match partition sep s with Some (a, b) => [a; b] | None => [s] end /\
  contains sep s = match partition sep s with Some _ => true | None => false end.
Proof. split; [cbn [split_max]|unfold contains]; now destruct (partition sep s) as [[a b]|]. Qed.

(** *** Separators of one character *)

Lemma contains_char (c : ascii) (s : string) : contains (String c "") s = mem c s.
Proof.
  unfold contains. induction s as [|a s IH]; simpl; [reflexivity|].
  rewrite andb_true_r. destruct (Ascii.eqb c a); simpl; [reflexivity|].
  rewrite <- IH. destruct (partition (String c "") s) as [[x y]|]; reflexivity.
Qed.

Lemma partition_char_none (c : ascii) (s : string) :
  contains (String c "") s = false -> partition (String c "") s = None.
Proof. unfold contains. destruct (partition _ s); [discriminate|reflexivity]. Qed.

Lemma partition_char_app (c : ascii) (a b : string) :
  contains (String c "") a = false ->
  partition (String c "") (a ++ String c b) = Some (a, b).
Proof.
  rewrite contains_char.
  induction a as [|x a IH]; simpl; intros H.
  - now rewrite Ascii.eqb_refl.
  - apply orb_false_iff in H as [Hx Ha].
    rewrite Hx. simpl. now rewrite IH.
Qed.

Lemma contains_char_app (c : ascii) (a b : string) :
  contains (String c "") (a ++ b) = contains (String c "") a || contains (String c "") b.
Proof.
  rewrite !contains_char. induction a as [|x a IH]; simpl; [reflexivity|].
  now rewrite IH, orb_assoc.
Qed.

Lemma split_char_none (c : ascii) (s : string) :
  contains (String c "") s = false -> split (String c "") s = [s].
Proof. intros H. apply split_max_none. now apply partition_char_none. Qed.

Lemma split_char_app (c : ascii) (a b : string) :
  contains (String c "") a = false ->
  split (String c "") (a ++ String c b) = a :: split (String c "") b.
Proof.
  intros H. apply split_some; [discriminate|]. now apply partition_char_app.
Qed.

(** Splitting at [c] undoes joining with [c] segments that hold no [c]. *)
Lemma split_join_char (c : ascii) (segs : list string) :
  segs <> [] ->
  Forall (fun s => contains (String c "") s = false) segs ->
  split (String c "") (join (String c "") segs) = segs.
Proof.
  induction segs as [|x rest IH]; [congruence|]. intros _ H.
  inversion H as [|? ? Hx Hrest]; subst.
  destruct rest as [|y rest'].
  - simpl. now apply split_char_none.
  - rewrite join_cons. change (String c "" ++ join (String c "") (y :: rest'))
      with (String c (join (String c "") (y :: rest'))).
    rewrite split_char_app by assumption.
    f_equal. apply IH; [discriminate|assumption].
Qed.

Lemma hd_split_char_app (c : ascii) (a b : string) :
  contains (String c "") a = false ->
  hd "" (split (String c "") (a ++ String c b)) = a.
Proof. intros H. now rewrite split_char_app. Qed.

Lemma hd_split_char_none (c : ascii) (s : string) :
  contains (String c "") s = false -> hd "" (split (String c "") s) = s.
Proof. intros H. now rewrite split_char_none. Qed.

Lemma partition_char_prefix (c : ascii) (a b : string) :
  contains (String c "") a = false ->
  partition (String c "") (a ++ b) =
  match partition (String c "") b with
  | Some (x, y) => Some (a ++ x, y)
  | None => None
  end.
Proof.
  rewrite contains_char.
  induction a as [|x a IH]; intros H.
  - cbn [append]. destruct (partition (String c "") b) as [[u v]|]; reflexivity.
  - cbn [mem] in H. apply orb_false_iff in H as [Hx Ha].
    cbn [append partition startswith]. rewrite Hx. cbn [andb].
    rewrite (IH Ha). destruct (partition (String c "") b) as [[u v]|]; reflexivity.
Qed.

Lemma hd_split_char_prefix (c : ascii) (a b : string) :
  contains (String c "") a = false ->
  hd "" (split (String c "") (a ++ b)) = a ++ hd "" (split (String c "") b).
Proof.
  intros H. rewrite !hd_split, (partition_char_prefix c a b H).
  destruct (partition (String c "") b) as [[u v]|]; reflexivity.
Qed.

(** The text before the first occurrence of a character does not hold it. *)
Lemma partition_char_before (c : ascii) (s a b : string) :
  partition (String c "") s = Some (a, b) -> contains (String c "") a = false.
Proof.
  rewrite contains_char. revert a; induction s as [|x s IH]; intros a.
  - cbn. discriminate.
  - cbn [partition startswith]. rewrite andb_true_r.
    destruct (Ascii.eqb c x) eqn:E.
    + cbn [andb]. intros [= <- _]. reflexivity.
    + cbn [andb]. destruct (partition (String c "") s) as [[a' b']|]; [|discriminate].
      intros [= <- <-]. cbn [mem]. rewrite E. cbn [orb]. now apply (IH a').
Qed.

Lemma hd_split_char_clean (c : ascii) (s : string) :
  contains (String c "") (hd "" (split (String c "") s)) = false.
Proof.
  rewrite hd_split.
  destruct (partition (String c "") s) as [[a b]|] eqn:E.
  - now apply (partition_char_before c s a b).
  - unfold contains. now rewrite E.
Qed.

Lemma contains_char_before (c d : ascii) (s : string) :
  contains (String c "") s = false ->
  contains (String c "") (hd "" (split (String d "") s)) = false.
Proof.
  intros H. rewrite hd_split.
  destruct (partition (String d "") s) as [[a b]|] eqn:E; [|exact H].
  apply partition_spec in E. subst s.
  rewrite contains_char_app in H. now apply orb_false_iff in H as [H _].
Qed.

End PyStrFacts.

(** ** The identifier parser *)

Section Parser.
Import PyStr PyStrFacts.

(** [_parse_purl] in one equation: in both branches of the namespace test the
    name is the segments after the first, joined by [/]. *)
Lemma parse_purl_eq (p : string) (m : PackageMetadata) :
  _parse_purl p m =
  if negb (startswith "pkg:" p) then (m, false)
  else
    let m1 :=
      match partition "@" (drop 4 p) with
      | Some (_, v) => set_version (PyStr (version_text v)) m
      | None => m
      end in
    let parts := split "/" (body_before_version p) in
    if (List.length parts <? 2)%nat then (m1, false)
    else (set_name (PyStr (join "/" (tl parts))) (set_ecosystem (PyStr (hd "" parts)) m1), true).
Proof.
  unfold _parse_purl, body_before_version, version_text.
  destruct (startswith "pkg:" p); cbn [negb]; [|reflexivity].
  destruct (partition "@" (drop 4 p)) as [[b v]|];
    cbv zeta; (match goal with |- context [split "/" ?x] => destruct (split "/" x) as [|x0 [|x1 [|x2 l]]] end);
    reflexivity.
Qed.

(** A version is split off at the first [@] before anything else is read. *)
Lemma parse_purl_at (body rest : string) (m : PackageMetadata) :
  contains "@" body = false ->
  _parse_purl ("pkg:" ++ body ++ "@" ++ rest) m =
  _parse_purl ("pkg:" ++ body) (set_version (PyStr (version_text rest)) m).
Proof.
  intros H. rewrite !parse_purl_eq. unfold body_before_version.
  change (startswith "pkg:" ("pkg:" ++ body ++ "@" ++ rest)) with true.
  change (startswith "pkg:" ("pkg:" ++ body)) with true.
  change (drop 4 ("pkg:" ++ body ++ "@" ++ rest)) with (body ++ String "@" rest).
  change (drop 4 ("pkg:" ++ body)) with body.
  rewrite (partition_char_app "@" body rest H).
  rewrite (partition_char_none "@" body H).
  reflexivity.
Qed.

(** Without [@], the segments decide. *)
Lemma parse_purl_plain (body : string) (m : PackageMetadata) :
  contains "@" body = false ->
  _parse_purl ("pkg:" ++ body) m =
  let parts := split "/" body in
  if (List.length parts <? 2)%nat then (m, false)
  else (set_name (PyStr (join "/" (tl parts))) (set_ecosystem (PyStr (hd "" parts)) m), true).
Proof.
  intros H. rewrite parse_purl_eq. unfold body_before_version.
  change (startswith "pkg:" ("pkg:" ++ body)) with true.
  change (drop 4 ("pkg:" ++ body)) with body.
  rewrite (partition_char_none "@" body H). reflexivity.
Qed.

Lemma contains_at_join (segs : list string) :
  Forall plain segs -> contains "@" (join "/" segs) = false.
Proof.
  induction 1 as [|x l [_ Hx] Hl IH]; [reflexivity|].
  destruct l as [|y l']; [exact Hx|].
  rewrite join_cons, !contains_char_app, Hx, IH. reflexivity.
Qed.

Lemma plain_slash (segs : list string) :
  Forall plain segs -> Forall (fun s => contains "/" s = false) segs.
Proof. apply Forall_impl. now intros s [H _]. Qed.

(** Ecosystem and name of an identifier made of plain segments, with or
    without a version suffix. *)
Lemma parse_purl_segments (E : string) (names : list string) (suffix : string) (m : PackageMetadata) :
  names <> [] -> plain E -> Forall plain names ->
  suffix = "" \/ startswith "@" suffix = true ->
  let r := _parse_purl ("pkg:" ++ join "/" (E :: names) ++ suffix) m in
  snd r = true /\
  ecosystem (fst r) = PyStr E /\
  name (fst r) = PyStr (join "/" names) /\
  (suffix = "" -> version (fst r) = version m).
Proof.
  intros Hne HE Hnames Hsuf.
  assert (Hall : Forall plain (E :: names)) by (constructor; assumption).
  assert (Hat : contains "@" (join "/" (E :: names)) = false) by now apply contains_at_join.
  assert (Hsplit : split "/" (join "/" (E :: names)) = E :: names)
    by (apply split_join_char; [discriminate|now apply plain_slash]).
  assert (Hplain : forall m',
    _parse_purl ("pkg:" ++ join "/" (E :: names)) m' =
    (set_name (PyStr (join "/" names)) (set_ecosystem (PyStr E) m'), true)).
  { intros m'. rewrite parse_purl_plain by assumption. cbv zeta. rewrite Hsplit.
    destruct names as [|n l]; [congruence|]. reflexivity. }
  destruct Hsuf as [-> | Hs].
  - rewrite app_nil_r, Hplain. cbn. auto.
  - destruct suffix as [|c rest]; [discriminate|].
    cbn [startswith] in Hs. rewrite andb_true_r in Hs. apply Ascii.eqb_eq in Hs; subst c.
    change (String "@" rest) with ("@" ++ rest).
    rewrite parse_purl_at, Hplain by assumption. cbn.
    repeat split; auto. discriminate.
Qed.

(** Qualifiers and subpath after a version never reach the stored version. *)
Lemma version_text_noise (V noise : string) :
  contains "?" V = false -> contains "#" V = false ->
  noise = "" \/ startswith "?" noise = true \/ startswith "#" noise = true ->
  version_text (V ++ noise) = V.
Proof.
  intros Hq Hh Hn. unfold version_text.
  destruct Hn as [-> | [Hs | Hs]].
  - rewrite app_nil_r, (hd_split_char_none "?" V Hq). exact (hd_split_char_none "#" V Hh).
  - destruct noise as [|c n]; [discriminate|].
    cbn [startswith] in Hs. rewrite andb_true_r in Hs. apply Ascii.eqb_eq in Hs; subst c.
    rewrite hd_split_char_app by assumption. now apply hd_split_char_none.
  - destruct noise as [|c n]; [discriminate|].
    cbn [startswith] in Hs. rewrite andb_true_r in Hs. apply Ascii.eqb_eq in Hs; subst c.
    rewrite hd_split_char_prefix by assumption.
    change (String "#" n) with ("#" ++ n).
    rewrite (hd_split_char_prefix "?" "#" n) by reflexivity.
    now apply hd_split_char_app.
Qed.

(** X1: with a version present, qualifiers and subpath after it reach neither
    the name nor the version: the identifier parses like the one without
    them. *)
Lemma parse_purl_version_noise (body V noise : string) (m : PackageMetadata) :
  contains "@" body = false ->
  contains "?" V = false -> contains "#" V = false ->
  noise = "" \/ startswith "?" noise = true \/ startswith "#" noise = true ->
  _parse_purl ("pkg:" ++ body ++ "@" ++ V ++ noise) m =
  _parse_purl ("pkg:" ++ body) (set_version (PyStr V) m).
Proof.
  intros Hb Hq Hh Hn. rewrite parse_purl_at by assumption.
  now rewrite version_text_noise.
Qed.

End Parser.

(** ** Parsing: failure, segments, versions *)

Section ParserTheorems.
Import PyStr PyStrFacts.
Context {N : Network} {L : PyLib}.

(** C3, counterexample: ["pkg:npm@1.0/x"] starts with the scheme and has two
    [/]-separated segments after it, so the condition of the specification
    does not hold, and yet parsing fails: the version is split off first and
    what is left, ["npm"], is a single segment. *)
Lemma parse_fails_with_two_segments :
  snd (_parse_purl "pkg:npm@1.0/x" (PackageMetadata__init__ "pkg:npm@1.0/x")) = false /\
  spec_parse_fails "pkg:npm@1.0/x" = false.
Proof. split; reflexivity. Qed.

(** C3 (amended): parsing fails exactly when the string does not start with
    ["pkg:"] or the text after the scheme, cut at its first [@], has fewer than
    two [/]-separated segments; and when parsing fails [discover] raises
    [ValueError] naming the input, having sent no request and called no
    fetcher. *)
Theorem parse_failure_rejected (self : PackageDiscoveryService) (p : string) (allow_partial : bool) :
  (forall m, snd (_parse_purl p m) = false <->
     startswith "pkg:" p = false \/
     (List.length (split "/" (body_before_version p)) < 2)%nat) /\
  (snd (_parse_purl p (PackageMetadata__init__ p)) = false ->
   discover self p allow_partial = ([], Raise (ValueError ("Invalid PURL format: " ++ p)))).
Proof.
  split.
  - intros m. rewrite parse_purl_eq.
    destruct (startswith "pkg:" p); cbn [negb snd].
    + cbv zeta.
      destruct (List.length (split "/" (body_before_version p)) <? 2)%nat eqn:E; cbn [snd].
      * apply Nat.ltb_lt in E. tauto.
      * apply Nat.ltb_ge in E. split; [discriminate|]. intros [H|H]; [discriminate|lia].
    + tauto.
  - intros H. unfold discover, prepare.
    destruct (_parse_purl p (PackageMetadata__init__ p)) as [m ok].
    cbn [snd] in H. subst ok. reflexivity.
Qed.

(** C7, the failing input: without a version the qualifiers stay in the
    name. *)
Theorem parse_purl_qualifiers_in_name :
  _parse_purl "pkg:npm/express?foo=bar" (PackageMetadata__init__ "pkg:npm/express?foo=bar") =
  (set_name (PyStr "express?foo=bar")
     (set_ecosystem (PyStr "npm") (PackageMetadata__init__ "pkg:npm/express?foo=bar")), true).
Proof. reflexivity. Qed.

(** C8: a two-segment identifier [pkg:E/N] parses to ecosystem [E], name [N]
    and no version; with three or more segments (and any version suffix) the
    ecosystem is the first segment and the name is the others joined by [/]. *)
Theorem parse_purl_well_formed (E Nm : string) (names : list string) (suffix : string) :
  plain E -> plain Nm -> Forall plain names -> 2 <= List.length names ->
  suffix = "" \/ startswith "@" suffix = true ->
  _parse_purl ("pkg:" ++ E ++ "/" ++ Nm) (PackageMetadata__init__ ("pkg:" ++ E ++ "/" ++ Nm)) =
    (mkPackageMetadata ("pkg:" ++ E ++ "/" ++ Nm) (PyStr E) (PyStr Nm)
       PyNone PyNone PyNone PyNone PyNone PyNone [] PyNone, true) /\
  (let p := "pkg:" ++ join "/" (E :: names) ++ suffix in
   let r := _parse_purl p (PackageMetadata__init__ p) in
   snd r = true /\ ecosystem (fst r) = PyStr E /\ name (fst r) = PyStr (join "/" names)).
Proof.
  intros HE HN Hnames Hlen Hsuf. split.
  - assert (Hall : Forall plain [E; Nm])
      by (apply Forall_cons; [exact HE | apply Forall_cons; [exact HN | apply Forall_nil]]).
    pose proof (contains_at_join _ Hall) as Hat.
    pose proof (split_join_char "/" [E; Nm] ltac:(discriminate) (plain_slash _ Hall)) as Hsplit.
    change (join "/" [E; Nm]) with (E ++ "/" ++ Nm) in Hat, Hsplit.
    rewrite parse_purl_plain by exact Hat.
    cbv zeta. rewrite Hsplit. reflexivity.
  - cbv zeta. pose proof (parse_purl_segments E names suffix
      (PackageMetadata__init__ ("pkg:" ++ join "/" (E :: names) ++ suffix))) as H.
    cbv zeta in H. destruct H as (Hok & Heco & Hname & _); auto.
    destruct names; [simpl in Hlen; lia|discriminate].
Qed.

(** C10, counterexample: the name ["left@pad"] contains an [@], and parsing
    yields the name ["left"], not an empty name. *)
Lemma parse_purl_at_inside_name :
  contains "@" "left@pad" = true /\
  _parse_purl "pkg:npm/left@pad" (PackageMetadata__init__ "pkg:npm/left@pad") =
  (set_name (PyStr "left")
     (set_ecosystem (PyStr "npm")
        (set_version (PyStr "pad") (PackageMetadata__init__ "pkg:npm/left@pad"))), true).
Proof. split; reflexivity. Qed.

(** C10 (amended): the version is split off at the first [@] after the scheme,
    before the segments are read; so an identifier whose name begins with [@]
    parses successfully to an empty name, with the text after the [@], cut at
    the first [?] or [#], as its version. *)
Theorem parse_purl_version_split_first (E body rest : string) (m : PackageMetadata) :
  contains "@" body = false -> plain E ->
  _parse_purl ("pkg:" ++ body ++ "@" ++ rest) m =
    _parse_purl ("pkg:" ++ body) (set_version (PyStr (version_text rest)) m) /\
  _parse_purl ("pkg:" ++ E ++ "/@" ++ rest) m =
    (set_name (PyStr "")
       (set_ecosystem (PyStr E) (set_version (PyStr (version_text rest)) m)), true).
Proof.
  intros Hb [HE1 HE2]. split; [now apply parse_purl_at|].
  change (E ++ "/@" ++ rest) with (E ++ "/" ++ "@" ++ rest).
  rewrite <- (app_assoc E "/" ("@" ++ rest)).
  rewrite parse_purl_at by (rewrite contains_char_app, HE2; reflexivity).
  rewrite parse_purl_plain by (rewrite contains_char_app, HE2; reflexivity).
  cbv zeta. rewrite (split_char_app "/" E "" HE1). reflexivity.
Qed.

End ParserTheorems.

(** ** The provider chain *)

Section Chain.
Context {N : Network} {L : PyLib}.

Lemma invoked_app (a b : list event) : invoked (a ++ b)%list = (invoked a ++ invoked b)%list.
Proof.
  induction a as [|[r|n] a IH]; cbn [invoked app]; [reflexivity|exact IH|].
  now rewrite IH.
Qed.

Lemma invoked_http (l : list request) : invoked (map Http l) = [].
Proof. induction l; cbn [invoked map]; auto. Qed.

Lemma invoked_turn (n : string) (f : Fetcher) (md : PackageMetadata) :
  invoked (turn n f md) = [n].
Proof. unfold turn. cbn [invoked]. now rewrite invoked_http. Qed.

(** One turn of the loop. *)
Lemma try_sources_cons (n : string) (f : Fetcher) (rest : list (string * Fetcher)) (md : PackageMetadata) :
  try_sources ((n, f) :: rest) md =
  match contribution f md with
  | Some result =>
      if is_complete result
      then (turn n f md, Ok (inl (set_source (PyStr n) result)))
      else
        let c := try_sources rest (_merge_metadata md result) in
        ((turn n f md ++ fst c)%list, snd c)
  | None =>
      let c := try_sources rest md in ((turn n f md ++ fst c)%list, snd c)
  end.
Proof.
  cbn [try_sources]. unfold contribution, turn, bind, emit, try_except, map_events, ret.
  destruct (f md) as [t [[result|]|e]]; cbn [fst snd app].
  - rewrite List.app_nil_r.
    destruct (is_complete result); cbn [app].
    + now rewrite List.app_nil_r.
    + destruct (try_sources rest (_merge_metadata md result)) as [t' r']. reflexivity.
  - rewrite List.app_nil_r.
    destruct (try_sources rest md) as [t' r']. reflexivity.
  - rewrite List.app_nil_r.
    destruct (try_sources rest md) as [t' r']. reflexivity.
Qed.

(** The loop itself never raises. *)
Lemma try_sources_total (srcs : list (string * Fetcher)) (md : PackageMetadata) :
  exists t o, try_sources srcs md = (t, Ok o).
Proof.
  revert md; induction srcs as [|[n f] rest IH]; intros md.
  - do 2 eexists; reflexivity.
  - rewrite try_sources_cons.
    destruct (contribution f md) as [result|].
    + destruct (is_complete result); [do 2 eexists; reflexivity|].
      destruct (IH (_merge_metadata md result)) as (t & o & ->). do 2 eexists; reflexivity.
    + destruct (IH md) as (t & o & ->). do 2 eexists; reflexivity.
Qed.

(** Sources that pass without an early return hand their accumulator on. *)
Lemma try_sources_app (pre post : list (string * Fetcher)) (md acc : PackageMetadata) (tpre : list event) :
  try_sources pre md = (tpre, Ok (inr acc)) ->
  try_sources (pre ++ post)%list md =
  ((tpre ++ fst (try_sources post acc))%list, snd (try_sources post acc)).
Proof.
  revert md tpre; induction pre as [|[n f] pre IH]; intros md tpre H.
  - cbn in H. injection H as <- <-. cbn [app]. now destruct (try_sources post md).
  - cbn [app]. rewrite try_sources_cons in *.
    destruct (contribution f md) as [result|].
    + destruct (is_complete result); [discriminate|].
      cbv zeta in *.
      destruct (try_sources pre (_merge_metadata md result)) as [t1 r1] eqn:E1.
      cbn [fst snd] in H. apply pair_equal_spec in H as [<- ->].
      rewrite (IH _ _ E1). cbn [fst snd]. now rewrite List.app_assoc.
    + cbv zeta in *.
      destruct (try_sources pre md) as [t1 r1] eqn:E1.
      cbn [fst snd] in H. apply pair_equal_spec in H as [<- ->].
      rewrite (IH _ _ E1). cbn [fst snd]. now rewrite List.app_assoc.
Qed.

(** A chain that is exhausted has called every fetcher. *)
Lemma try_sources_exhausted (srcs : list (string * Fetcher)) (md acc : PackageMetadata) (t : list event) :
  try_sources srcs md = (t, Ok (inr acc)) -> invoked t = map fst srcs.
Proof.
  revert md t; induction srcs as [|[n f] rest IH]; intros md t H.
  - cbn in H. now injection H as <- <-.
  - rewrite try_sources_cons in H. cbn [map fst].
    destruct (contribution f md) as [result|].
    + destruct (is_complete result); [discriminate|].
      cbv zeta in H.
      destruct (try_sources rest (_merge_metadata md result)) as [t1 r1] eqn:E1.
      cbn [fst snd] in H. apply pair_equal_spec in H as [<- ->].
      rewrite invoked_app, invoked_turn, (IH _ _ E1). reflexivity.
    + cbv zeta in H.
      destruct (try_sources rest md) as [t1 r1] eqn:E1.
      cbn [fst snd] in H. apply pair_equal_spec in H as [<- ->].
      rewrite invoked_app, invoked_turn, (IH _ _ E1). reflexivity.
Qed.

(** An early return comes from a contribution that is complete by itself. *)
Lemma try_sources_early (srcs : list (string * Fetcher)) (md result : PackageMetadata) (t : list event) :
  try_sources srcs md = (t, Ok (inl result)) ->
  exists pre n f post acc tpre r,
    srcs = (pre ++ (n, f) :: post)%list /\
    try_sources pre md = (tpre, Ok (inr acc)) /\
    contribution f acc = Some r /\ is_complete r = true /\
    result = set_source (PyStr n) r /\
    t = (tpre ++ turn n f acc)%list.
Proof.
  revert md t; induction srcs as [|[n f] rest IH]; intros md t H.
  - cbn in H. discriminate.
  - rewrite try_sources_cons in H.
    destruct (contribution f md) as [r|] eqn:Ec.
    + destruct (is_complete r) eqn:Er.
      * apply pair_equal_spec in H as [<- H2]. injection H2 as <-.
        exists [], n, f, rest, md, [], r. repeat split; auto.
      * cbv zeta in H.
        destruct (try_sources rest (_merge_metadata md r)) as [t1 r1] eqn:E1.
        cbn [fst snd] in H. apply pair_equal_spec in H as [<- ->].
        destruct (IH _ _ E1) as (pre & n' & f' & post & acc & tpre & r' & -> & Hp & Hc & Hr & -> & ->).
        exists ((n, f) :: pre), n', f', post, acc, (turn n f md ++ tpre)%list, r'.
        repeat split; auto.
        -- rewrite try_sources_cons, Ec, Er. cbv zeta. now rewrite Hp.
        -- now rewrite List.app_assoc.
    + cbv zeta in H.
      destruct (try_sources rest md) as [t1 r1] eqn:E1.
      cbn [fst snd] in H. apply pair_equal_spec in H as [<- ->].
      destruct (IH _ _ E1) as (pre & n' & f' & post & acc & tpre & r' & -> & Hp & Hc & Hr & -> & ->).
      exists ((n, f) :: pre), n', f', post, acc, (turn n f md ++ tpre)%list, r'.
      repeat split; auto.
      * rewrite try_sources_cons, Ec. cbv zeta. now rewrite Hp.
      * now rewrite List.app_assoc.
Qed.

End Chain.

(** ** [discover]: preparation, chain, validation *)

Section Discover.
Context {N : Network} {L : PyLib}.

Lemma fst_bind {E A B} (c : M E A) (k : A -> M E B) :
  fst (bind c k) =
  (fst c ++ match snd c with Ok a => fst (k a) | Raise _ => [] end)%list.
Proof.
  unfold bind. destruct c as [t [a|e]]; cbn [fst snd].
  - now destruct (k a).
  - now rewrite List.app_nil_r.
Qed.

Lemma fst_try_except {E A} (c : M E A) (h : exn -> M E A) :
  fst (try_except c h) =
  (fst c ++ match snd c with Ok _ => [] | Raise e => fst (h e) end)%list.
Proof.
  unfold try_except. destruct c as [t [a|e]]; cbn [fst snd].
  - now rewrite List.app_nil_r.
  - now destruct (h e).
Qed.

(** A computation is quiet when it calls no fetcher. *)
Lemma quiet_bind {A B} (c : M event A) (k : A -> M event B) :
  invoked (fst c) = [] -> (forall a, invoked (fst (k a)) = []) ->
  invoked (fst (bind c k)) = [].
Proof.
  intros Hc Hk. rewrite fst_bind, invoked_app, Hc.
  destruct (snd c); [apply Hk|reflexivity].
Qed.

Lemma quiet_try_except {A} (c : M event A) (h : exn -> M event A) :
  invoked (fst c) = [] -> (forall e, invoked (fst (h e)) = []) ->
  invoked (fst (try_except c h)) = [].
Proof.
  intros Hc Hh. rewrite fst_try_except, invoked_app, Hc.
  destruct (snd c); [reflexivity|apply Hh].
Qed.

Lemma quiet_requests {A} (c : M request A) : invoked (fst (map_events Http c)) = [].
Proof. apply invoked_http. Qed.

Ltac quiet :=
  repeat first
    [ reflexivity
    | apply quiet_requests
    | apply quiet_bind; [|intros ?]
    | apply quiet_try_except; [|intros ?]
    | match goal with
      | |- context [if ?x then _ else _] => destruct x
      | |- context [match ?x with _ => _ end] => destruct x
      end ].

(** The special cases send requests and call no fetcher. *)
Lemma special_github_invokes_nothing (md : PackageMetadata) :
  invoked (fst (special_github md)) = [].
Proof. unfold special_github. quiet. Qed.

Lemma special_golang_invokes_nothing (md : PackageMetadata) :
  invoked (fst (special_golang md)) = [].
Proof. unfold special_golang. quiet. Qed.

Lemma prepare_invokes_nothing (p : string) : invoked (fst (prepare p)) = [].
Proof.
  unfold prepare. destruct (_parse_purl p (PackageMetadata__init__ p)) as [m ok].
  destruct ok; cbn [negb]; [|reflexivity].
  apply quiet_bind; [apply special_github_invokes_nothing|].
  intros a. apply special_golang_invokes_nothing.
Qed.

(** [discover] once the preparation has succeeded. *)
Lemma discover_eq (self : PackageDiscoveryService) (p : string) (allow_partial : bool) (t0 : list event) (md : PackageMetadata) :
  prepare p = (t0, Ok md) ->
  discover self p allow_partial =
  let c := try_sources (sources self) md in
  ((t0 ++ fst c)%list,
   match snd c with
   | Ok (inl result) => Ok result
   | Ok (inr acc) =>
       if negb allow_partial && negb (is_complete acc)
       then Raise (ValueError (incomplete_message p acc))
       else Ok acc
   | Raise e => Raise e
   end).
Proof.
  intros H. unfold discover. rewrite H. unfold bind, ret, raise.
  destruct (try_sources (sources self) md) as [t [[result|acc]|e]]; cbn [fst snd].
  - now rewrite List.app_nil_r.
  - destruct (negb allow_partial && negb (is_complete acc)); now rewrite List.app_nil_r.
  - reflexivity.
Qed.

(** After a successful parse the name and the ecosystem are strings. *)
Lemma parse_purl_strings (p : string) (m m' : PackageMetadata) :
  _parse_purl p m = (m', true) ->
  exists e nm, ecosystem m' = PyStr e /\ name m' = PyStr nm.
Proof.
  rewrite parse_purl_eq.
  destruct (negb (PyStr.startswith "pkg:" p)); [discriminate|]. cbv zeta.
  destruct (_ <? 2)%nat; [discriminate|].
  intros [= <-]. do 2 eexists; split; reflexivity.
Qed.

Lemma special_github_ok (md : PackageMetadata) (e nm : string) :
  ecosystem md = PyStr e -> name md = PyStr nm ->
  exists t md', special_github md = (t, Ok md') /\
                ecosystem md' = PyStr e /\ name md' = PyStr nm.
Proof.
  intros He Hn.
  unfold special_github. rewrite He, Hn.
  destruct (py_eq_str (PyStr e) "github");
    [|do 2 eexists; split; [reflexivity|split; assumption]].
  cbn [truthy py_in lift].
  match goal with
  | |- context [bind (if ?c then ?x else ?y) _] =>
      assert (Hb : exists b, (if c then x else y) = ([], Ok b))
        by (destruct c; eexists; reflexivity);
      destruct Hb as [b ->]
  end.
  unfold bind at 1. cbn [app].
  destruct b; [|do 2 eexists; split; [reflexivity|split; assumption]].
  unfold try_except, bind, map_events, client_get, lift, ret. cbn [fst snd map].
  destruct (http_get _) as [|resp]; cbn [app];
    [do 2 eexists; split; [reflexivity|split; assumption]|].
  destruct (status_code resp =? 200)%Z; cbn [app];
    [|do 2 eexists; split; [reflexivity|split; assumption]].
  destruct (json resp) as [data|]; cbn [app];
    [|do 2 eexists; split; [reflexivity|split; assumption]].
  destruct (py_get data "tag_name" (PyStr "")) as [tag|]; cbn [app];
    [|do 2 eexists; split; [reflexivity|split; assumption]].
  destruct (truthy tag); cbn [app];
    [|do 2 eexists; split; [reflexivity|split; assumption]].
  destruct (as_str tag); cbn [app];
    do 2 eexists; (split; [reflexivity|split; assumption]).
Qed.

Lemma special_golang_ok (md : PackageMetadata) (nm : string) :
  name md = PyStr nm -> exists md', special_golang md = ([], Ok md').
Proof.
  intros Hn. unfold special_golang. rewrite Hn. unfold bind, ret, lift. cbn [as_str].
  destruct (_ || _); [|eexists; reflexivity].
  destruct (PyStr.startswith "github.com/" nm); [eexists; reflexivity|].
  destruct (PyStr.startswith "gitlab.com/" nm); eexists; reflexivity.
Qed.

(** X4: parsing is the only step of the preparation that can fail; after a
    successful parse the special cases never raise and the chain is reached. *)
Lemma prepare_total (p : string) :
  snd (_parse_purl p (PackageMetadata__init__ p)) = true ->
  exists t md, prepare p = (t, Ok md).
Proof.
  intros H. unfold prepare.
  destruct (_parse_purl p (PackageMetadata__init__ p)) as [m ok] eqn:E.
  cbn [snd] in H; subst ok. cbn [negb].
  destruct (parse_purl_strings _ _ _ E) as (e & nm & He & Hn).
  destruct (special_github_ok m e nm He Hn) as (t & md' & -> & _ & Hn').
  destruct (special_golang_ok md' nm Hn') as (md'' & Hg).
  unfold bind. rewrite Hg. do 2 eexists; reflexivity.
Qed.

(** The run of [discover] up to a contribution that is complete by itself. *)
Lemma discover_early (self : PackageDiscoveryService) (p : string) (allow_partial : bool) (t0 tpre : list event) (md acc r : PackageMetadata) (pre post : list (string * Fetcher)) (n : string) (f : Fetcher) :
  prepare p = (t0, Ok md) ->
  sources self = (pre ++ (n, f) :: post)%list ->
  try_sources pre md = (tpre, Ok (inr acc)) ->
  contribution f acc = Some r ->
  is_complete r = true ->
  discover self p allow_partial =
    ((t0 ++ tpre ++ turn n f acc)%list, Ok (set_source (PyStr n) r)).
Proof.
  intros Hprep Hsrc Hpre Hc Hr.
  rewrite (discover_eq _ _ _ _ _ Hprep), Hsrc, (try_sources_app _ _ _ _ _ Hpre).
  rewrite try_sources_cons, Hc, Hr. reflexivity.
Qed.

Lemma invoked_early (t0 tpre : list event) (p : string) (md acc : PackageMetadata) (pre : list (string * Fetcher)) (n : string) (f : Fetcher) :
  prepare p = (t0, Ok md) ->
  try_sources pre md = (tpre, Ok (inr acc)) ->
  invoked (t0 ++ tpre ++ turn n f acc)%list = (map fst pre ++ [n])%list.
Proof.
  intros Hprep Hpre.
  rewrite !invoked_app, invoked_turn, (try_sources_exhausted _ _ _ _ Hpre).
  pose proof (prepare_invokes_nothing p) as H0. rewrite Hprep in H0. cbn [fst] in H0.
  now rewrite H0.
Qed.

(** C1: when the sources before [(n, f)] pass without an early return and the
    contribution of [f] is complete by itself, [discover] returns that
    contribution with [source] set to [n]; the fetchers called are those
    before [f] and [f], none of those after it. *)
Theorem discover_returns_complete_contribution (self : PackageDiscoveryService) (p : string) (allow_partial : bool) (t0 tpre : list event) (md acc r : PackageMetadata) (pre post : list (string * Fetcher)) (n : string) (f : Fetcher) :
  prepare p = (t0, Ok md) ->
  sources self = (pre ++ (n, f) :: post)%list ->
  try_sources pre md = (tpre, Ok (inr acc)) ->
  contribution f acc = Some r ->
  is_complete r = true ->
  discover self p allow_partial =
    ((t0 ++ tpre ++ turn n f acc)%list, Ok (set_source (PyStr n) r)) /\
  source (set_source (PyStr n) r) = PyStr n /\
  invoked (fst (discover self p allow_partial)) = (map fst pre ++ [n])%list.
Proof.
  intros Hprep Hsrc Hpre Hc Hr.
  pose proof (discover_early self p allow_partial _ _ _ _ _ _ _ _ _ Hprep Hsrc Hpre Hc Hr) as Hd.
  split; [exact Hd|]. split; [reflexivity|].
  rewrite Hd. cbn [fst]. now apply (invoked_early t0 tpre p md).
Qed.

(** C2 (amended): the chain stops at the first contribution that is complete
    by itself, and only there: either the fetchers called end with one whose
    own contribution is complete, or every fetcher of the chain is called,
    whether or not the accumulator is complete. *)
Theorem chain_stops_at_complete_contribution (self : PackageDiscoveryService) (p : string) (allow_partial : bool) (t0 : list event) (md : PackageMetadata) :
  prepare p = (t0, Ok md) ->
  (exists pre n f post tpre acc r,
      sources self = (pre ++ (n, f) :: post)%list /\
      try_sources pre md = (tpre, Ok (inr acc)) /\
      contribution f acc = Some r /\ is_complete r = true /\
      invoked (fst (discover self p allow_partial)) = (map fst pre ++ [n])%list) \/
  (exists t1 acc,
      try_sources (sources self) md = (t1, Ok (inr acc)) /\
      invoked (fst (discover self p allow_partial)) = map fst (sources self)).
Proof.
  intros Hprep.
  pose proof (prepare_invokes_nothing p) as H0. rewrite Hprep in H0. cbn [fst] in H0.
  destruct (try_sources_total (sources self) md) as (t & [result|acc] & Ht).
  - left.
    destruct (try_sources_early _ _ _ _ Ht)
      as (pre & n & f & post & acc & tpre & r & Hs & Hp & Hc & Hr & _ & _).
    exists pre, n, f, post, tpre, acc, r. repeat split; auto.
    rewrite (discover_early self p allow_partial _ _ _ _ _ _ _ _ _ Hprep Hs Hp Hc Hr).
    cbn [fst]. now apply (invoked_early t0 tpre p md).
  - right. exists t, acc. split; [exact Ht|].
    rewrite (discover_eq _ _ _ _ _ Hprep), Ht. cbn [fst].
    now rewrite invoked_app, H0, (try_sources_exhausted _ _ _ _ Ht).
Qed.

Lemma in_missing (acc : PackageMetadata) (field : string) :
  In field (missing acc) <->
  (field = "ecosystem" /\ truthy (ecosystem acc) = false) \/
  (field = "name" /\ truthy (name acc) = false) \/
  (field = "repo_url" /\ truthy (repo_url acc) = false).
Proof.
  unfold missing.
  destruct (truthy (ecosystem acc)), (truthy (name acc)), (truthy (repo_url acc));
    cbn [app In]; intuition (try discriminate; auto).
Qed.

(** C4: when the chain is exhausted with an incomplete accumulator,
    [discover] without [allow_partial] raises [ValueError] whose message lists
    exactly the empty fields among ecosystem, name and repo_url; with
    [allow_partial] it returns the accumulator. *)
Theorem discover_exhausted (self : PackageDiscoveryService) (p : string) (t0 t1 : list event) (md acc : PackageMetadata) :
  prepare p = (t0, Ok md) ->
  try_sources (sources self) md = (t1, Ok (inr acc)) ->
  is_complete acc = false ->
  discover self p false =
    ((t0 ++ t1)%list,
     Raise (ValueError ("Could not discover complete metadata for " ++ p ++ ". Missing: " ++
                        PyStr.join ", " (missing acc)))) /\
  (forall field, In field (missing acc) <->
     (field = "ecosystem" /\ truthy (ecosystem acc) = false) \/
     (field = "name" /\ truthy (name acc) = false) \/
     (field = "repo_url" /\ truthy (repo_url acc) = false)) /\
  missing acc <> [] /\
  discover self p true = ((t0 ++ t1)%list, Ok acc).
Proof.
  intros Hprep Ht Hc.
  rewrite !(discover_eq _ _ _ _ _ Hprep), Ht. cbn [fst snd]. rewrite Hc. cbn [negb andb].
  repeat split; try apply in_missing.
  unfold missing, is_complete in *.
  destruct (truthy (ecosystem acc)), (truthy (name acc)), (truthy (repo_url acc));
    cbn in *; congruence.
Qed.

End Discover.

(** ** Runs of [discover] on sample environments *)

(** C1, witness: the first source raises, the second returns a complete
    record; the result carries the name of the second. *)
Lemma discover_fallback_witness :
  discover (N := offline) (mocked (failing ConnectError) (returning (Some express_complete)))
    "pkg:npm/express" false =
    ([Invoke "deps.dev"; Invoke "clearlydefined"],
     Ok (set_source (PyStr "clearlydefined") express_complete)) /\
  source (set_source (PyStr "clearlydefined") express_complete) = PyStr "clearlydefined" /\
  invoked (fst (discover (N := offline)
                  (mocked (failing ConnectError) (returning (Some express_complete)))
                  "pkg:npm/express" false)) = ["deps.dev"; "clearlydefined"].
Proof.
  exact (discover_returns_complete_contribution (N := offline) (L := sample_lib)
           (mocked (failing ConnectError) (returning (Some express_complete)))
           "pkg:npm/express" false [] [Invoke "deps.dev"]
           (parsed "pkg:npm/express") (parsed "pkg:npm/express") express_complete
           [("deps.dev", failing ConnectError)]
           [("purl2src", _fetch_purl2src); ("upmex", _fetch_upmex)]
           "clearlydefined" (returning (Some express_complete))
           eq_refl eq_refl eq_refl eq_refl eq_refl).
Defined.

(** C2, counterexample: for ["pkg:github/expressjs/express"] the accumulator
    is complete before the chain starts, and all five fetchers are called, the
    paid search included; and when merging a partial contribution completes
    the accumulator, the remaining fetchers are called all the same. *)
Lemma chain_runs_with_complete_accumulator :
  (exists t0 md,
      prepare (N := offline) "pkg:github/expressjs/express" = (t0, Ok md) /\
      is_complete md = true /\
      invoked (fst (discover (N := offline)
                      (PackageDiscoveryService__init__ (N := offline) (Some "key"))
                      "pkg:github/expressjs/express" false)) =
      ["deps.dev"; "clearlydefined"; "purl2src"; "upmex"; "serpapi"]) /\
  (exists t acc,
      try_sources [("deps.dev", returning (Some nameless_repo))] (parsed "pkg:npm/express") =
        (t, Ok (inr acc)) /\
      is_complete acc = true /\
      invoked (fst (discover (N := offline)
                      (mocked (returning (Some nameless_repo)) (returning None))
                      "pkg:npm/express" false)) =
      ["deps.dev"; "clearlydefined"; "purl2src"; "upmex"]).
Proof.
  split; do 2 eexists; repeat split; reflexivity.
Qed.

(** C2, witness: the same run, where every fetcher is called. *)
Lemma chain_stops_witness :
  (exists pre n f post tpre acc r,
      sources (PackageDiscoveryService__init__ (N := offline) (Some "key")) =
        (pre ++ (n, f) :: post)%list /\
      try_sources pre (set_repo_url (PyStr "https://github.com/expressjs/express")
                         (parsed "pkg:github/expressjs/express")) = (tpre, Ok (inr acc)) /\
      contribution f acc = Some r /\ is_complete r = true /\
      invoked (fst (discover (N := offline)
                      (PackageDiscoveryService__init__ (N := offline) (Some "key"))
                      "pkg:github/expressjs/express" false)) = (map fst pre ++ [n])%list) \/
  (exists t1 acc,
      try_sources (sources (PackageDiscoveryService__init__ (N := offline) (Some "key")))
        (set_repo_url (PyStr "https://github.com/expressjs/express")
           (parsed "pkg:github/expressjs/express")) = (t1, Ok (inr acc)) /\
      invoked (fst (discover (N := offline)
                      (PackageDiscoveryService__init__ (N := offline) (Some "key"))
                      "pkg:github/expressjs/express" false)) =
      map fst (sources (PackageDiscoveryService__init__ (N := offline) (Some "key")))).
Proof.
  exact (chain_stops_at_complete_contribution (N := offline) (L := sample_lib)
           (PackageDiscoveryService__init__ (N := offline) (Some "key"))
           "pkg:github/expressjs/express" false
           [Http {| url := "https://api.github.com/repos/expressjs/express/releases/latest";
                    params := [] |}]
           (set_repo_url (PyStr "https://github.com/expressjs/express")
              (parsed "pkg:github/expressjs/express"))
           eq_refl).
Defined.

(** C4, witness: every source returns nothing for ["pkg:npm/nonexistent"]. *)
Lemma discover_exhausted_witness :
  discover (N := offline) (mocked (returning None) (returning None)) "pkg:npm/nonexistent" false =
    ([Invoke "deps.dev"; Invoke "clearlydefined"; Invoke "purl2src"; Invoke "upmex"],
     Raise (ValueError "Could not discover complete metadata for pkg:npm/nonexistent. Missing: repo_url")) /\
  discover (N := offline) (mocked (returning None) (returning None)) "pkg:npm/nonexistent" true =
    ([Invoke "deps.dev"; Invoke "clearlydefined"; Invoke "purl2src"; Invoke "upmex"],
     Ok (parsed "pkg:npm/nonexistent")).
Proof.
  pose proof (discover_exhausted (N := offline) (L := sample_lib)
                (mocked (returning None) (returning None)) "pkg:npm/nonexistent"
                [] [Invoke "deps.dev"; Invoke "clearlydefined"; Invoke "purl2src"; Invoke "upmex"]
                (parsed "pkg:npm/nonexistent") (parsed "pkg:npm/nonexistent")
                eq_refl eq_refl eq_refl) as (H1 & _ & _ & H2).
  split; [exact H1|exact H2].
Defined.

(** C3, witness: the scenario of the specification, an identifier without
    scheme. *)
Lemma parse_failure_witness :
  discover (N := offline) (mocked (returning None) (returning None)) "npm/express" false =
  ([], Raise (ValueError "Invalid PURL format: npm/express")).
Proof.
  exact (proj2 (parse_failure_rejected (N := offline) (L := sample_lib)
                  (mocked (returning None) (returning None)) "npm/express" false) eq_refl).
Defined.

(** ** Merging *)

Section Merge.
Context {L : PyLib}.

Lemma py_or_same (a : pyval) : py_or a a = a.
Proof. unfold py_or. now destruct (truthy a). Qed.

Lemma set_to_list_nil : set_to_list [] = [].
Proof.
  destruct (set_to_list []) as [|x l] eqn:E; [reflexivity|].
  exfalso. apply (proj1 (set_to_list_In [] x)). rewrite E. now left.
Qed.

Lemma merge_complete (base new : PackageMetadata) :
  is_complete base = true -> is_complete (_merge_metadata base new) = true.
Proof.
  unfold is_complete. intros H.
  apply andb_true_iff in H as [H12 H3]. apply andb_true_iff in H12 as [H1 H2].
  unfold _merge_metadata, py_or. cbn [ecosystem name repo_url].
  rewrite H1, H2, H3. now rewrite H1, H2, H3.
Qed.

(** C5: the merge is idempotent on records as the specification has them,
    with the maintainers a set: merging a record with itself keeps [purl] and
    every scalar attribute, and its maintainers are the same names, none
    repeated; the list that holds them is a permutation of the original when
    that repeats no name, and the merge returns the record itself when there
    is no maintainer, as in every record the parser and the fetchers build.
    For two records every scalar attribute is the base's when that is
    non-empty and the candidate's otherwise, and the maintainers are the
    union of both lists without repetition. *)
Theorem merge_fill_missing (X base new : PackageMetadata) :
  (purl (_merge_metadata X X) = purl X /\
   Forall (fun f => f (_merge_metadata X X) = f X) scalar_fields /\
   NoDup (maintainers (_merge_metadata X X)) /\
   (forall x, In x (maintainers (_merge_metadata X X)) <-> In x (maintainers X)) /\
   (NoDup (maintainers X) ->
    Permutation (maintainers (_merge_metadata X X)) (maintainers X)) /\
   (maintainers X = [] -> _merge_metadata X X = X)) /\
  Forall (fun f => f (_merge_metadata base new) = if truthy (f base) then f base else f new)
    scalar_fields /\
  NoDup (maintainers (_merge_metadata base new)) /\
  (forall x, In x (maintainers (_merge_metadata base new)) <->
             In x (maintainers base) \/ In x (maintainers new)).
Proof.
  assert (Hin : forall x, In x (maintainers (_merge_metadata X X)) <-> In x (maintainers X)).
  { intros x. cbn. rewrite set_to_list_In, in_app_iff. tauto. }
  repeat split.
  - unfold scalar_fields. repeat constructor; cbn; apply py_or_same.
  - apply set_to_list_NoDup.
  - apply Hin.
  - apply Hin.
  - intros Hnd. apply NoDup_Permutation; [apply set_to_list_NoDup|exact Hnd|exact Hin].
  - intros Hm. destruct X as [pu ec nm ve re li de ho la ma so]. cbn in Hm; subst ma.
    unfold _merge_metadata. cbn. rewrite !py_or_same, set_to_list_nil. reflexivity.
  - unfold scalar_fields. repeat constructor; reflexivity.
  - apply set_to_list_NoDup.
  - cbn. rewrite set_to_list_In, in_app_iff. tauto.
  - cbn. rewrite set_to_list_In, in_app_iff. tauto.
Qed.

End Merge.

(** ** The primary metadata fetcher *)

Section Cleaning.
Import PyStr PyStrFacts.

Lemma startswith_trans (y q s : string) :
  startswith y q = true -> startswith q s = true -> startswith y s = true.
Proof.
  revert q s; induction y as [|a y IH]; intros q s Hy Hq; [reflexivity|].
  destruct q as [|b q]; [discriminate|]. destruct s as [|c s]; [discriminate|].
  cbn [startswith] in *.
  apply andb_true_iff in Hy as [Hab Hy]. apply andb_true_iff in Hq as [Hbc Hq].
  apply Ascii.eqb_eq in Hab, Hbc. subst. rewrite Ascii.eqb_refl. cbn [andb]. eauto.
Qed.

Lemma cut_at_first_prefix (X : list string) (s : string) :
  startswith (cut_at_first X s) s = true.
Proof.
  induction s as [|c s IH]; cbn [cut_at_first].
  - now destruct (existsb _ X).
  - destruct (existsb _ X); [reflexivity|].
    cbn [startswith]. now rewrite Ascii.eqb_refl.
Qed.

(** Text without [/] is never cut into. *)
Lemma cut_at_first_keeps (X : list string) (w s : string) :
  Forall path_segment X -> mem "/" w = false ->
  startswith w s = true -> startswith w (cut_at_first X s) = true.
Proof.
  intros HX. revert s; induction w as [|a w IH]; intros s Hw Hs; [reflexivity|].
  destruct s as [|b s]; [discriminate|].
  cbn [startswith] in Hs. apply andb_true_iff in Hs as [Hab Hs].
  apply Ascii.eqb_eq in Hab; subst b.
  cbn [mem] in Hw. apply orb_false_iff in Hw as [Ha Hw].
  cbn [cut_at_first].
  assert (Hno : existsb (fun x => startswith x (String a s)) X = false).
  { clear - HX Ha. induction HX as [|x X (v & -> & _) _ IHX]; [reflexivity|].
    cbn [existsb startswith]. rewrite Ha. exact IHX. }
  rewrite Hno. cbn [startswith]. rewrite Ascii.eqb_refl. cbn [andb]. auto.
Qed.

(** Cutting at the suffixes one after the other cuts at the first occurrence
    of any of them. *)
Lemma cut_at_first_snoc (X : list string) (y s : string) :
  Forall path_segment X -> path_segment y ->
  cut_at_first [y] (cut_at_first X s) = cut_at_first (X ++ [y]) s.
Proof.
  intros HX (w & -> & Hw).
  induction s as [|c s IH].
  - cbn [cut_at_first]. rewrite existsb_app.
    destruct (existsb _ X); reflexivity.
  - cbn [cut_at_first]. rewrite existsb_app. cbn [existsb]. rewrite orb_false_r.
    destruct (existsb (fun x => startswith x (String c s)) X) eqn:EX; [reflexivity|].
    cbn [orb cut_at_first existsb]. rewrite orb_false_r.
    destruct (startswith (String "/" w) (String c s)) eqn:Ey.
    + cbn [startswith] in Ey |- *. apply andb_true_iff in Ey as [Hc Hs].
      rewrite Hc. cbn [andb]. now rewrite (cut_at_first_keeps X w s HX Hw Hs).
    + destruct (startswith (String "/" w) (String c (cut_at_first X s))) eqn:Ey'.
      * exfalso. rewrite (startswith_trans _ _ (String c s) Ey') in Ey; [discriminate|].
        cbn [startswith]. rewrite Ascii.eqb_refl. apply cut_at_first_prefix.
      * now rewrite IH.
Qed.

Lemma partition_cut (x s : string) :
  match partition x s with Some (a, _) => a | None => s end = cut_at_first [x] s.
Proof.
  induction s as [|c s IH]; cbn [partition cut_at_first existsb]; rewrite orb_false_r.
  - now destruct (startswith x "").
  - destruct (startswith x (String c s)); [reflexivity|].
    rewrite <- IH. now destruct (partition x s) as [[a b]|].
Qed.

Lemma cut_step (suffix cleaned : string) :
  (if contains suffix cleaned then hd "" (split suffix cleaned) else cleaned) =
  cut_at_first [suffix] cleaned.
Proof.
  rewrite <- partition_cut, hd_split. unfold contains.
  now destruct (partition suffix cleaned) as [[a b]|].
Qed.

(** X2: what [_fetch_deps_dev] stores for a link: [git+] and [.git] removed
    wherever they occur, then the text before the first occurrence of any of
    the path suffixes. *)
Lemma cleaned_url_eq (url_val : string) :
  cleaned_url url_val =
  cut_at_first path_suffixes (replace ".git" "" (replace "git+" "" url_val)).
Proof.
  unfold cleaned_url, path_suffixes. cbn [fold_left].
  rewrite !cut_step.
  assert (seg : forall w, mem "/" w = false -> path_segment (String "/" w))
    by (intros w H; exists w; auto).
  rewrite (cut_at_first_snoc ["/issues"] "/pulls")
    by (repeat constructor; apply seg; reflexivity).
  rewrite (cut_at_first_snoc ["/issues"; "/pulls"] "/wiki")
    by (repeat constructor; apply seg; reflexivity).
  rewrite (cut_at_first_snoc ["/issues"; "/pulls"; "/wiki"] "/tree")
    by (repeat constructor; apply seg; reflexivity).
  rewrite (cut_at_first_snoc ["/issues"; "/pulls"; "/wiki"; "/tree"] "/blob")
    by (repeat constructor; apply seg; reflexivity).
  reflexivity.
Qed.

End Cleaning.

(** C6, the failing input: a repository whose name contains [.git] in the
    middle. The link ["https://github.com/octo/octo.github.io"] has no [git+]
    prefix, no trailing [.git] and no path suffix, so cleaning as specified
    leaves it as it is; [_fetch_deps_dev] stores
    ["https://github.com/octo/octohub.io"], because [replace] removes [.git]
    wherever it occurs. *)
Theorem fetch_deps_dev_rewrites_github_io {L : PyLib} :
  snd (_fetch_deps_dev
         (N := deps_dev_answers "octo-pages" "1.0.0" "1.0.0" "https://github.com/octo/octo.github.io")
         (parsed "pkg:npm/octo-pages")) =
    Ok (Some (mkPackageMetadata "pkg:npm/octo-pages" (PyStr "npm") (PyStr "octo-pages") PyNone
                (PyStr "https://github.com/octo/octohub.io") (PyStr "MIT") PyNone PyNone
                (PyStr "1.0.0") [] PyNone)) /\
  clean_repo_url_spec "https://github.com/octo/octo.github.io" =
    "https://github.com/octo/octo.github.io".
Proof.
  split; [|vm_compute; reflexivity].
  pose proof (str_lower_ascii "https://github.com/octo/octo.github.io" eq_refl) as Hlow.
  cbv -[str_lower] in Hlow |- *. rewrite Hlow. reflexivity.
Qed.

(** X5: the scenario of the specification, a link with [git+] prefix and
    [.git] suffix: repository URL, license, latest version and source. *)
Example discover_express {L : PyLib} :
  discover
    (N := deps_dev_answers "express" "4.18.2" "4.18.0" "git+https://github.com/expressjs/express.git")
    (PackageDiscoveryService__init__
       (N := deps_dev_answers "express" "4.18.2" "4.18.0" "git+https://github.com/expressjs/express.git")
       None)
    "pkg:npm/express@4.18.0" false =
  ([Invoke "deps.dev";
    Http {| url := "https://api.deps.dev/v3/systems/npm/packages/express"; params := [] |};
    Http {| url := "https://api.deps.dev/v3/systems/npm/packages/express/versions/4.18.0";
            params := [] |}],
   Ok (mkPackageMetadata "pkg:npm/express@4.18.0" (PyStr "npm") (PyStr "express") (PyStr "4.18.0")
         (PyStr "https://github.com/expressjs/express") (PyStr "MIT") PyNone PyNone
         (PyStr "4.18.2") [] (PyStr "deps.dev"))).
Proof.
  pose proof (str_lower_ascii "git+https://github.com/expressjs/express.git" eq_refl) as Hlow.
  cbv -[str_lower] in Hlow |- *. rewrite Hlow. reflexivity.
Qed.

(** The first repository link found wins: a later link never replaces a
    repository URL that is set. *)
Lemma link_step_keeps_repo_url {L : PyLib} (link : pyval) (result result' : PackageMetadata) :
  truthy (repo_url result) = true ->
  snd (link_step link result) = Ok result' ->
  repo_url result' = repo_url result.
Proof.
  intros Ht. unfold link_step, bind, lift, ret.
  destruct (py_get link "label" (PyStr "")) as [label_v|]; [|discriminate].
  destruct (as_str label_v) as [label|]; [|discriminate].
  destruct (py_get link "url" (PyStr "")) as [url_v|]; [|discriminate].
  destruct (as_str url_v) as [url_val|]; [|discriminate].
  destruct (existsb _ repo_hosts).
  - rewrite Ht. cbn. now intros [= <-].
  - destruct (_ && _); cbn; now intros [= <-].
Qed.

(** X3: the first repository link found wins: once [repo_url] is set, the
    loop over the remaining links leaves it as it is. *)
Lemma links_loop_keeps_repo_url {L : PyLib} (links : list pyval) (result : PackageMetadata) :
  truthy (repo_url result) = true ->
  repo_url (fst (links_loop links result)) = repo_url result.
Proof.
  revert result; induction links as [|link rest IH]; intros result Ht; [reflexivity|].
  cbn [links_loop].
  destruct (snd (link_step link result)) as [result'|] eqn:E; [|reflexivity].
  pose proof (link_step_keeps_repo_url _ _ _ Ht E) as Hk.
  rewrite IH; [exact Hk|now rewrite Hk].
Qed.

(** ** Identifiers of repositories on the forge *)

Section Github.
Import PyStr PyStrFacts.
Context {N : Network} {L : PyLib}.

Lemma parse_purl_github (owner repo : string) (m : PackageMetadata) :
  contains "@" owner = false -> contains "@" repo = false ->
  _parse_purl ("pkg:github/" ++ owner ++ "/" ++ repo) m =
  (set_name (PyStr (owner ++ "/" ++ repo)) (set_ecosystem (PyStr "github") m), true).
Proof.
  intros Ho Hr. set (nm := owner ++ "/" ++ repo).
  assert (Hat : contains "@" nm = false)
    by (unfold nm; rewrite !contains_char_app, Ho, Hr; reflexivity).
  change ("pkg:github/" ++ nm) with ("pkg:" ++ "github" ++ "/" ++ nm).
  rewrite parse_purl_plain
    by (rewrite !contains_char_app, Hat; reflexivity).
  cbv zeta. change ("github" ++ "/" ++ nm) with ("github" ++ String "/" nm).
  rewrite (split_char_app "/" "github" nm eq_refl).
  pose proof (join_split "/" nm) as Hj.
  destruct (split_max_nonempty (String.length nm) "/" nm) as (x & l & Hx).
  fold (split "/" nm) in Hx. rewrite Hx in *.
  cbn [List.length Nat.ltb Nat.leb hd tl]. now rewrite Hj.
Qed.

(** The special case for a [github] identifier whose name has a [/]: the
    repository URL is assigned, one request goes to the release API, and
    whatever comes of it only decides [latest_version]. *)
Lemma special_github_repo (md : PackageMetadata) (nm : string) :
  ecosystem md = PyStr "github" -> name md = PyStr nm ->
  nm <> "" -> contains "/" nm = true ->
  special_github md =
  let api := {| url := "https://api.github.com/repos/" ++ nm ++ "/releases/latest";
                params := [] |} in
  ([Http api],
   Ok (assign_latest (release_version (http_get api))
         (set_repo_url (PyStr ("https://github.com/" ++ nm)) md))).
Proof.
  intros He Hn Hne Hc. unfold special_github, release_version, assign_latest.
  rewrite He, Hn. cbn [py_eq_str truthy py_in]. rewrite String.eqb_refl.
  apply String.eqb_neq in Hne. rewrite Hne, Hc. cbn [negb].
  unfold try_except, bind, map_events, client_get, lift, ret.
  cbn [fst snd map app name set_repo_url py_format].
  rewrite Hn. cbn [py_format].
  destruct (http_get _) as [|resp]; [reflexivity|].
  destruct (status_code resp =? 200)%Z; [|reflexivity].
  destruct (json resp) as [data|]; [|reflexivity].
  destruct (py_get data "tag_name" (PyStr "")) as [tag|]; [|reflexivity].
  destruct (truthy tag); [|reflexivity].
  destruct (as_str tag); reflexivity.
Qed.

Lemma special_golang_other (md : PackageMetadata) :
  py_eq_str (ecosystem md) "golang" || py_eq_str (ecosystem md) "go" = false ->
  special_golang md = ([], Ok md).
Proof. intros H. unfold special_golang. now rewrite H. Qed.

Lemma prepare_github (owner repo : string) :
  contains "@" owner = false -> contains "@" repo = false ->
  let nm := owner ++ "/" ++ repo in
  let p := "pkg:github/" ++ nm in
  let api := {| url := "https://api.github.com/repos/" ++ nm ++ "/releases/latest";
                params := [] |} in
  prepare p =
  ([Http api],
   Ok (assign_latest (release_version (http_get api))
         (mkPackageMetadata p (PyStr "github") (PyStr nm) PyNone
            (PyStr ("https://github.com/" ++ nm)) PyNone PyNone PyNone PyNone [] PyNone))).
Proof.
  intros Ho Hr nm p api.
  assert (Hne : nm <> "") by (unfold nm; destruct owner; discriminate).
  assert (Hsl : contains "/" nm = true)
    by (unfold nm; rewrite contains_char_app; apply orb_true_iff; right; reflexivity).
  unfold prepare, p, nm. rewrite (parse_purl_github owner repo _ Ho Hr). cbn [negb].
  fold nm. fold p.
  rewrite (special_github_repo
             (set_name (PyStr nm) (set_ecosystem (PyStr "github") (PackageMetadata__init__ p)))
             nm eq_refl eq_refl Hne Hsl).
  cbv zeta. fold api. unfold bind.
  rewrite special_golang_other by (destruct (release_version (http_get api)); reflexivity).
  destruct (release_version (http_get api)); reflexivity.
Qed.

Lemma try_sources_keeps_complete (srcs : list (string * Fetcher)) (md : PackageMetadata) :
  is_complete md = true ->
  exists t r, (try_sources srcs md = (t, Ok (inl r)) \/ try_sources srcs md = (t, Ok (inr r))) /\
              is_complete r = true.
Proof.
  revert md; induction srcs as [|[n f] rest IH]; intros md Hc.
  - exists [], md. split; [right; reflexivity|exact Hc].
  - rewrite try_sources_cons.
    destruct (contribution f md) as [result|].
    + destruct (is_complete result) eqn:Er.
      * do 2 eexists. split; [left; reflexivity|exact Er].
      * destruct (IH _ (merge_complete md result Hc)) as (t & r & [H|H] & Hr);
          rewrite H; cbn [fst snd]; do 2 eexists; (split; [|exact Hr]); [left|right]; reflexivity.
    + destruct (IH _ Hc) as (t & r & [H|H] & Hr);
        rewrite H; cbn [fst snd]; do 2 eexists; (split; [|exact Hr]); [left|right]; reflexivity.
Qed.

(** X26: for [pkg:github/<owner>/<repo>] the preparation sends one request,
    to the release API, and returns the parsed record with
    [https://github.com/<owner>/<repo>] as [repo_url], taken from the
    identifier alone; the answer decides [latest_version] and nothing else:
    it stays unset on a failed request, on another status than 200 and on an
    undecodable body, and is the tag without its leading [v]s on status 200
    with a non-empty tag; whatever the answer and whatever the providers do,
    discovery ends with a complete record. *)
Theorem github_release_outcomes (owner repo : string) :
  contains "@" owner = false -> contains "@" repo = false ->
  let nm := owner ++ "/" ++ repo in
  let p := "pkg:github/" ++ nm in
  let api := {| url := "https://api.github.com/repos/" ++ nm ++ "/releases/latest";
                params := [] |} in
  let base := mkPackageMetadata p (PyStr "github") (PyStr nm) PyNone
                (PyStr ("https://github.com/" ++ nm)) PyNone PyNone PyNone PyNone [] PyNone in
  exists r,
    prepare p = ([Http api], Ok r) /\
    r = set_latest_version (latest_version r) base /\
    (http_get api = Failed -> latest_version r = PyNone) /\
    (forall resp, http_get api = Reply resp -> status_code resp <> 200%Z ->
                  latest_version r = PyNone) /\
    (forall resp, http_get api = Reply resp -> body resp = None -> latest_version r = PyNone) /\
    (forall resp d tag,
        http_get api = Reply resp -> status_code resp = 200%Z ->
        body resp = Some (PyDict d) -> lookup "tag_name" d = Some (PyStr tag) -> tag <> "" ->
        latest_version r = PyStr (lstrip "v" tag)) /\
    (forall self allow_partial,
        exists t r', discover self p allow_partial = (t, Ok r') /\ is_complete r' = true).
Proof.
  intros Ho Hr nm p api base.
  pose proof (prepare_github owner repo Ho Hr) as Hprep. cbv zeta in Hprep.
  fold nm in Hprep. fold p in Hprep. fold api in Hprep. fold base in Hprep.
  set (latest := match release_version (http_get api) with Some v => v | None => PyNone end).
  assert (Hp : prepare p = ([Http api], Ok (set_latest_version latest base)))
    by (rewrite Hprep; unfold latest; destruct (release_version (http_get api)); reflexivity).
  exists (set_latest_version latest base).
  split; [exact Hp|]. split; [reflexivity|].
  change (latest_version (set_latest_version latest base)) with latest.
  split; [|split; [|split; [|split]]].
  - intros Hf. unfold latest. now rewrite Hf.
  - intros resp Hg Hs. apply Z.eqb_neq in Hs. unfold latest. rewrite Hg.
    cbn [release_version]. now rewrite Hs.
  - intros resp Hg Hb. unfold latest. rewrite Hg. cbn [release_version]. unfold json.
    rewrite Hb. now destruct (status_code resp =? 200)%Z.
  - intros resp d tag Hg Hs Hb Hl Hn. unfold latest. rewrite Hg.
    cbn [release_version]. unfold json.
    rewrite Hs, Hb. cbn [Z.eqb Pos.eqb py_get]. rewrite Hl. cbn [truthy as_str].
    apply String.eqb_neq in Hn. now rewrite Hn.
  - intros self allow_partial.
    assert (Hc : is_complete (set_latest_version latest base) = true).
    { unfold is_complete, base. cbn [ecosystem name repo_url set_latest_version truthy].
      assert (Hne : (nm =? "")%string = false)
        by (unfold nm; destruct owner; reflexivity).
      rewrite Hne. reflexivity. }
    rewrite (discover_eq _ _ _ _ _ Hp). cbv zeta.
    destruct (try_sources_keeps_complete (sources self) _ Hc) as (t & r & [H|H] & Hcr);
      rewrite H; cbn [fst snd].
    + do 2 eexists; split; [reflexivity|exact Hcr].
    + rewrite Hcr, andb_false_r. do 2 eexists; split; [reflexivity|exact Hcr].
Qed.

End Github.

(** ** Further runs on sample inputs *)

(** C8, witness: [pkg:maven/junit], and a namespaced Maven identifier with a
    version. *)
Lemma parse_purl_well_formed_witness :
  _parse_purl "pkg:maven/junit" (PackageMetadata__init__ "pkg:maven/junit") =
    (mkPackageMetadata "pkg:maven/junit" (PyStr "maven") (PyStr "junit")
       PyNone PyNone PyNone PyNone PyNone PyNone [] PyNone, true) /\
  snd (_parse_purl "pkg:maven/org.springframework.boot/spring-boot-starter@3.2.0"
         (PackageMetadata__init__ "pkg:maven/org.springframework.boot/spring-boot-starter@3.2.0")) = true /\
  ecosystem (fst (_parse_purl "pkg:maven/org.springframework.boot/spring-boot-starter@3.2.0"
         (PackageMetadata__init__ "pkg:maven/org.springframework.boot/spring-boot-starter@3.2.0"))) =
    PyStr "maven" /\
  name (fst (_parse_purl "pkg:maven/org.springframework.boot/spring-boot-starter@3.2.0"
         (PackageMetadata__init__ "pkg:maven/org.springframework.boot/spring-boot-starter@3.2.0"))) =
    PyStr "org.springframework.boot/spring-boot-starter".
Proof.
  apply (parse_purl_well_formed "maven" "junit"
           ["org.springframework.boot"; "spring-boot-starter"] "@3.2.0").
  - split; reflexivity.
  - split; reflexivity.
  - apply Forall_cons; [split; reflexivity|].
    apply Forall_cons; [split; reflexivity|apply Forall_nil].
  - apply le_n.
  - right; reflexivity.
Defined.

(** C9, the failing input: the latest release of [octo/app] is tagged
    [vv1.0]. Removing a leading [v] from the tag, as the comment above the
    assignment says, gives [v1.0]; [lstrip] removes every leading [v], and
    the record that the preparation and then [discover] return holds
    [latest_version] [1.0]. *)
Theorem github_release_tag_loses_every_v {L : PyLib} :
  prepare (N := release_tagged "octo/app" "vv1.0") "pkg:github/octo/app" =
    ([Http {| url := "https://api.github.com/repos/octo/app/releases/latest"; params := [] |}],
     Ok (mkPackageMetadata "pkg:github/octo/app" (PyStr "github") (PyStr "octo/app") PyNone
           (PyStr "https://github.com/octo/app") PyNone PyNone PyNone (PyStr "1.0") [] PyNone)) /\
  discover (N := release_tagged "octo/app" "vv1.0")
    (PackageDiscoveryService__init__ (N := release_tagged "octo/app" "vv1.0") None)
    "pkg:github/octo/app" false =
    ([Http {| url := "https://api.github.com/repos/octo/app/releases/latest"; params := [] |};
      Invoke "deps.dev"; Invoke "clearlydefined"; Invoke "purl2src"; Invoke "upmex"],
     Ok (mkPackageMetadata "pkg:github/octo/app" (PyStr "github") (PyStr "octo/app") PyNone
           (PyStr "https://github.com/octo/app") PyNone PyNone PyNone (PyStr "1.0") [] PyNone)) /\
  strip_prefix "v" "vv1.0" = "v1.0".
Proof. repeat split; vm_compute; reflexivity. Qed.

(** X26, witness: the release API answers with the tag [v4.18.2]. *)
Lemma github_release_outcomes_witness :
  exists r,
    prepare (N := release_tagged "expressjs/express" "v4.18.2") (L := sample_lib)
      "pkg:github/expressjs/express" =
      ([Http {| url := "https://api.github.com/repos/expressjs/express/releases/latest";
                params := [] |}],
       Ok r) /\
    repo_url r = PyStr "https://github.com/expressjs/express" /\
    latest_version r = PyStr "4.18.2".
Proof.
  destruct (github_release_outcomes
              (N := release_tagged "expressjs/express" "v4.18.2") (L := sample_lib)
              "expressjs" "express" eq_refl eq_refl)
    as (r & Hp & Hr & _ & _ & _ & Htag & _).
  exists r. split; [exact Hp|]. split; [rewrite Hr; reflexivity|].
  apply (Htag {| status_code := 200; body := Some (PyDict [("tag_name", PyStr "v4.18.2")]) |}
              [("tag_name", PyStr "v4.18.2")] "v4.18.2");
    [reflexivity|reflexivity|reflexivity|reflexivity|discriminate].
Defined.

(** C10, witness: the scoped package of the specification. *)
Lemma parse_purl_scoped_witness :
  _parse_purl "pkg:npm/@scope/pkg" (PackageMetadata__init__ "pkg:npm/@scope/pkg") =
    _parse_purl "pkg:npm/"
      (set_version (PyStr "scope/pkg") (PackageMetadata__init__ "pkg:npm/@scope/pkg")) /\
  _parse_purl "pkg:npm/@scope/pkg" (PackageMetadata__init__ "pkg:npm/@scope/pkg") =
    (mkPackageMetadata "pkg:npm/@scope/pkg" (PyStr "npm") (PyStr "") (PyStr "scope/pkg")
       PyNone PyNone PyNone PyNone PyNone [] PyNone, true).
Proof.
  apply (parse_purl_version_split_first "npm" "npm/" "scope/pkg"
           (PackageMetadata__init__ "pkg:npm/@scope/pkg")).
  - reflexivity.
  - split; reflexivity.
Defined.

(** C5, witness: a record without maintainers is what merging it with itself
    returns. *)
Lemma merge_idempotent_witness :
  _merge_metadata (L := sample_lib) express_complete express_complete = express_complete.
Proof.
  destruct (merge_fill_missing (L := sample_lib) express_complete express_complete express_complete)
    as ((_ & _ & _ & _ & _ & H) & _).
  apply H. reflexivity.
Defined.

(** X1, witness: a version followed by qualifiers and a subpath. *)
Lemma parse_purl_version_noise_witness :
  _parse_purl "pkg:npm/express@4.18.0?arch=x86#readme"
    (PackageMetadata__init__ "pkg:npm/express@4.18.0?arch=x86#readme") =
  _parse_purl "pkg:npm/express"
    (set_version (PyStr "4.18.0") (PackageMetadata__init__ "pkg:npm/express@4.18.0?arch=x86#readme")).
Proof.
  apply (parse_purl_version_noise "npm/express" "4.18.0" "?arch=x86#readme");
    [reflexivity|reflexivity|reflexivity|right; left; reflexivity].
Defined.

(** X3, witness: a second repository link after the URL is set. *)
Lemma links_loop_keeps_repo_url_witness :
  repo_url (fst (links_loop (L := sample_lib)
                   [PyDict [("label", PyStr "SOURCE_REPO"); ("url", PyStr "https://gitlab.com/mirror/express")]]
                   express_complete)) =
  PyStr "https://github.com/expressjs/express".
Proof.
  apply (links_loop_keeps_repo_url (L := sample_lib)
           [PyDict [("label", PyStr "SOURCE_REPO"); ("url", PyStr "https://gitlab.com/mirror/express")]]
           express_complete).
  reflexivity.
Defined.

(** X4, witness: a Go module path without network. *)
Lemma prepare_total_witness :
  exists t md, prepare (N := offline) (L := sample_lib) "pkg:golang/github.com/gin-gonic/gin" = (t, Ok md).
Proof.
  apply (prepare_total (N := offline) (L := sample_lib) "pkg:golang/github.com/gin-gonic/gin").
  reflexivity.
Defined.

(** ** More about the parser *)

Section ParserRoundTrip.
Import PyStr PyStrFacts.

(** X6: a string that parses is put together again from what the parser
    stored: scheme, ecosystem, [/], name, and after an [@] the text the
    version was cut from. The ecosystem holds no [/], and neither ecosystem
    nor name holds an [@]. *)
Theorem parse_purl_round_trip (p : string) (m m' : PackageMetadata) :
  _parse_purl p m = (m', true) ->
  exists E Nm,
    ecosystem m' = PyStr E /\ name m' = PyStr Nm /\
    contains "/" E = false /\ contains "@" E = false /\ contains "@" Nm = false /\
    ((p = "pkg:" ++ E ++ "/" ++ Nm /\ version m' = version m) \/
     (exists rest, p = "pkg:" ++ E ++ "/" ++ Nm ++ "@" ++ rest /\
                   version m' = PyStr (version_text rest))).
Proof.
  rewrite parse_purl_eq.
  destruct (startswith "pkg:" p) eqn:Hp; cbn [negb]; [|discriminate].
  apply startswith_drop in Hp. cbn [String.length] in Hp.
  cbv zeta. unfold body_before_version.
  set (body := drop 4 p) in *.
  assert (Hbody : exists bb,
    match partition "@" body with Some (before, _) => before | None => body end = bb /\
    contains "@" bb = false /\
    ((body = bb /\ partition "@" body = None) \/
     exists rest, body = bb ++ "@" ++ rest /\ partition "@" body = Some (bb, rest))).
  { destruct (partition "@" body) as [[b rest]|] eqn:E.
    - exists b. split; [reflexivity|]. split; [now apply (partition_char_before "@" body b rest)|].
      right. exists rest. split; [now apply partition_spec|reflexivity].
    - exists body. split; [reflexivity|]. split; [unfold contains; now rewrite E|].
      left. split; reflexivity. }
  destruct Hbody as (bb & -> & Hat & Hcases).
  pose proof (join_split "/" bb) as Hj.
  pose proof (hd_split_char_clean "/" bb) as Hhd.
  destruct (split "/" bb) as [|E [|x l]] eqn:Hs; cbn [List.length Nat.ltb Nat.leb];
    [discriminate|discriminate|].
  cbn [hd tl] in *. rewrite join_cons in Hj.
  set (Nm := join "/" (x :: l)) in *.
  assert (HatE : contains "@" E = false /\ contains "@" Nm = false).
  { rewrite <- Hj in Hat. rewrite !contains_char_app in Hat.
    apply orb_false_iff in Hat as [H1 H2]. apply orb_false_iff in H2 as [_ H2]. auto. }
  destruct HatE as [HatE HatN].
  intros [= <-]. exists E, Nm.
  repeat (split; [first [reflexivity|assumption]|]).
  destruct Hcases as [[Hb Hn]|(rest & Hb & Hsome)].
  - left. rewrite Hn. split; [|reflexivity].
    rewrite Hp, Hb, <- Hj. reflexivity.
  - right. exists rest. rewrite Hsome. split; [|reflexivity].
    rewrite Hp, Hb, <- Hj. now rewrite !app_assoc.
Qed.

Lemma version_text_clean (v : string) :
  contains "?" (version_text v) = false /\ contains "#" (version_text v) = false.
Proof.
  unfold version_text. split.
  - apply contains_char_before. apply hd_split_char_clean.
  - apply hd_split_char_clean.
Qed.

(** X7: whatever the input, a version that [_parse_purl] stores in a fresh
    record holds neither [?] nor [#]. *)
Theorem parse_purl_version_clean (p v : string) (m : PackageMetadata) :
  version m = PyNone ->
  version (fst (_parse_purl p m)) = PyStr v ->
  contains "?" v = false /\ contains "#" v = false.
Proof.
  intros Hm. rewrite parse_purl_eq.
  destruct (negb (startswith "pkg:" p)); cbn [fst]; [rewrite Hm; discriminate|].
  cbv zeta.
  destruct (partition "@" (drop 4 p)) as [[b rest]|];
    destruct (_ <? 2)%nat; cbn [fst version set_name set_ecosystem set_version];
    try (rewrite Hm; discriminate);
    intros [= <-]; apply version_text_clean.
Qed.

End ParserRoundTrip.

(** X6, witness: a Go module path with a version. *)
Lemma parse_purl_round_trip_witness :
  exists E Nm,
    ecosystem (parsed "pkg:golang/github.com/gin-gonic/gin@v1.9.0") = PyStr E /\
    name (parsed "pkg:golang/github.com/gin-gonic/gin@v1.9.0") = PyStr Nm /\
    PyStr.contains "/" E = false /\ PyStr.contains "@" E = false /\
    PyStr.contains "@" Nm = false /\
    (("pkg:golang/github.com/gin-gonic/gin@v1.9.0" = "pkg:" ++ E ++ "/" ++ Nm /\
      version (parsed "pkg:golang/github.com/gin-gonic/gin@v1.9.0") =
      version (PackageMetadata__init__ "pkg:golang/github.com/gin-gonic/gin@v1.9.0")) \/
     (exists rest,
        "pkg:golang/github.com/gin-gonic/gin@v1.9.0" = "pkg:" ++ E ++ "/" ++ Nm ++ "@" ++ rest /\
        version (parsed "pkg:golang/github.com/gin-gonic/gin@v1.9.0") = PyStr (version_text rest))).
Proof.
  apply (parse_purl_round_trip "pkg:golang/github.com/gin-gonic/gin@v1.9.0"
           (PackageMetadata__init__ "pkg:golang/github.com/gin-gonic/gin@v1.9.0")).
  reflexivity.
Defined.

(** X7, witness: qualifiers and subpath after the version. *)
Lemma parse_purl_version_clean_witness :
  PyStr.contains "?" "4.18.0" = false /\ PyStr.contains "#" "4.18.0" = false.
Proof.
  apply (parse_purl_version_clean "pkg:npm/express@4.18.0?arch=x86#readme" "4.18.0"
           (PackageMetadata__init__ "pkg:npm/express@4.18.0?arch=x86#readme"));
    reflexivity.
Defined.

(** ** What [discover] returns, raises and calls *)

Section Outcomes.
Context {N : Network} {L : PyLib}.

(** The preparation either rejects the input or hands a record to the chain. *)
Lemma prepare_cases (p : string) :
  (snd (_parse_purl p (PackageMetadata__init__ p)) = false /\
   prepare p = ([], Raise (ValueError ("Invalid PURL format: " ++ p)))) \/
  (snd (_parse_purl p (PackageMetadata__init__ p)) = true /\
   exists t md, prepare p = (t, Ok md)).
Proof.
  unfold prepare.
  destruct (_parse_purl p (PackageMetadata__init__ p)) as [m ok] eqn:E.
  destruct ok; cbn [snd negb]; [right|left; split; reflexivity].
  split; [reflexivity|].
  destruct (parse_purl_strings _ _ _ E) as (e & nm & He & Hn).
  destruct (special_github_ok m e nm He Hn) as (t & md' & -> & _ & Hn').
  destruct (special_golang_ok md' nm Hn') as (md'' & Hg).
  unfold bind. rewrite Hg. do 2 eexists; reflexivity.
Qed.

Lemma discover_rejects (self : PackageDiscoveryService) (p : string) (allow_partial : bool) :
  prepare p = ([], Raise (ValueError ("Invalid PURL format: " ++ p))) ->
  discover self p allow_partial = ([], Raise (ValueError ("Invalid PURL format: " ++ p))).
Proof. intros H. unfold discover. now rewrite H. Qed.

(** X8: without [allow_partial], a record that [discover] returns is complete:
    ecosystem, name and repo_url are all non-empty. *)
Theorem discover_strict_is_complete (self : PackageDiscoveryService) (p : string) (t : list event) (r : PackageMetadata) :
  discover self p false = (t, Ok r) -> is_complete r = true.
Proof.
  destruct (prepare_cases p) as [[_ Hp]|(_ & t0 & md & Hp)].
  - rewrite (discover_rejects _ _ _ Hp). discriminate.
  - rewrite (discover_eq _ _ _ _ _ Hp). cbv zeta.
    destruct (try_sources_total (sources self) md) as (t1 & [result|acc] & Ht).
    + rewrite Ht. cbn [fst snd]. intros [= _ <-].
      destruct (try_sources_early _ _ _ _ Ht)
        as (pre & n & f & post & acc & tpre & r0 & _ & _ & _ & Hr & -> & _).
      exact Hr.
    + rewrite Ht. cbn [fst snd negb andb].
      destruct (is_complete acc) eqn:Hc; cbn [negb]; [|discriminate].
      now intros [= _ <-].
Qed.

(** X9: the only exceptions [discover] raises are its two [ValueError]s: the
    one for an input that does not parse, before anything is sent or called,
    and, without [allow_partial] only, the one for an accumulator left
    incomplete. With [allow_partial] a string that parses never raises. *)
Theorem discover_raises_only_value_errors (self : PackageDiscoveryService) (p : string) (allow_partial : bool) (t : list event) (e : exn) :
  discover self p allow_partial = (t, Raise e) ->
  (snd (_parse_purl p (PackageMetadata__init__ p)) = false /\ t = [] /\
   e = ValueError ("Invalid PURL format: " ++ p)) \/
  (snd (_parse_purl p (PackageMetadata__init__ p)) = true /\ allow_partial = false /\
   exists acc, is_complete acc = false /\
               e = ValueError ("Could not discover complete metadata for " ++ p ++
                               ". Missing: " ++ PyStr.join ", " (missing acc))).
Proof.
  destruct (prepare_cases p) as [[Hs Hp]|(Hs & t0 & md & Hp)].
  - rewrite (discover_rejects _ _ _ Hp). intros [= <- <-]. left. auto.
  - rewrite (discover_eq _ _ _ _ _ Hp). cbv zeta.
    destruct (try_sources_total (sources self) md) as (t1 & [result|acc] & Ht);
      rewrite Ht; cbn [fst snd]; [discriminate|].
    destruct allow_partial; cbn [negb andb]; [discriminate|].
    destruct (is_complete acc) eqn:Hc; cbn [negb]; [discriminate|].
    intros [= _ <-]. right. repeat split; auto. exists acc. split; [exact Hc|reflexivity].
Qed.

Lemma firstn_app_exact {A} (l1 l2 : list A) : firstn (List.length l1) (l1 ++ l2)%list = l1.
Proof. induction l1; cbn; congruence. Qed.

(** X10: the fetchers are called in the fixed priority order, each at most
    once and none skipped: the calls are an initial part of deps.dev,
    clearlydefined, purl2src, upmex and, only for a service with a search key,
    serpapi. *)
Theorem discover_calls_in_priority_order (self : PackageDiscoveryService) (p : string) (allow_partial : bool) :
  exists k,
    invoked (fst (discover self p allow_partial)) =
    firstn k (["deps.dev"; "clearlydefined"; "purl2src"; "upmex"] ++
              (if key_given (serpapi_key self) then ["serpapi"] else []))%list.
Proof.
  assert (Hnames : map fst (sources self) =
    (["deps.dev"; "clearlydefined"; "purl2src"; "upmex"] ++
     (if key_given (serpapi_key self) then ["serpapi"] else []))%list)
    by (unfold sources; destruct (key_given (serpapi_key self)); reflexivity).
  rewrite <- Hnames.
  destruct (prepare_cases p) as [[_ Hp]|(_ & t0 & md & Hp)].
  - exists 0. now rewrite (discover_rejects _ _ _ Hp).
  - pose proof (prepare_invokes_nothing p) as H0. rewrite Hp in H0. cbn [fst] in H0.
    rewrite (discover_eq _ _ _ _ _ Hp). cbv zeta. cbn [fst].
    rewrite invoked_app, H0. cbn [app].
    destruct (try_sources_total (sources self) md) as (t1 & [result|acc] & Ht).
    + destruct (try_sources_early _ _ _ _ Ht)
        as (pre & n & f & post & acc & tpre & r0 & Hs & Hpre & _ & _ & _ & Ht1).
      rewrite Ht. cbn [fst]. rewrite Ht1, invoked_app, invoked_turn.
      rewrite (try_sources_exhausted _ _ _ _ Hpre), Hs.
      exists (List.length (map fst pre ++ [n])%list).
      rewrite map_app. cbn [map fst].
      change (map fst pre ++ n :: map fst post)%list
        with (map fst pre ++ [n] ++ map fst post)%list.
      rewrite List.app_assoc. now rewrite firstn_app_exact.
    + rewrite Ht. cbn [fst]. rewrite (try_sources_exhausted _ _ _ _ Ht).
      exists (List.length (map fst (sources self))). now rewrite firstn_all.
Qed.

(** A record [acc] retains [md] when it has the purl of [md] and every scalar
    attribute that is non-empty in [md]. *)
Lemma retains_merge (md r : PackageMetadata) :
  purl (_merge_metadata md r) = purl md /\
  Forall (fun f => truthy (f md) = true -> f (_merge_metadata md r) = f md) scalar_fields.
Proof.
  split; [reflexivity|].
  unfold scalar_fields. repeat constructor; cbn; unfold py_or; intros H; now rewrite H.
Qed.

Lemma retains_trans (a b c : PackageMetadata) :
  purl b = purl a ->
  Forall (fun f => truthy (f a) = true -> f b = f a) scalar_fields ->
  purl c = purl b ->
  Forall (fun f => truthy (f b) = true -> f c = f b) scalar_fields ->
  purl c = purl a /\
  Forall (fun f => truthy (f a) = true -> f c = f a) scalar_fields.
Proof.
  intros Hp1 H1 Hp2 H2. split; [congruence|].
  rewrite Forall_forall in *. intros f Hf Ht.
  specialize (H1 f Hf Ht). specialize (H2 f Hf).
  rewrite H1 in H2. exact (H2 Ht).
Qed.

(** X11: first value wins along the whole chain: when the chain is exhausted,
    the accumulator still has the purl and every scalar attribute that was
    non-empty before the first fetcher was called. *)
Theorem chain_keeps_what_was_set (srcs : list (string * Fetcher)) (md acc : PackageMetadata) (t : list event) :
  try_sources srcs md = (t, Ok (inr acc)) ->
  purl acc = purl md /\
  Forall (fun f => truthy (f md) = true -> f acc = f md) scalar_fields.
Proof.
  revert md t; induction srcs as [|[n f] rest IH]; intros md t H.
  - cbn in H. injection H as _ <-. split; [reflexivity|].
    apply Forall_forall. auto.
  - rewrite try_sources_cons in H.
    destruct (contribution f md) as [r|].
    + destruct (is_complete r); [discriminate|]. cbv zeta in H.
      destruct (try_sources rest (_merge_metadata md r)) as [t1 r1] eqn:E1.
      cbn [fst snd] in H. apply pair_equal_spec in H as [_ ->].
      destruct (IH _ _ E1) as [Hp HF]. destruct (retains_merge md r) as [Hp0 HF0].
      exact (retains_trans md (_merge_metadata md r) acc Hp0 HF0 Hp HF).
    + cbv zeta in H. destruct (try_sources rest md) as [t1 r1] eqn:E1.
      cbn [fst snd] in H. apply pair_equal_spec in H as [_ ->].
      exact (IH _ _ E1).
Qed.

End Outcomes.

(** X8, witness: the second source completes the record. *)
Lemma discover_strict_is_complete_witness :
  is_complete (set_source (PyStr "clearlydefined") express_complete) = true.
Proof.
  apply (discover_strict_is_complete (N := offline) (L := sample_lib)
           (mocked (failing ConnectError) (returning (Some express_complete)))
           "pkg:npm/express"
           [Invoke "deps.dev"; Invoke "clearlydefined"]).
  reflexivity.
Defined.

(** X9, witness: every source returns nothing. *)
Lemma discover_raises_witness :
  (snd (_parse_purl "pkg:npm/nonexistent" (PackageMetadata__init__ "pkg:npm/nonexistent")) = false /\
   [Invoke "deps.dev"; Invoke "clearlydefined"; Invoke "purl2src"; Invoke "upmex"] = [] /\
   ValueError "Could not discover complete metadata for pkg:npm/nonexistent. Missing: repo_url" =
   ValueError ("Invalid PURL format: " ++ "pkg:npm/nonexistent")) \/
  (snd (_parse_purl "pkg:npm/nonexistent" (PackageMetadata__init__ "pkg:npm/nonexistent")) = true /\
   false = false /\
   exists acc, is_complete acc = false /\
     ValueError "Could not discover complete metadata for pkg:npm/nonexistent. Missing: repo_url" =
     ValueError ("Could not discover complete metadata for " ++ "pkg:npm/nonexistent" ++
                 ". Missing: " ++ PyStr.join ", " (missing acc))).
Proof.
  apply (discover_raises_only_value_errors (N := offline) (L := sample_lib)
           (mocked (returning None) (returning None)) "pkg:npm/nonexistent" false
           [Invoke "deps.dev"; Invoke "clearlydefined"; Invoke "purl2src"; Invoke "upmex"]).
  reflexivity.
Defined.

(** X11, witness: a partial contribution with another ecosystem and a license
    leaves the parsed ecosystem in place. *)
Lemma chain_keeps_what_was_set_witness :
  purl (_merge_metadata (L := sample_lib) (parsed "pkg:npm/express")
          (set_license (PyStr "MIT") (set_ecosystem (PyStr "node") (PackageMetadata__init__ "other")))) =
    purl (parsed "pkg:npm/express") /\
  Forall (fun f => truthy (f (parsed "pkg:npm/express")) = true ->
                   f (_merge_metadata (L := sample_lib) (parsed "pkg:npm/express")
                        (set_license (PyStr "MIT") (set_ecosystem (PyStr "node") (PackageMetadata__init__ "other")))) =
                   f (parsed "pkg:npm/express")) scalar_fields.
Proof.
  apply (chain_keeps_what_was_set (L := sample_lib)
           [("deps.dev", returning (Some (set_license (PyStr "MIT") (set_ecosystem (PyStr "node") (PackageMetadata__init__ "other")))))]
           (parsed "pkg:npm/express") _
           [Invoke "deps.dev"]).
  reflexivity.
Defined.

(** ** Identifiers that need no provider, and ecosystems no provider knows *)

Section SpecialCases.
Import PyStr PyStrFacts.
Context {N : Network} {L : PyLib}.

Lemma special_github_other (md : PackageMetadata) :
  py_eq_str (ecosystem md) "github" = false -> special_github md = ([], Ok md).
Proof. intros H. unfold special_github. now rewrite H. Qed.

Lemma prepare_parsed (p : string) (m : PackageMetadata) :
  _parse_purl p (PackageMetadata__init__ p) = (m, true) ->
  py_eq_str (ecosystem m) "github" = false ->
  prepare p = special_golang m.
Proof.
  intros Hp Hg. unfold prepare. rewrite Hp. cbn [negb].
  rewrite (special_github_other m Hg). unfold bind.
  now destruct (special_golang m).
Qed.

Lemma forge_repo_three (host owner repo : string) (more : list string) (md : PackageMetadata) :
  Forall plain (host :: owner :: repo :: more) ->
  forge_repo (join "/" (host :: owner :: repo :: more)) md =
  set_repo_url (PyStr ("https://" ++ host ++ "/" ++ owner ++ "/" ++ repo)) md.
Proof.
  intros H. unfold forge_repo.
  rewrite (split_join_char "/" (host :: owner :: repo :: more))
    by (discriminate || now apply plain_slash).
  reflexivity.
Qed.

Lemma forge_repo_two (host owner : string) (md : PackageMetadata) :
  Forall plain [host; owner] ->
  forge_repo (join "/" [host; owner]) md = md.
Proof.
  intros H. unfold forge_repo.
  rewrite (split_join_char "/" [host; owner])
    by (discriminate || now apply plain_slash).
  reflexivity.
Qed.

Lemma special_golang_forge (md : PackageMetadata) (eco host rest : string) :
  eco = "golang" \/ eco = "go" -> host = "github.com" \/ host = "gitlab.com" ->
  ecosystem md = PyStr eco -> name md = PyStr (host ++ "/" ++ rest) ->
  special_golang md = ([], Ok (forge_repo (host ++ "/" ++ rest) md)).
Proof.
  intros He Hh Heco Hname. unfold special_golang. rewrite Heco, Hname.
  unfold bind, lift, ret. cbn [as_str].
  destruct He as [He|He]; destruct Hh as [Hh|Hh]; subst eco host; reflexivity.
Qed.

(** X12: for a Go module path on github.com or gitlab.com with owner and
    repository, the preparation assigns [https://<host>/<owner>/<repo>] to
    [repo_url] from the identifier alone, whatever further path or version
    follows, and sends no request; with the owner alone it assigns nothing. *)
Theorem prepare_go_module (eco host owner repo : string) (more : list string) (suffix : string) :
  eco = "golang" \/ eco = "go" -> host = "github.com" \/ host = "gitlab.com" ->
  plain owner -> plain repo -> Forall plain more ->
  suffix = "" \/ startswith "@" suffix = true ->
  (exists md,
      prepare ("pkg:" ++ join "/" (eco :: host :: owner :: repo :: more) ++ suffix) = ([], Ok md) /\
      repo_url md = PyStr ("https://" ++ host ++ "/" ++ owner ++ "/" ++ repo) /\
      ecosystem md = PyStr eco /\
      name md = PyStr (join "/" (host :: owner :: repo :: more))) /\
  (exists md,
      prepare ("pkg:" ++ join "/" [eco; host; owner] ++ suffix) = ([], Ok md) /\
      repo_url md = PyNone /\ name md = PyStr (host ++ "/" ++ owner)).
Proof.
  intros He Hh Ho Hr Hmore Hsuf.
  assert (Heco : plain eco) by (destruct He as [-> | ->]; split; reflexivity).
  assert (Hhost : plain host) by (destruct Hh as [-> | ->]; split; reflexivity).
  assert (Hgit : py_eq_str (PyStr eco) "github" = false)
    by (destruct He as [-> | ->]; reflexivity).
  split.
  - set (p := "pkg:" ++ join "/" (eco :: host :: owner :: repo :: more) ++ suffix).
    assert (Hnames : Forall plain (host :: owner :: repo :: more))
      by (repeat (apply Forall_cons; [assumption|]); assumption).
    pose proof (parse_purl_segments eco (host :: owner :: repo :: more) suffix
                  (PackageMetadata__init__ p) ltac:(discriminate) Heco Hnames Hsuf) as H.
    cbv zeta in H. fold p in H.
    destruct (_parse_purl p (PackageMetadata__init__ p)) as [m ok] eqn:Hp.
    cbn [fst snd] in H. destruct H as (-> & Hme & Hmn & _).
    rewrite (prepare_parsed p m Hp) by now rewrite Hme.
    rewrite join_cons in Hmn.
    rewrite (special_golang_forge m eco host _ He Hh Hme Hmn).
    rewrite <- join_cons, (forge_repo_three host owner repo more m Hnames).
    eexists. split; [reflexivity|]. cbn [repo_url ecosystem name set_repo_url].
    rewrite join_cons. auto.
  - set (p := "pkg:" ++ join "/" [eco; host; owner] ++ suffix).
    assert (Hnames : Forall plain [host; owner])
      by (repeat (apply Forall_cons; [assumption|]); apply Forall_nil).
    pose proof (parse_purl_segments eco [host; owner] suffix
                  (PackageMetadata__init__ p) ltac:(discriminate) Heco Hnames Hsuf) as H.
    cbv zeta in H. fold p in H.
    pose proof (parse_purl_eq p (PackageMetadata__init__ p)) as Hframe.
    destruct (_parse_purl p (PackageMetadata__init__ p)) as [m ok] eqn:Hp.
    cbn [fst snd] in H. destruct H as (-> & Hme & Hmn & _).
    assert (Hrepo : repo_url m = PyNone).
    { destruct (negb (startswith "pkg:" p)); [discriminate|]. cbv zeta in Hframe.
      destruct (partition "@" (drop 4 p)) as [[b v]|];
        destruct (_ <? 2)%nat; try discriminate; injection Hframe as ->; reflexivity. }
    rewrite (prepare_parsed p m Hp) by now rewrite Hme.
    rewrite (special_golang_forge m eco host owner He Hh Hme Hmn).
    change (host ++ "/" ++ owner) with (join "/" [host; owner]).
    rewrite (forge_repo_two host owner m Hnames).
    eexists. split; [reflexivity|]. auto.
Qed.

Lemma parse_purl_two_segments (E Nm : string) (m : PackageMetadata) :
  plain E -> plain Nm ->
  _parse_purl ("pkg:" ++ E ++ "/" ++ Nm) m =
  (set_name (PyStr Nm) (set_ecosystem (PyStr E) m), true).
Proof.
  intros HE HN.
  assert (Hall : Forall plain [E; Nm])
    by (apply Forall_cons; [exact HE | apply Forall_cons; [exact HN | apply Forall_nil]]).
  pose proof (contains_at_join _ Hall) as Hat.
  pose proof (split_join_char "/" [E; Nm] ltac:(discriminate) (plain_slash _ Hall)) as Hsplit.
  change (join "/" [E; Nm]) with (E ++ "/" ++ Nm) in Hat, Hsplit.
  rewrite parse_purl_plain by exact Hat.
  cbv zeta. rewrite Hsplit. reflexivity.
Qed.

Lemma table_get_none (table : list (string * string)) (E : string) :
  ~ In E (map fst table) -> table_get table (PyStr E) = Ok None.
Proof.
  intros H. cbn [table_get]. f_equal.
  induction table as [|[k v] table IH]; [reflexivity|].
  cbn [find fst]. cbn [map fst In] in H.
  destruct (String.eqb_spec k E) as [->|_]; [exfalso; apply H; now left|].
  apply IH. intros Hin. apply H. now right.
Qed.

(** X13: for an ecosystem that neither provider table lists and that is not
    [github], the service without search key sends no request at all: the four
    fetchers are called, each returns nothing, and the result is the parsed
    record, returned with [allow_partial] and otherwise refused with
    [repo_url] among the missing fields. *)
Theorem discover_unknown_ecosystem (E Nm : string) :
  plain E -> plain Nm ->
  ~ In E ["npm"; "pypi"; "maven"; "golang"; "go"; "cargo"; "nuget"; "gem"; "github"] ->
  let p := "pkg:" ++ E ++ "/" ++ Nm in
  let md := mkPackageMetadata p (PyStr E) (PyStr Nm) PyNone PyNone PyNone PyNone PyNone PyNone [] PyNone in
  let calls := [Invoke "deps.dev"; Invoke "clearlydefined"; Invoke "purl2src"; Invoke "upmex"] in
  discover (PackageDiscoveryService__init__ None) p true = (calls, Ok md) /\
  discover (PackageDiscoveryService__init__ None) p false =
    (calls, Raise (ValueError ("Could not discover complete metadata for " ++ p ++
                               ". Missing: " ++ join ", " (missing md)))) /\
  In "repo_url" (missing md).
Proof.
  intros HE HN Hnot p md calls.
  assert (Hne : forall k, In k ["npm"; "pypi"; "maven"; "golang"; "go"; "cargo"; "nuget"; "gem"; "github"] ->
                          (E =? k)%string = false).
  { intros k Hk. apply String.eqb_neq. intros ->. now apply Hnot. }
  assert (Hparse : _parse_purl p (PackageMetadata__init__ p) = (md, true))
    by (unfold p; now rewrite parse_purl_two_segments).
  assert (Hprep : prepare p = ([], Ok md)).
  { rewrite (prepare_parsed p md Hparse) by (cbn; apply Hne; cbn; tauto).
    unfold special_golang. cbn [ecosystem md py_eq_str].
    rewrite !Hne by (cbn; tauto). reflexivity. }
  assert (Hdeps : _fetch_deps_dev md = ([], Ok None)).
  { unfold _fetch_deps_dev. cbn [ecosystem md].
    rewrite table_get_none; [reflexivity|].
    cbn [map fst system_map]. intros Hin. apply Hnot. cbn in *. tauto. }
  assert (Hcd : _fetch_clearlydefined md = ([], Ok None)).
  { unfold _fetch_clearlydefined. cbn [ecosystem md].
    rewrite table_get_none; [reflexivity|].
    cbn [map fst type_map]. intros Hin. apply Hnot. cbn in *. tauto. }
  assert (Hchain : try_sources (sources (PackageDiscoveryService__init__ None)) md =
                   (calls, Ok (inr md))).
  { unfold sources. cbn [key_given serpapi_key PackageDiscoveryService__init__ app
                         fetch_deps_dev fetch_clearlydefined fetch_purl2src fetch_upmex].
    rewrite !try_sources_cons. unfold contribution, turn.
    rewrite Hdeps, Hcd. reflexivity. }
  assert (Hinc : is_complete md = false)
    by (unfold is_complete; cbn [repo_url md truthy]; now rewrite andb_false_r).
  rewrite !(discover_eq _ _ _ _ _ Hprep), Hchain. cbv zeta. cbn [fst snd app negb andb].
  rewrite Hinc. cbn [negb].
  repeat split.
  unfold missing. cbn [repo_url md truthy]. rewrite !in_app_iff. right. right. now left.
Qed.

(** X14: for [pkg:github/<owner>/<repo>] the service without search key
    sends one request, to the release API; its four fetchers are called and
    send nothing, and the record returned is the one the special case built:
    complete, and with no source. *)
Theorem discover_github_identifier (owner repo : string) (allow_partial : bool) :
  contains "@" owner = false -> contains "@" repo = false ->
  let nm := owner ++ "/" ++ repo in
  let p := "pkg:github/" ++ nm in
  let api := {| url := "https://api.github.com/repos/" ++ nm ++ "/releases/latest";
                params := [] |} in
  let base := mkPackageMetadata p (PyStr "github") (PyStr nm) PyNone
                (PyStr ("https://github.com/" ++ nm)) PyNone PyNone PyNone PyNone [] PyNone in
  discover (PackageDiscoveryService__init__ None) p allow_partial =
    ([Http api; Invoke "deps.dev"; Invoke "clearlydefined"; Invoke "purl2src"; Invoke "upmex"],
     Ok (assign_latest (release_version (http_get api)) base)) /\
  is_complete (assign_latest (release_version (http_get api)) base) = true /\
  source (assign_latest (release_version (http_get api)) base) = PyNone.
Proof.
  intros Ho Hr nm p api base.
  pose proof (prepare_github owner repo Ho Hr) as Hprep. cbv zeta in Hprep.
  fold nm in Hprep. fold p in Hprep. fold api in Hprep. fold base in Hprep.
  assert (Hne : (nm =? "")%string = false) by (unfold nm; destruct owner; reflexivity).
  set (md := assign_latest (release_version (http_get api)) base) in *.
  assert (Heco : ecosystem md = PyStr "github")
    by (unfold md; destruct (release_version (http_get api)); reflexivity).
  assert (Hc : is_complete md = true).
  { unfold md, is_complete. destruct (release_version (http_get api));
      cbn [assign_latest ecosystem name repo_url set_latest_version base truthy];
      rewrite Hne; reflexivity. }
  assert (Hdeps : _fetch_deps_dev md = ([], Ok None))
    by (unfold _fetch_deps_dev; rewrite Heco; reflexivity).
  assert (Hcd : _fetch_clearlydefined md = ([], Ok None))
    by (unfold _fetch_clearlydefined; rewrite Heco; reflexivity).
  assert (Hchain : try_sources (sources (PackageDiscoveryService__init__ None)) md =
    ([Invoke "deps.dev"; Invoke "clearlydefined"; Invoke "purl2src"; Invoke "upmex"],
     Ok (inr md))).
  { unfold sources. cbn [key_given serpapi_key PackageDiscoveryService__init__ app
                         fetch_deps_dev fetch_clearlydefined fetch_purl2src fetch_upmex].
    rewrite !try_sources_cons. unfold contribution, turn.
    rewrite Hdeps, Hcd. reflexivity. }
  rewrite (discover_eq _ _ _ _ _ Hprep), Hchain. cbv zeta. cbn [fst snd app].
  rewrite Hc, andb_false_r.
  repeat split. unfold md. now destruct (release_version (http_get api)).
Qed.

End SpecialCases.

(** X12, witness: the Go module of the tests, with a version. *)
Lemma prepare_go_module_witness :
  (exists md,
      prepare (N := offline) (L := sample_lib) "pkg:golang/github.com/gin-gonic/gin@v1.9.0" = ([], Ok md) /\
      repo_url md = PyStr "https://github.com/gin-gonic/gin" /\
      ecosystem md = PyStr "golang" /\
      name md = PyStr "github.com/gin-gonic/gin") /\
  (exists md,
      prepare (N := offline) (L := sample_lib) "pkg:golang/github.com/gin-gonic@v1.9.0" = ([], Ok md) /\
      repo_url md = PyNone /\ name md = PyStr "github.com/gin-gonic").
Proof.
  apply (prepare_go_module (N := offline) (L := sample_lib)
           "golang" "github.com" "gin-gonic" "gin" [] "@v1.9.0").
  - left; reflexivity.
  - left; reflexivity.
  - split; reflexivity.
  - split; reflexivity.
  - apply Forall_nil.
  - right; reflexivity.
Defined.

(** X13, witness: the ecosystem the tests use as unsupported. *)
Lemma discover_unknown_ecosystem_witness :
  discover (N := offline) (L := sample_lib) (PackageDiscoveryService__init__ (N := offline) None)
    "pkg:rubygems/rails" true =
    ([Invoke "deps.dev"; Invoke "clearlydefined"; Invoke "purl2src"; Invoke "upmex"],
     Ok (mkPackageMetadata "pkg:rubygems/rails" (PyStr "rubygems") (PyStr "rails")
           PyNone PyNone PyNone PyNone PyNone PyNone [] PyNone)) /\
  discover (N := offline) (L := sample_lib) (PackageDiscoveryService__init__ (N := offline) None)
    "pkg:rubygems/rails" false =
    ([Invoke "deps.dev"; Invoke "clearlydefined"; Invoke "purl2src"; Invoke "upmex"],
     Raise (ValueError "Could not discover complete metadata for pkg:rubygems/rails. Missing: repo_url")) /\
  In "repo_url" ["repo_url"].
Proof.
  apply (discover_unknown_ecosystem (N := offline) (L := sample_lib) "rubygems" "rails").
  - split; reflexivity.
  - split; reflexivity.
  - intros H. cbn [In] in H.
    repeat (destruct H as [H|H]; [discriminate H|]). exact H.
Defined.

(** X14, witness: the repository of the specification, without network. *)
Lemma discover_github_identifier_witness :
  discover (N := offline) (L := sample_lib) (PackageDiscoveryService__init__ (N := offline) None)
    "pkg:github/expressjs/express" false =
    ([Http {| url := "https://api.github.com/repos/expressjs/express/releases/latest";
              params := [] |};
      Invoke "deps.dev"; Invoke "clearlydefined"; Invoke "purl2src"; Invoke "upmex"],
     Ok (mkPackageMetadata "pkg:github/expressjs/express" (PyStr "github")
           (PyStr "expressjs/express") PyNone (PyStr "https://github.com/expressjs/express")
           PyNone PyNone PyNone PyNone [] PyNone)) /\
  true = true /\ PyNone = PyNone.
Proof.
  apply (discover_github_identifier (N := offline) (L := sample_lib)
           "expressjs" "express" false); reflexivity.
Defined.

(** ** What the fetchers of the class return *)

Section Fetchers.
Context {N : Network} {L : PyLib}.

Ltac break_inner :=
  match goal with
  | |- context [match ?x with _ => _ end] =>
      lazymatch x with
      | context [match _ with _ => _ end] => fail
      | _ => destruct x eqn:?
      end
  end.

Lemma same_fresh (md : PackageMetadata) : same_package md (fresh_result md).
Proof. repeat split. Qed.

Lemma same_set_repo_url (md r : PackageMetadata) (v : pyval) :
  same_package md r -> same_package md (set_repo_url v r).
Proof. exact (fun H => H). Qed.

Lemma same_set_license (md r : PackageMetadata) (v : pyval) :
  same_package md r -> same_package md (set_license v r).
Proof. exact (fun H => H). Qed.

Lemma same_set_homepage (md r : PackageMetadata) (v : pyval) :
  same_package md r -> same_package md (set_homepage v r).
Proof. exact (fun H => H). Qed.

Lemma same_set_latest_version (md r : PackageMetadata) (v : pyval) :
  same_package md r -> same_package md (set_latest_version v r).
Proof. exact (fun H => H). Qed.

Lemma same_set_description (md r : PackageMetadata) (v : pyval) :
  same_package md r -> same_package md (set_description v r).
Proof. exact (fun H => H). Qed.

Ltac same :=
  repeat first
    [ assumption
    | apply same_fresh
    | apply same_set_repo_url
    | apply same_set_license
    | apply same_set_homepage
    | apply same_set_latest_version
    | apply same_set_description ].

Lemma link_step_same (md : PackageMetadata) (link : pyval) (x x' : PackageMetadata) :
  same_package md x -> snd (link_step link x) = Ok x' -> same_package md x'.
Proof.
  intros Hx. unfold link_step, bind, lift, ret.
  repeat (break_inner; cbn [fst snd]); try discriminate; intros [= <-]; same.
Qed.

Lemma links_loop_same (md : PackageMetadata) (links : list pyval) (x : PackageMetadata) :
  same_package md x -> same_package md (fst (links_loop links x)).
Proof.
  revert x; induction links as [|link rest IH]; intros x Hx; [exact Hx|].
  cbn [links_loop].
  destruct (snd (link_step link x)) as [x'|] eqn:E; [|exact Hx].
  apply IH. exact (link_step_same md link x x' Hx E).
Qed.

Lemma version_details_same (md : PackageMetadata) (vd : pyval) (x : PackageMetadata) :
  same_package md x -> same_package md (fst (version_details vd x)).
Proof.
  intros Hx. unfold version_details.
  destruct (py_in "links" vd) as [[|]|]; cbn [fst].
  - destruct (py_getitem vd "links") as [links|]; cbn [fst].
    + destruct (py_iter links) as [items|]; cbn [fst].
      * pose proof (links_loop_same md items x Hx) as Hl.
        destruct (links_loop items x) as [y [e|]]; cbn [fst] in *; [exact Hl|].
        repeat (break_inner; cbn [fst]); same.
      * exact Hx.
    + exact Hx.
  - repeat (break_inner; cbn [fst]); same.
  - exact Hx.
Qed.

Lemma fetch_deps_dev_same (md r : PackageMetadata) :
  snd (_fetch_deps_dev md) = Ok (Some r) -> same_package md r.
Proof.
  unfold _fetch_deps_dev, bind, lift, ret, client_get.
  repeat (break_inner; cbn [fst snd]); try discriminate; intros [= <-];
    repeat first [apply version_details_same | progress same].
Qed.

Lemma fetch_clearlydefined_same (md r : PackageMetadata) :
  snd (_fetch_clearlydefined md) = Ok (Some r) -> same_package md r.
Proof.
  unfold _fetch_clearlydefined, bind, lift, ret, raise, client_get.
  repeat (break_inner; cbn [fst snd]); try discriminate; intros [= <-]; same.
Qed.

Lemma serpapi_results_same (md r : PackageMetadata) (results : list pyval) :
  snd (serpapi_results md results) = Ok (Some r) ->
  same_package md r /\
  exists a b, repo_url r = PyStr ("https://github.com/" ++ a ++ "/" ++ b).
Proof.
  induction results as [|x rest IH]; [discriminate|].
  cbn [serpapi_results]. unfold bind, lift, ret, raise.
  destruct (py_get x "link" (PyStr "")) as [link|]; cbn [fst snd]; [|discriminate].
  destruct (py_in "github.com" link) as [[|]|]; cbn [fst snd]; [| |discriminate].
  - destruct link; try discriminate.
    destruct (2 <=? _)%nat.
    + destruct (py_get x "snippet" PyNone) as [snippet|]; cbn [fst snd]; [|discriminate].
      intros [= <-]. split; [same|]. do 2 eexists. reflexivity.
    + destruct (serpapi_results md rest) as [t' r']. exact IH.
  - destruct (serpapi_results md rest) as [t' r']. exact IH.
Qed.

Lemma fetch_serpapi_same (key : option string) (md r : PackageMetadata) :
  snd (_fetch_serpapi key md) = Ok (Some r) ->
  key_given key = true /\ same_package md r /\
  exists a b, repo_url r = PyStr ("https://github.com/" ++ a ++ "/" ++ b).
Proof.
  unfold _fetch_serpapi, key_given.
  destruct key as [k|]; [|discriminate].
  destruct (String.eqb k ""); [discriminate|].
  unfold bind, lift, ret, client_get.
  destruct (http_get _) as [|resp]; cbn [fst snd]; [discriminate|].
  destruct (negb (status_code resp =? 200)%Z); cbn [fst snd]; [discriminate|].
  destruct (json resp) as [data|]; cbn [fst snd]; [|discriminate].
  destruct (py_get data "organic_results" (PyList [])) as [organic|]; cbn [fst snd]; [|discriminate].
  destruct (py_iter organic) as [results|]; cbn [fst snd]; [|discriminate].
  pose proof (serpapi_results_same md r results) as H.
  destruct (serpapi_results md results) as [t' r']. cbn [snd] in *.
  intros Hr. split; [reflexivity|]. now apply H.
Qed.

End Fetchers.

(** ** The identity of the package through [discover] *)

Section Identity.
Context {N : Network} {L : PyLib}.

Ltac break_inner :=
  match goal with
  | |- context [match ?x with _ => _ end] =>
      lazymatch x with
      | context [match _ with _ => _ end] => fail
      | _ => destruct x eqn:?
      end
  end.

Lemma same_trans (a b c : PackageMetadata) :
  same_package a b -> same_package b c -> same_package a c.
Proof.
  intros (H1 & H2 & H3 & H4 & _ & _) (G1 & G2 & G3 & G4 & G5 & G6).
  repeat split; congruence.
Qed.

Lemma same_self (a b : PackageMetadata) : same_package a b -> same_package b b.
Proof. intros (_ & _ & _ & _ & H5 & H6). repeat split; assumption. Qed.

Lemma same_merge (md r : PackageMetadata) :
  same_package md md -> same_package md r -> same_package md (_merge_metadata md r).
Proof.
  intros (_ & _ & _ & _ & M5 & M6) (_ & H2 & H3 & H4 & H5 & H6).
  repeat split; cbn.
  - now rewrite H2, py_or_same.
  - now rewrite H3, py_or_same.
  - now rewrite H4, py_or_same.
  - rewrite M5, H5. apply set_to_list_nil.
  - now rewrite M6, H6.
Qed.

Lemma parsed_same (p : string) :
  same_package (parsed p) (parsed p) /\ purl (parsed p) = p.
Proof.
  unfold parsed. rewrite parse_purl_eq.
  destruct (negb (PyStr.startswith "pkg:" p)); [repeat split|]. cbv zeta.
  destruct (PyStr.partition "@" (PyStr.drop 4 p)) as [[b v]|];
    destruct (_ <? 2)%nat; repeat split.
Qed.

Lemma special_github_same (md0 md md' : PackageMetadata) (t : list event) :
  same_package md0 md -> special_github md = (t, Ok md') -> same_package md0 md'.
Proof.
  intros H. unfold special_github, try_except, bind, map_events, client_get, lift, ret.
  repeat (break_inner; cbn [fst snd]); try discriminate; intros [= _ <-]; exact H.
Qed.

Lemma special_golang_same (md0 md md' : PackageMetadata) (t : list event) :
  same_package md0 md -> special_golang md = (t, Ok md') -> same_package md0 md'.
Proof.
  intros H. unfold special_golang, forge_repo, bind, lift, ret.
  repeat (break_inner; cbn [fst snd]); try discriminate; intros [= _ <-]; exact H.
Qed.

Lemma prepare_same (p : string) (t : list event) (md : PackageMetadata) :
  prepare p = (t, Ok md) -> same_package (parsed p) md.
Proof.
  unfold prepare. pose proof (parsed_same p) as [Hs _]. unfold parsed in *.
  destruct (_parse_purl p (PackageMetadata__init__ p)) as [m ok]. cbn [fst] in *.
  destruct ok; cbn [negb]; [|discriminate].
  unfold bind. destruct (special_github m) as [t1 [m1|e1]] eqn:E1; [|discriminate].
  destruct (special_golang m1) as [t2 [m2|e2]] eqn:E2; [|discriminate].
  intros [= _ <-].
  exact (special_golang_same _ _ _ _ (special_github_same _ _ _ _ Hs E1) E2).
Qed.

(** Along a chain whose fetchers keep the package, the accumulator keeps it,
    and an early return is a contribution that keeps it, tagged with the name
    of its fetcher. *)
Lemma chain_same (P : string -> Prop) (srcs : list (string * Fetcher)) :
  (forall n f acc r, In (n, f) srcs -> contribution f acc = Some r ->
                     same_package acc r /\ P n) ->
  forall md t o,
    same_package md md -> try_sources srcs md = (t, Ok o) ->
    match o with
    | inl r => exists n r0, P n /\ r = set_source (PyStr n) r0 /\ same_package md r0
    | inr acc => same_package md acc
    end.
Proof.
  induction srcs as [|[n f] rest IH]; intros Hsrc md t o Hmd H.
  - cbn in H. injection H as _ <-. exact Hmd.
  - rewrite try_sources_cons in H.
    assert (Hrest : forall n' f' acc r, In (n', f') rest -> contribution f' acc = Some r ->
                                        same_package acc r /\ P n')
      by (intros n' f' acc r Hin; apply Hsrc; now right).
    destruct (contribution f md) as [r|] eqn:Ec.
    + destruct (Hsrc n f md r (or_introl eq_refl) Ec) as [Hr HP].
      destruct (is_complete r).
      * apply pair_equal_spec in H as [_ H]. injection H as <-.
        exists n, r. auto.
      * cbv zeta in H.
        destruct (try_sources rest (_merge_metadata md r)) as [t1 r1] eqn:E1.
        cbn [fst snd] in H. apply pair_equal_spec in H as [_ ->].
        pose proof (same_merge md r Hmd Hr) as Hm.
        pose proof (IH Hrest _ _ _ (same_self _ _ Hm) E1) as Ho.
        destruct o as [res|acc].
        -- destruct Ho as (n' & r0 & HP' & -> & H0). exists n', r0.
           split; [exact HP'|]. split; [reflexivity|]. exact (same_trans _ _ _ Hm H0).
        -- exact (same_trans _ _ _ Hm Ho).
    + cbv zeta in H. destruct (try_sources rest md) as [t1 r1] eqn:E1.
      cbn [fst snd] in H. apply pair_equal_spec in H as [_ ->].
      exact (IH Hrest _ _ _ Hmd E1).
Qed.

Lemma real_contribution (key : option string) (n : string) (f : Fetcher) (acc r : PackageMetadata) :
  In (n, f) (sources (PackageDiscoveryService__init__ key)) ->
  contribution f acc = Some r ->
  same_package acc r /\ (n = "deps.dev" \/ n = "clearlydefined" \/ n = "serpapi").
Proof.
  unfold sources, contribution.
  cbn [serpapi_key fetch_deps_dev fetch_clearlydefined fetch_purl2src fetch_upmex
       fetch_serpapi PackageDiscoveryService__init__].
  intros Hin. apply in_app_iff in Hin as [Hin|Hin].
  - cbn [In] in Hin. destruct Hin as [[= <- <-]|[[= <- <-]|[[= <- <-]|[[= <- <-]|[]]]]].
    + destruct (snd (_fetch_deps_dev acc)) as [[x|]|] eqn:E; try discriminate.
      intros [= <-]. split; [now apply fetch_deps_dev_same|auto].
    + destruct (snd (_fetch_clearlydefined acc)) as [[x|]|] eqn:E; try discriminate.
      intros [= <-]. split; [now apply fetch_clearlydefined_same|auto].
    + discriminate.
    + discriminate.
  - destruct (key_given key); [|destruct Hin].
    cbn [In] in Hin. destruct Hin as [[= <- <-]|[]].
    destruct (snd (_fetch_serpapi key acc)) as [[x|]|] eqn:E; try discriminate.
    intros [= <-]. split; [now apply (fetch_serpapi_same key)|auto].
Qed.

(** X15: whatever the providers answer, a record that [discover] returns for
    the service of the class describes the package that was asked for: its
    purl is the input and its ecosystem, name and version are those the parser
    read. It has no maintainers, and its source is absent or one of deps.dev,
    clearlydefined and serpapi, never a placeholder source. *)
Theorem discover_keeps_identity (key : option string) (p : string) (allow_partial : bool) (t : list event) (r : PackageMetadata) :
  discover (PackageDiscoveryService__init__ key) p allow_partial = (t, Ok r) ->
  purl r = p /\ ecosystem r = ecosystem (parsed p) /\ name r = name (parsed p) /\
  version r = version (parsed p) /\ maintainers r = [] /\
  (source r = PyNone \/ source r = PyStr "deps.dev" \/
   source r = PyStr "clearlydefined" \/ source r = PyStr "serpapi").
Proof.
  destruct (parsed_same p) as [_ Hpurl].
  destruct (prepare_cases p) as [[_ Hp]|(_ & t0 & md & Hp)].
  - rewrite (discover_rejects _ _ _ Hp). discriminate.
  - pose proof (prepare_same p t0 md Hp) as Hmd.
    rewrite (discover_eq _ _ _ _ _ Hp). cbv zeta.
    destruct (try_sources_total (sources (PackageDiscoveryService__init__ key)) md)
      as (t1 & o & Ht).
    pose proof (chain_same _ _ (real_contribution key) md t1 o (same_self _ _ Hmd) Ht) as Ho.
    rewrite Ht. cbn [fst snd].
    destruct o as [res|acc].
    + intros [= _ <-]. destruct Ho as (n & r0 & Hn & -> & H0).
      destruct (same_trans _ _ _ Hmd H0) as (H1 & H2 & H3 & H4 & H5 & _).
      cbn [purl ecosystem name version maintainers source set_source].
      repeat split; try congruence.
      destruct Hn as [-> | [-> | ->]]; auto.
    + destruct (negb allow_partial && negb (is_complete acc)); [discriminate|].
      intros [= _ <-].
      destruct (same_trans _ _ _ Hmd Ho) as (H1 & H2 & H3 & H4 & H5 & H6).
      repeat split; try congruence. now left.
Qed.

(** X16: a record from the search fetcher always carries a repository URL of
    the form [https://github.com/<a>/<b>], and the fetcher returns one only
    for a service that has a key; so for an accumulator with ecosystem and
    name the record is complete and ends the chain. *)
Theorem fetch_serpapi_is_complete (key : option string) (md r : PackageMetadata) :
  snd (_fetch_serpapi key md) = Ok (Some r) ->
  truthy (ecosystem md) = true -> truthy (name md) = true ->
  key_given key = true /\ is_complete r = true /\
  exists a b, repo_url r = PyStr ("https://github.com/" ++ a ++ "/" ++ b).
Proof.
  intros H He Hn.
  destruct (fetch_serpapi_same key md r H) as (Hk & (_ & H2 & H3 & _) & a & b & Hu).
  split; [exact Hk|]. split; [|eauto].
  unfold is_complete. rewrite H2, H3, He, Hn, Hu. reflexivity.
Qed.

End Identity.

(** X15, witness: the scenario of the specification. *)
Lemma discover_keeps_identity_witness :
  "pkg:npm/express@4.18.0" = "pkg:npm/express@4.18.0" /\
  PyStr "npm" = ecosystem (parsed "pkg:npm/express@4.18.0") /\
  PyStr "express" = name (parsed "pkg:npm/express@4.18.0") /\
  PyStr "4.18.0" = version (parsed "pkg:npm/express@4.18.0") /\
  @nil string = [] /\
  (PyStr "deps.dev" = PyNone \/ PyStr "deps.dev" = PyStr "deps.dev" \/
   PyStr "deps.dev" = PyStr "clearlydefined" \/ PyStr "deps.dev" = PyStr "serpapi").
Proof.
  apply (discover_keeps_identity
           (N := deps_dev_answers "express" "4.18.2" "4.18.0" "git+https://github.com/expressjs/express.git")
           (L := sample_lib) None "pkg:npm/express@4.18.0" false
           [Invoke "deps.dev";
            Http {| url := "https://api.deps.dev/v3/systems/npm/packages/express"; params := [] |};
            Http {| url := "https://api.deps.dev/v3/systems/npm/packages/express/versions/4.18.0";
                    params := [] |}]
           (mkPackageMetadata "pkg:npm/express@4.18.0" (PyStr "npm") (PyStr "express") (PyStr "4.18.0")
              (PyStr "https://github.com/expressjs/express") (PyStr "MIT") PyNone PyNone
              (PyStr "4.18.2") [] (PyStr "deps.dev"))).
  vm_compute. reflexivity.
Defined.

(** X16, witness: the search finds an issue page of the repository. *)
Lemma fetch_serpapi_is_complete_witness :
  key_given (Some "key") = true /\
  is_complete
    (set_description (PyStr "Fast web framework")
       (set_repo_url (PyStr "https://github.com/expressjs/express")
          (fresh_result (parsed "pkg:npm/express")))) = true /\
  exists a b,
    repo_url
      (set_description (PyStr "Fast web framework")
         (set_repo_url (PyStr "https://github.com/expressjs/express")
            (fresh_result (parsed "pkg:npm/express")))) =
    PyStr ("https://github.com/" ++ a ++ "/" ++ b).
Proof.
  apply (fetch_serpapi_is_complete
           (N := search_answers "https://github.com/expressjs/express/issues" "Fast web framework")
           (L := sample_lib) (Some "key") (parsed "pkg:npm/express"));
    reflexivity.
Defined.

(** ** Where requests go *)

Section Requests.
Context {N : Network} {L : PyLib}.

Ltac break_inner :=
  match goal with
  | |- context [match ?x with _ => _ end] =>
      lazymatch x with
      | context [match _ with _ => _ end] => fail
      | _ => destruct x eqn:?
      end
  end.

Lemma requests_app (a b : list event) : requests (a ++ b)%list = (requests a ++ requests b)%list.
Proof.
  induction a as [|[r|n] a IH]; cbn [requests app]; [reflexivity| |exact IH].
  now rewrite IH.
Qed.

Lemma requests_http (l : list request) : requests (map Http l) = l.
Proof. induction l; cbn [requests map]; congruence. Qed.

(** The requests of a chain are those of its fetchers. *)
Lemma try_sources_requests (P : request -> Prop) (srcs : list (string * Fetcher)) :
  (forall n f acc, In (n, f) srcs -> Forall P (fst (f acc))) ->
  forall md, Forall P (requests (fst (try_sources srcs md))).
Proof.
  induction srcs as [|[n f] rest IH]; intros Hsrc md; [constructor|].
  assert (Hrest : forall n' f' acc, In (n', f') rest -> Forall P (fst (f' acc)))
    by (intros n' f' acc Hin; apply (Hsrc n'); now right).
  assert (Hturn : Forall P (requests (turn n f md))).
  { unfold turn. cbn [requests]. rewrite requests_http.
    apply (Hsrc n f md). now left. }
  rewrite try_sources_cons.
  destruct (contribution f md) as [r|]; [destruct (is_complete r)|];
    cbv zeta; cbn [fst]; rewrite ?requests_app; try apply Forall_app; auto.
Qed.

Lemma special_github_requests (md : PackageMetadata) :
  Forall (fun r => metadata_request r = true) (requests (fst (special_github md))).
Proof.
  unfold special_github, try_except, bind, map_events, client_get, lift, ret.
  repeat (break_inner; cbn [fst snd map app requests]);
    repeat constructor.
Qed.

Lemma special_golang_requests (md : PackageMetadata) : requests (fst (special_golang md)) = [].
Proof.
  unfold special_golang, bind, lift, ret.
  repeat (break_inner; cbn [fst snd app requests]); reflexivity.
Qed.

Lemma prepare_requests (p : string) :
  Forall (fun r => metadata_request r = true) (requests (fst (prepare p))).
Proof.
  unfold prepare. destruct (_parse_purl p (PackageMetadata__init__ p)) as [m ok].
  destruct ok; cbn [negb]; [|constructor].
  rewrite fst_bind, requests_app. apply Forall_app. split.
  - apply special_github_requests.
  - destruct (snd (special_github m)); [|constructor].
    rewrite special_golang_requests. constructor.
Qed.

Lemma fetch_deps_dev_requests (md : PackageMetadata) :
  Forall (fun r => metadata_request r = true) (fst (_fetch_deps_dev md)).
Proof.
  unfold _fetch_deps_dev, bind, lift, ret, client_get.
  repeat (break_inner; cbn [fst snd app]);
    repeat constructor.
Qed.

Lemma fetch_clearlydefined_requests (md : PackageMetadata) :
  Forall (fun r => metadata_request r = true) (fst (_fetch_clearlydefined md)).
Proof.
  unfold _fetch_clearlydefined, bind, lift, ret, raise, client_get.
  repeat (break_inner; cbn [fst snd app]);
    repeat constructor.
Qed.

Lemma serpapi_results_silent (md : PackageMetadata) (results : list pyval) :
  fst (serpapi_results md results) = [].
Proof.
  induction results as [|x rest IH]; [reflexivity|].
  cbn [serpapi_results]. unfold bind, lift, ret, raise.
  destruct (serpapi_results md rest) as [t' r']. cbn [fst] in IH. subst t'.
  destruct (py_get x "link" (PyStr "")) as [link|]; cbn [fst snd app]; [|reflexivity].
  destruct (py_in "github.com" link) as [[|]|]; cbn [fst snd app]; [| |reflexivity].
  - destruct link; try reflexivity.
    destruct (2 <=? _)%nat; [|reflexivity].
    destruct (py_get x "snippet" PyNone); reflexivity.
  - reflexivity.
Qed.

Lemma fetch_serpapi_requests (key : option string) (md : PackageMetadata) :
  Forall (fun r => exists k, key = Some k /\ k <> "" /\ search_request k r = true)
    (fst (_fetch_serpapi key md)).
Proof.
  unfold _fetch_serpapi. destruct key as [k|]; [|constructor].
  destruct (String.eqb_spec k "") as [->|Hk]; [constructor|].
  unfold bind, lift, ret, client_get.
  assert (Hreq : forall q, exists k', Some k = Some k' /\ k' <> "" /\
    search_request k' {| url := "https://serpapi.com/search";
                         params := [("q", PyStr q); ("api_key", PyStr k); ("num", PyInt 3)] |} = true).
  { intros q. exists k. repeat split; auto.
    unfold search_request. cbn. apply String.eqb_refl. }
  destruct (http_get _) as [|resp]; cbn [fst snd]; [repeat constructor; apply Hreq|].
  destruct (negb (status_code resp =? 200)%Z); cbn [fst snd app]; [repeat constructor; apply Hreq|].
  destruct (json resp) as [data|]; cbn [fst snd app]; [|repeat constructor; apply Hreq].
  destruct (py_get data "organic_results" (PyList [])) as [organic|]; cbn [fst snd app];
    [|repeat constructor; apply Hreq].
  destruct (py_iter organic) as [results|]; cbn [fst snd app]; [|repeat constructor; apply Hreq].
  pose proof (serpapi_results_silent md results) as Hs.
  destruct (serpapi_results md results) as [t' r']. cbn [fst] in Hs. subst t'.
  cbn [fst app]. repeat constructor; apply Hreq.
Qed.

(** X17: every request [discover] sends for the service of the class goes to
    the release API, deps.dev or ClearlyDefined and carries no parameters, or
    else goes to the search API with the key of the service, which must then
    have one: without a key nothing is sent to the search API, and the key is
    sent nowhere else. *)
Theorem discover_requests_known (key : option string) (p : string) (allow_partial : bool) :
  Forall (fun r => metadata_request r = true \/
                   exists k, key = Some k /\ k <> "" /\ search_request k r = true)
    (requests (fst (discover (PackageDiscoveryService__init__ key) p allow_partial))).
Proof.
  unfold discover. rewrite fst_bind, requests_app. apply Forall_app. split.
  - eapply Forall_impl; [|apply prepare_requests]. cbv beta. auto.
  - destruct (snd (prepare p)) as [md|]; [|constructor].
    rewrite fst_bind, requests_app. apply Forall_app. split.
    + apply try_sources_requests. intros n f acc Hin.
      unfold sources in Hin.
      cbn [serpapi_key fetch_deps_dev fetch_clearlydefined fetch_purl2src fetch_upmex
           fetch_serpapi PackageDiscoveryService__init__] in Hin.
      apply in_app_iff in Hin as [Hin|Hin].
      * cbn [In] in Hin.
        destruct Hin as [[= <- <-]|[[= <- <-]|[[= <- <-]|[[= <- <-]|[]]]]].
        -- eapply Forall_impl; [|apply fetch_deps_dev_requests]. cbv beta. auto.
        -- eapply Forall_impl; [|apply fetch_clearlydefined_requests]. cbv beta. auto.
        -- constructor.
        -- constructor.
      * destruct (key_given key); [|destruct Hin].
        cbn [In] in Hin. destruct Hin as [[= <- <-]|[]].
        eapply Forall_impl; [|apply fetch_serpapi_requests]. cbv beta. auto.
    + destruct (snd (try_sources _ md)) as [[res|acc]|]; [constructor| |constructor].
      destruct (negb allow_partial && negb (is_complete acc)); constructor.
Qed.

End Requests.

(** ** The convenience function and the dictionary *)

Section Package.
Context {N : Network} {L : PyLib}.

(** A record returned by [discover] is an early return of the chain or its
    last accumulator. *)
Lemma discover_inv (self : PackageDiscoveryService) (p : string) (allow_partial : bool) (t : list event) (r : PackageMetadata) :
  discover self p allow_partial = (t, Ok r) ->
  exists t0 md t1,
    prepare p = (t0, Ok md) /\
    (try_sources (sources self) md = (t1, Ok (inl r)) \/
     (try_sources (sources self) md = (t1, Ok (inr r)) /\
      (allow_partial = true \/ is_complete r = true))).
Proof.
  destruct (prepare_cases p) as [[_ Hp]|(_ & t0 & md & Hp)].
  - rewrite (discover_rejects _ _ _ Hp). discriminate.
  - rewrite (discover_eq _ _ _ _ _ Hp). cbv zeta.
    destruct (try_sources_total (sources self) md) as (t1 & [res|acc] & Ht);
      rewrite Ht; cbn [fst snd].
    + intros [= _ <-]. exists t0, md, t1. auto.
    + destruct allow_partial; cbn [negb andb].
      * intros [= _ <-]. exists t0, md, t1. auto.
      * destruct (is_complete acc) eqn:Hc; cbn [negb]; [|discriminate].
        intros [= _ <-]. exists t0, md, t1. auto.
Qed.

(** X18: [discover_package] returns the dictionary of a complete record of
    the package asked for: the entry [purl] is the input, the entries
    [ecosystem], [name] and [repo_url] are non-empty, and [maintainers] is the
    empty list. *)
Theorem discover_package_result (p : string) (key : option string) (t : list event) (d : pyval) :
  discover_package p key = (t, Ok d) ->
  py_getitem d "purl" = Ok (PyStr p) /\
  (exists e, py_getitem d "ecosystem" = Ok e /\ truthy e = true) /\
  (exists n, py_getitem d "name" = Ok n /\ truthy n = true) /\
  (exists u, py_getitem d "repo_url" = Ok u /\ truthy u = true) /\
  py_getitem d "maintainers" = Ok (PyList []).
Proof.
  unfold discover_package, bind, ret.
  destruct (discover (PackageDiscoveryService__init__ key) p false) as [t' [r|e]] eqn:Hd;
    [|discriminate].
  intros [= _ <-].
  destruct (discover_inv _ _ _ _ _ Hd) as (t0 & md & t1 & Hp & Hcases).
  pose proof (prepare_same p t0 md Hp) as Hmd.
  destruct (parsed_same p) as [_ Hpurl].
  assert (Hres : is_complete r = true /\ purl r = p /\ maintainers r = []).
  { destruct Hcases as [Ht|[Ht [Hf|Hc]]]; [| discriminate |].
    - pose proof (chain_same _ _ (real_contribution key) md t1 _ (same_self _ _ Hmd) Ht) as Ho.
      destruct Ho as (n & r0 & _ & -> & H0).
      destruct (try_sources_early _ _ _ _ Ht)
        as (pre & n' & f & post & acc & tpre & r1 & _ & _ & _ & Hr & Heq & _).
      destruct (same_trans _ _ _ Hmd H0) as (H1 & _ & _ & _ & H5 & _).
      rewrite Heq. repeat split; [exact Hr| |].
      + rewrite <- Heq. cbn [purl set_source]. congruence.
      + rewrite <- Heq. exact H5.
    - pose proof (chain_same _ _ (real_contribution key) md t1 _ (same_self _ _ Hmd) Ht) as Ho.
      cbv beta iota in Ho.
      destruct (same_trans _ _ _ Hmd Ho) as (H1 & _ & _ & _ & H5 & _).
      repeat split; [exact Hc|congruence|exact H5]. }
  destruct Hres as (Hc & Hp' & Hm).
  unfold is_complete in Hc.
  apply andb_true_iff in Hc as [Hc Hu]. apply andb_true_iff in Hc as [He Hn].
  unfold to_dict. cbn [py_getitem lookup String.eqb Ascii.eqb Bool.eqb].
  rewrite Hp', Hm. repeat split; eauto.
Qed.

End Package.

(** ** Merging, once more *)

Section MergeAlgebra.
Context {L : PyLib}.

Lemma py_or_assoc (a b c : pyval) : py_or (py_or a b) c = py_or a (py_or b c).
Proof.
  unfold py_or. destruct (truthy a) eqn:Ha; [now rewrite Ha|reflexivity].
Qed.

Lemma truthy_py_or (a b : pyval) : truthy (py_or a b) = truthy a || truthy b.
Proof. unfold py_or. destruct (truthy a) eqn:Ha; [now rewrite Ha|reflexivity]. Qed.

(** X19: merging is associative on the purl and every scalar attribute, and
    on the members of the maintainers: how contributions are grouped does not
    matter, only their order. *)
Theorem merge_associative (a b c : PackageMetadata) :
  purl (_merge_metadata (_merge_metadata a b) c) = purl (_merge_metadata a (_merge_metadata b c)) /\
  Forall (fun f => f (_merge_metadata (_merge_metadata a b) c) =
                   f (_merge_metadata a (_merge_metadata b c))) scalar_fields /\
  (forall x, In x (maintainers (_merge_metadata (_merge_metadata a b) c)) <->
             In x (maintainers (_merge_metadata a (_merge_metadata b c)))).
Proof.
  split; [reflexivity|]. split.
  - unfold scalar_fields. repeat constructor; cbn; apply py_or_assoc.
  - intros x. cbn. rewrite !set_to_list_In, !in_app_iff, !set_to_list_In, !in_app_iff. tauto.
Qed.

(** X20: a merge never empties an attribute and fills every attribute that
    either record has: a scalar attribute of the merge is non-empty exactly
    when it is non-empty in the base or in the candidate, and so the merge is
    complete exactly when each of ecosystem, name and repo_url is non-empty in
    one of the two. *)
Theorem merge_fills (base new : PackageMetadata) :
  Forall (fun f => truthy (f (_merge_metadata base new)) = truthy (f base) || truthy (f new))
    scalar_fields /\
  is_complete (_merge_metadata base new) =
    (truthy (ecosystem base) || truthy (ecosystem new)) &&
    (truthy (name base) || truthy (name new)) &&
    (truthy (repo_url base) || truthy (repo_url new)).
Proof.
  split.
  - unfold scalar_fields. repeat constructor; cbn; apply truthy_py_or.
  - unfold is_complete. cbn. now rewrite !truthy_py_or.
Qed.

End MergeAlgebra.

(** ** Path suffixes never survive the cleaning *)

Section NoSuffix.
Import PyStr PyStrFacts.

Lemma contains_cons (x : string) (c : ascii) (t : string) :
  contains x (String c t) = startswith x (String c t) || contains x t.
Proof.
  unfold contains. cbn [partition].
  destruct (startswith x (String c t)); [reflexivity|].
  now destruct (partition x t) as [[a b]|].
Qed.

(** What does not occur in a string does not occur in its initial parts. *)
Lemma contains_prefix_false (x q s : string) :
  startswith q s = true -> contains x s = false -> contains x q = false.
Proof.
  revert s; induction q as [|c q IH]; intros s Hq Hs.
  - unfold contains. cbn [partition].
    destruct (startswith x "") eqn:E; [|reflexivity].
    destruct x; [|discriminate]. 
    unfold contains in Hs. destruct s; cbn in Hs; discriminate.
  - destruct s as [|d s]; [discriminate|].
    cbn [startswith] in Hq. apply andb_true_iff in Hq as [Hcd Hq].
    apply Ascii.eqb_eq in Hcd; subst d.
    rewrite contains_cons in Hs |- *. apply orb_false_iff in Hs as [Hs1 Hs2].
    apply orb_false_iff. split; [|now apply (IH s)].
    destruct (startswith x (String c q)) eqn:E; [|reflexivity].
    rewrite (startswith_trans x (String c q) (String c s) E) in Hs1; [discriminate|].
    cbn [startswith]. now rewrite Ascii.eqb_refl.
Qed.

Lemma cut_single_clean (y s : string) :
  y <> "" -> contains y (cut_at_first [y] s) = false.
Proof.
  intros Hy. induction s as [|c s IH]; cbn [cut_at_first existsb]; rewrite orb_false_r.
  - assert (H0 : contains y "" = false)
      by (unfold contains; now rewrite partition_empty).
    now destruct (startswith y "").
  - destruct (startswith y (String c s)) eqn:E.
    + unfold contains. now rewrite partition_empty.
    + rewrite contains_cons, IH, orb_false_r.
      destruct (startswith y (String c (cut_at_first [y] s))) eqn:E'; [|reflexivity].
      rewrite (startswith_trans y _ (String c s) E') in E; [discriminate|].
      cbn [startswith]. rewrite Ascii.eqb_refl. apply cut_at_first_prefix.
Qed.

Lemma cut_steps_prefix (xs : list string) (s : string) :
  startswith
    (fold_left (fun cleaned suffix =>
                  if contains suffix cleaned then hd "" (split suffix cleaned) else cleaned)
       xs s) s = true.
Proof.
  revert s; induction xs as [|y ys IH]; intros s; cbn [fold_left].
  - rewrite <- (app_nil_r s) at 2. apply startswith_app.
  - eapply startswith_trans; [apply IH|].
    rewrite cut_step. apply cut_at_first_prefix.
Qed.

Lemma cut_steps_clean (xs : list string) (s x : string) :
  In x xs -> x <> "" ->
  contains x
    (fold_left (fun cleaned suffix =>
                  if contains suffix cleaned then hd "" (split suffix cleaned) else cleaned)
       xs s) = false.
Proof.
  revert s; induction xs as [|y ys IH]; intros s Hin Hx; [destruct Hin|].
  cbn [fold_left]. destruct Hin as [->|Hin]; [|now apply IH].
  eapply contains_prefix_false; [apply cut_steps_prefix|].
  rewrite cut_step. now apply cut_single_clean.
Qed.

(** The cleaning of a link contains none of [/issues], [/pulls], [/wiki],
    [/tree] and [/blob]. *)
Lemma cleaned_url_has_no_suffix (url_val : string) :
  Forall (fun suffix => contains suffix (cleaned_url url_val) = false) path_suffixes.
Proof.
  apply Forall_forall. intros x Hin. unfold cleaned_url.
  apply cut_steps_clean; [exact Hin|].
  unfold path_suffixes in Hin. cbn [In] in Hin.
  repeat (destruct Hin as [<-|Hin]; [discriminate|]). destruct Hin.
Qed.

End NoSuffix.

(** X18, witness: the scenario of the specification through
    [discover_package]. *)
Lemma discover_package_witness :
  py_getitem
    (to_dict (mkPackageMetadata "pkg:npm/express@4.18.0" (PyStr "npm") (PyStr "express")
                (PyStr "4.18.0") (PyStr "https://github.com/expressjs/express") (PyStr "MIT")
                PyNone PyNone (PyStr "4.18.2") [] (PyStr "deps.dev"))) "purl" =
    Ok (PyStr "pkg:npm/express@4.18.0") /\
  (exists e,
      py_getitem
        (to_dict (mkPackageMetadata "pkg:npm/express@4.18.0" (PyStr "npm") (PyStr "express")
                    (PyStr "4.18.0") (PyStr "https://github.com/expressjs/express") (PyStr "MIT")
                    PyNone PyNone (PyStr "4.18.2") [] (PyStr "deps.dev"))) "ecosystem" = Ok e /\
      truthy e = true) /\
  (exists n,
      py_getitem
        (to_dict (mkPackageMetadata "pkg:npm/express@4.18.0" (PyStr "npm") (PyStr "express")
                    (PyStr "4.18.0") (PyStr "https://github.com/expressjs/express") (PyStr "MIT")
                    PyNone PyNone (PyStr "4.18.2") [] (PyStr "deps.dev"))) "name" = Ok n /\
      truthy n = true) /\
  (exists u,
      py_getitem
        (to_dict (mkPackageMetadata "pkg:npm/express@4.18.0" (PyStr "npm") (PyStr "express")
                    (PyStr "4.18.0") (PyStr "https://github.com/expressjs/express") (PyStr "MIT")
                    PyNone PyNone (PyStr "4.18.2") [] (PyStr "deps.dev"))) "repo_url" = Ok u /\
      truthy u = true) /\
  py_getitem
    (to_dict (mkPackageMetadata "pkg:npm/express@4.18.0" (PyStr "npm") (PyStr "express")
                (PyStr "4.18.0") (PyStr "https://github.com/expressjs/express") (PyStr "MIT")
                PyNone PyNone (PyStr "4.18.2") [] (PyStr "deps.dev"))) "maintainers" =
    Ok (PyList []).
Proof.
  apply (discover_package_result
           (N := deps_dev_answers "express" "4.18.2" "4.18.0" "git+https://github.com/expressjs/express.git")
           (L := sample_lib) "pkg:npm/express@4.18.0" None
           [Invoke "deps.dev";
            Http {| url := "https://api.deps.dev/v3/systems/npm/packages/express"; params := [] |};
            Http {| url := "https://api.deps.dev/v3/systems/npm/packages/express/versions/4.18.0";
                    params := [] |}]).
  vm_compute. reflexivity.
Defined.

(** ** The repository URL of the primary source *)

Section ForgeLinks.
Context {N : Network} {L : PyLib}.

Ltac break_inner :=
  match goal with
  | |- context [match ?x with _ => _ end] =>
      lazymatch x with
      | context [match _ with _ => _ end] => fail
      | _ => destruct x eqn:?
      end
  end.

Lemma link_step_forge (link : pyval) (x x' : PackageMetadata) :
  snd (link_step link x) = Ok x' ->
  repo_url x' = repo_url x \/ listed_forge_link [link] (repo_url x').
Proof.
  unfold link_step, bind, lift, ret.
  destruct (py_get link "label" (PyStr "")) as [label_v|]; cbn [fst snd]; [|discriminate].
  destruct (as_str label_v) as [label|]; cbn [fst snd]; [|discriminate].
  destruct (py_get link "url" (PyStr "")) as [url_v|] eqn:Eu; cbn [fst snd]; [|discriminate].
  destruct url_v as [| | |url_val| |]; cbn [as_str fst snd]; try discriminate.
  destruct (existsb _ repo_hosts) eqn:E.
  - destruct (negb (truthy (repo_url x))); cbn [fst snd]; intros [= <-]; [|now left].
    right. exists link, url_val. repeat split; auto. now left.
  - destruct (_ && _); cbn [fst snd]; intros [= <-]; now left.
Qed.

Lemma listed_forge_link_cons (link : pyval) (items : list pyval) (v : pyval) :
  listed_forge_link [link] v \/ listed_forge_link items v -> listed_forge_link (link :: items) v.
Proof.
  intros [(item & u & Hin & H)|(item & u & Hin & H)]; exists item, u; (split; [|exact H]).
  - destruct Hin as [<-|[]]. now left.
  - now right.
Qed.

Lemma links_loop_forge (links : list pyval) (x : PackageMetadata) :
  repo_url (fst (links_loop links x)) = repo_url x \/
  listed_forge_link links (repo_url (fst (links_loop links x))).
Proof.
  revert x; induction links as [|link rest IH]; intros x; [now left|].
  cbn [links_loop].
  destruct (snd (link_step link x)) as [x'|] eqn:E; [|now left].
  destruct (IH x') as [Hk|Hl].
  - rewrite Hk. destruct (link_step_forge link x x' E) as [H|H]; [now left|right].
    apply listed_forge_link_cons. now left.
  - right. apply listed_forge_link_cons. now right.
Qed.

Lemma version_details_forge (vd : pyval) (x : PackageMetadata) :
  repo_url (fst (version_details vd x)) = repo_url x \/
  exists links items,
    py_getitem vd "links" = Ok links /\ py_iter links = Ok items /\
    listed_forge_link items (repo_url (fst (version_details vd x))).
Proof.
  unfold version_details.
  destruct (py_in "links" vd) as [[|]|]; cbn [fst].
  - destruct (py_getitem vd "links") as [links|]; cbn [fst]; [|now left].
    destruct (py_iter links) as [items|] eqn:Ei; cbn [fst]; [|now left].
    assert (Hl : repo_url (fst (links_loop items x)) = repo_url x \/
                 exists links0 items0,
                   Ok links = Ok links0 /\ py_iter links0 = Ok items0 /\
                   listed_forge_link items0 (repo_url (fst (links_loop items x)))).
    { destruct (links_loop_forge items x) as [H|H]; [now left|right].
      exists links, items. now repeat split. }
    destruct (links_loop items x) as [y [e|]]; cbn [fst] in *; [exact Hl|].
    repeat (break_inner; cbn [fst]); exact Hl.
  - repeat (break_inner; cbn [fst]); now left.
  - now left.
Qed.

(** What [_fetch_deps_dev] returns: the record built from the listing, or
    that record with the details of an answer to one of its requests. *)
Lemma fetch_deps_dev_details (md r : PackageMetadata) :
  snd (_fetch_deps_dev md) = Ok (Some r) ->
  exists result,
    repo_url result = PyNone /\
    (r = result \/
     exists req resp version_data,
       In req (fst (_fetch_deps_dev md)) /\ http_get req = Reply resp /\
       status_code resp = 200%Z /\ body resp = Some version_data /\
       r = fst (version_details version_data result)).
Proof.
  unfold _fetch_deps_dev, bind, lift, ret, client_get, json.
  repeat (break_inner; cbn [fst snd app]); try discriminate; intros [= <-].
  all: lazymatch goal with
       | Hb : body ?rs = Some ?vd
         |- exists result, _ /\ (fst (version_details ?vd ?res) = result \/ _) =>
           match goal with
           | H : http_get ?q = Reply rs |- _ =>
               exists res; split; [reflexivity|right];
               exists q, rs, vd; repeat split; auto;
               [cbn [In]; auto | now apply Z.eqb_eq]
           end
       | |- exists result, _ /\ (?x = result \/ _) =>
           exists x; split; [reflexivity|left; reflexivity]
       end.
Qed.

(** X21: the repository URL in a record from [_fetch_deps_dev] is absent, or
    it comes from the answer to one of the fetcher's requests: that answer
    has status 200, its body has a list of links, one of them has a [url]
    that names github.com, gitlab.com or bitbucket.org once lowered, and the
    repository URL is the cleaning of that [url], which contains none of
    [/issues], [/pulls], [/wiki], [/tree] and [/blob]. *)
Theorem fetch_deps_dev_repo_url (md r : PackageMetadata) :
  snd (_fetch_deps_dev md) = Ok (Some r) ->
  repo_url r = PyNone \/
  exists req resp version_data links items item link,
    In req (fst (_fetch_deps_dev md)) /\
    http_get req = Reply resp /\ status_code resp = 200%Z /\ body resp = Some version_data /\
    py_getitem version_data "links" = Ok links /\ py_iter links = Ok items /\
    In item items /\ py_get item "url" (PyStr "") = Ok (PyStr link) /\
    existsb (fun host => PyStr.contains host (str_lower link)) repo_hosts = true /\
    repo_url r = PyStr (cleaned_url link) /\
    Forall (fun suffix => PyStr.contains suffix (cleaned_url link) = false) path_suffixes.
Proof.
  intros H.
  destruct (fetch_deps_dev_details md r H) as (result & Hn & [->|Hd]); [now left|].
  destruct Hd as (req & resp & vd & Hin & Hget & Hs & Hb & ->).
  destruct (version_details_forge vd result) as [Hk|(links & items & Hl & Hi & Hf)].
  - left. now rewrite Hk.
  - right. destruct Hf as (item & link & Hitem & Hu & Hh & Hr).
    exists req, resp, vd, links, items, item, link.
    repeat split; auto. apply cleaned_url_has_no_suffix.
Qed.

End ForgeLinks.

(** X21, witness: the link of the specification's scenario. *)
Lemma fetch_deps_dev_repo_url_witness :
  let N := deps_dev_answers "express" "4.18.2" "4.18.0" "git+https://github.com/expressjs/express.git" in
  PyStr "https://github.com/expressjs/express" = PyNone \/
  exists req resp version_data links items item link,
    In req (fst (_fetch_deps_dev (N := N) (L := sample_lib) (parsed "pkg:npm/express@4.18.0"))) /\
    http_get (Network := N) req = Reply resp /\ status_code resp = 200%Z /\
    body resp = Some version_data /\
    py_getitem version_data "links" = Ok links /\ py_iter links = Ok items /\
    In item items /\ py_get item "url" (PyStr "") = Ok (PyStr link) /\
    existsb (fun host => PyStr.contains host (str_lower (PyLib := sample_lib) link)) repo_hosts = true /\
    PyStr "https://github.com/expressjs/express" = PyStr (cleaned_url link) /\
    Forall (fun suffix => PyStr.contains suffix (cleaned_url link) = false) path_suffixes.
Proof.
  apply (fetch_deps_dev_repo_url
           (N := deps_dev_answers "express" "4.18.2" "4.18.0" "git+https://github.com/expressjs/express.git")
           (L := sample_lib)
           (parsed "pkg:npm/express@4.18.0")
           (mkPackageMetadata "pkg:npm/express@4.18.0" (PyStr "npm") (PyStr "express") (PyStr "4.18.0")
              (PyStr "https://github.com/expressjs/express") (PyStr "MIT") PyNone PyNone
              (PyStr "4.18.2") [] PyNone)).
  vm_compute. reflexivity.
Defined.

(** ** The flag [allow_partial] *)

Section AllowPartial.
Context {N : Network} {L : PyLib}.

(** X22: [allow_partial] changes nothing that is sent or called, and nothing
    that is returned: the events of [discover] are the same with and without
    it, a record returned without it is returned with it, and an exception
    raised with it is raised without it. *)
Theorem discover_allow_partial (self : PackageDiscoveryService) (p : string) :
  fst (discover self p true) = fst (discover self p false) /\
  (forall t r, discover self p false = (t, Ok r) -> discover self p true = (t, Ok r)) /\
  (forall t e, discover self p true = (t, Raise e) -> discover self p false = (t, Raise e)).
Proof.
  destruct (prepare_cases p) as [[_ Hp]|(_ & t0 & md & Hp)].
  - rewrite !(discover_rejects _ _ _ Hp). repeat split; auto; discriminate.
  - rewrite !(discover_eq _ _ _ _ _ Hp). cbv zeta.
    destruct (try_sources_total (sources self) md) as (t1 & [res|acc] & Ht);
      rewrite Ht; cbn [fst snd negb andb].
    + repeat split; auto.
    + split; [reflexivity|]. split; [|discriminate].
      intros t r. destruct (is_complete acc); cbn [negb]; [auto|discriminate].
Qed.

(** X23: for the service of the class, a record returned incomplete carries
    no source: a source is only ever set on a complete record. *)
Theorem partial_has_no_source (key : option string) (p : string) (allow_partial : bool) (t : list event) (r : PackageMetadata) :
  discover (PackageDiscoveryService__init__ key) p allow_partial = (t, Ok r) ->
  is_complete r = false -> source r = PyNone.
Proof.
  intros Hd Hinc.
  destruct (discover_inv _ _ _ _ _ Hd) as (t0 & md & t1 & Hp & Hcases).
  pose proof (prepare_same p t0 md Hp) as Hmd.
  destruct Hcases as [Ht|[Ht _]].
  - destruct (try_sources_early _ _ _ _ Ht)
      as (pre & n' & f & post & acc & tpre & r1 & _ & _ & _ & Hr & -> & _).
    unfold is_complete in *. cbn [ecosystem name repo_url set_source] in Hinc. congruence.
  - pose proof (chain_same _ _ (real_contribution key) md t1 _ (same_self _ _ Hmd) Ht) as Ho.
    cbv beta iota in Ho. now destruct Ho as (_ & _ & _ & _ & _ & H6).
Qed.

End AllowPartial.

(** X23, witness: an unknown ecosystem with [allow_partial]. *)
Lemma partial_has_no_source_witness :
  source (mkPackageMetadata "pkg:rubygems/rails" (PyStr "rubygems") (PyStr "rails")
            PyNone PyNone PyNone PyNone PyNone PyNone [] PyNone) = PyNone.
Proof.
  apply (partial_has_no_source (N := offline) (L := sample_lib) None "pkg:rubygems/rails" true
           [Invoke "deps.dev"; Invoke "clearlydefined"; Invoke "purl2src"; Invoke "upmex"]);
    reflexivity.
Defined.

(** X22, witness: the record of the second source is returned either way. *)
Lemma discover_allow_partial_witness :
  discover (N := offline) (L := sample_lib)
    (mocked (failing ConnectError) (returning (Some express_complete))) "pkg:npm/express" true =
  ([Invoke "deps.dev"; Invoke "clearlydefined"],
   Ok (set_source (PyStr "clearlydefined") express_complete)).
Proof.
  apply (proj1 (proj2 (discover_allow_partial (N := offline) (L := sample_lib)
                         (mocked (failing ConnectError) (returning (Some express_complete)))
                         "pkg:npm/express"))).
  reflexivity.
Defined.

(** ** Failed requests and undecodable bodies inside the fetchers *)

Section FetcherFailures.
Context {N : Network} {L : PyLib}.

(** X24: in [_fetch_deps_dev] only the request for the version details is
    guarded. When the request for the listing fails, the fetcher raises; when
    the listing arrives and the request for the details fails, the fetcher
    returns the record with the latest version of the listing. *)
Theorem fetch_deps_dev_failures (md : PackageMetadata) (e system nm latest : string) :
  ecosystem md = PyStr e -> e <> "maven" ->
  table_get system_map (PyStr e) = Ok (Some system) ->
  name md = PyStr nm -> version md = PyNone ->
  let listing := {| url := "https://api.deps.dev/v3/systems/" ++ system ++ "/packages/" ++ PyStr.quote nm;
                    params := [] |} in
  let details := {| url := ("https://api.deps.dev/v3/systems/" ++ system ++ "/packages/" ++ PyStr.quote nm)
                           ++ "/versions/" ++ PyStr.quote latest;
                    params := [] |} in
  (http_get listing = Failed ->
   _fetch_deps_dev md = ([listing], Raise ConnectError)) /\
  (http_get listing =
     Reply {| status_code := 200;
              body := Some (PyDict [("versions",
                                     PyList [PyDict [("versionKey",
                                                      PyDict [("version", PyStr latest)])]])]) |} ->
   http_get details = Failed ->
   _fetch_deps_dev md =
     ([listing; details], Ok (Some (set_latest_version (PyStr latest) (fresh_result md))))).
Proof.
  intros He Hm Hsys Hn Hv listing details.
  assert (Hmaven : py_eq_str (PyStr e) "maven" = false) by (cbn; now apply String.eqb_neq).
  split.
  - intros Hget. unfold _fetch_deps_dev. rewrite He, Hsys, Hn.
    unfold bind at 1. cbn [lift]. rewrite Hmaven.
    unfold bind, lift, ret, client_get. cbn [py_quote fst snd app].
    fold listing. now rewrite Hget.
  - intros Hget Hdet. unfold _fetch_deps_dev. rewrite He, Hsys, Hn, Hv.
    unfold bind at 1. cbn [lift]. rewrite Hmaven.
    unfold bind, lift, ret, client_get. cbn [py_quote fst snd app].
    fold listing. rewrite Hget.
    cbn [status_code Z.eqb Pos.eqb negb json body py_in lookup String.eqb Ascii.eqb Bool.eqb
         py_getitem truthy py_last py_first List.rev app fst snd py_or latest_version
         set_latest_version fresh_result py_quote].
    assert (Hor : py_or (PyStr latest) (PyStr "") = PyStr latest) by (destruct latest; reflexivity).
    rewrite Hor. cbn [py_quote app fst snd].
    fold details. now rewrite Hdet.
Qed.

(** X25: [_fetch_clearlydefined] guards the decoding and not the request.
    For a name without namespace, a failed request makes the fetcher raise,
    while an answer with another status than 200, or with status 200 and a
    body that does not decode, makes it return nothing. *)
Theorem fetch_clearlydefined_failures (md : PackageMetadata) (e cd_type nm : string) :
  ecosystem md = PyStr e ->
  table_get type_map (PyStr e) = Ok (Some cd_type) ->
  name md = PyStr nm -> PyStr.contains "/" nm = false ->
  let coordinates :=
    cd_type ++ "/" ++ (if String.eqb cd_type "npm" then "npmjs" else cd_type) ++ "/" ++ "-" ++ "/" ++
    PyStr.quote nm ++ "/" ++ py_format (py_or (version md) (PyStr "-")) in
  let req := {| url := "https://api.clearlydefined.io/definitions/" ++ coordinates; params := [] |} in
  (http_get req = Failed -> _fetch_clearlydefined md = ([req], Raise ConnectError)) /\
  (forall resp, http_get req = Reply resp -> status_code resp <> 200%Z ->
                _fetch_clearlydefined md = ([req], Ok None)) /\
  (forall resp, http_get req = Reply resp -> status_code resp = 200%Z -> body resp = None ->
                _fetch_clearlydefined md = ([req], Ok None)).
Proof.
  intros He Hty Hn Hsl coordinates req.
  assert (Hrun : _fetch_clearlydefined md =
                 ([req],
                  match http_get req with
                  | Failed => Raise ConnectError
                  | Reply resp =>
                      if negb (status_code resp =? 200)%Z then Ok None
                      else match body resp with
                           | None => Ok None
                           | Some data => snd (_fetch_clearlydefined md)
                           end
                  end)).
  { unfold _fetch_clearlydefined. rewrite He, Hty, Hn.
    unfold bind at 1. cbn [lift py_in]. rewrite Hsl.
    unfold bind, lift, ret, client_get, json. cbn [py_quote fst snd app].
    fold coordinates. fold req.
    destruct (http_get req) as [|resp]; [reflexivity|].
    destruct (negb (status_code resp =? 200)%Z); [reflexivity|].
    destruct (body resp) as [data|]; [|reflexivity].
    cbn [fst snd app].
    repeat match goal with
           | |- context [match ?x with _ => _ end] =>
               lazymatch x with
               | context [match _ with _ => _ end] => fail
               | _ => destruct x
               end
           end; reflexivity. }
  repeat split.
  - intros Hget. rewrite Hrun, Hget. reflexivity.
  - intros resp Hget Hs. rewrite Hrun, Hget.
    apply Z.eqb_neq in Hs. rewrite Hs. reflexivity.
  - intros resp Hget Hs Hb. rewrite Hrun, Hget, Hb.
    now destruct (negb (status_code resp =? 200)%Z).
Qed.

End FetcherFailures.

(** X24, witness: the listing of express fails, or arrives and the details
    fail. *)
Lemma fetch_deps_dev_failures_witness :
  _fetch_deps_dev (N := offline) (L := sample_lib) (parsed "pkg:npm/express") =
    ([{| url := "https://api.deps.dev/v3/systems/npm/packages/express"; params := [] |}],
     Raise ConnectError) /\
  _fetch_deps_dev (N := listing_only "express" "4.18.2") (L := sample_lib) (parsed "pkg:npm/express") =
    ([{| url := "https://api.deps.dev/v3/systems/npm/packages/express"; params := [] |};
      {| url := "https://api.deps.dev/v3/systems/npm/packages/express/versions/4.18.2";
         params := [] |}],
     Ok (Some (set_latest_version (PyStr "4.18.2") (fresh_result (parsed "pkg:npm/express"))))).
Proof.
  split.
  - apply (proj1 (fetch_deps_dev_failures (N := offline) (parsed "pkg:npm/express")
                    "npm" "npm" "express" "4.18.2"
                    eq_refl ltac:(discriminate) eq_refl eq_refl eq_refl)).
    reflexivity.
  - apply (proj2 (fetch_deps_dev_failures (N := listing_only "express" "4.18.2")
                    (parsed "pkg:npm/express") "npm" "npm" "express" "4.18.2"
                    eq_refl ltac:(discriminate) eq_refl eq_refl eq_refl)); reflexivity.
Defined.

(** X25, witness: the definition of express is asked for from a network that
    is down, one that knows nothing, and one that answers with garbage. *)
Lemma fetch_clearlydefined_failures_witness :
  let req := {| url := "https://api.clearlydefined.io/definitions/npm/npmjs/-/express/-";
                params := [] |} in
  _fetch_clearlydefined (N := offline) (L := sample_lib) (parsed "pkg:npm/express") =
    ([req], Raise ConnectError) /\
  _fetch_clearlydefined (N := scripted []) (L := sample_lib) (parsed "pkg:npm/express") =
    ([req], Ok None) /\
  _fetch_clearlydefined (N := garbled) (L := sample_lib) (parsed "pkg:npm/express") =
    ([req], Ok None).
Proof.
  intros req. split; [|split].
  - apply (proj1 (fetch_clearlydefined_failures (N := offline) (L := sample_lib)
                    (parsed "pkg:npm/express") "npm" "npm" "express"
                    eq_refl eq_refl eq_refl eq_refl)).
    reflexivity.
  - apply (proj1 (proj2 (fetch_clearlydefined_failures (N := scripted []) (L := sample_lib)
                           (parsed "pkg:npm/express") "npm" "npm" "express"
                           eq_refl eq_refl eq_refl eq_refl))
             {| status_code := 404; body := None |}).
    + reflexivity.
    + discriminate.
  - apply (proj2 (proj2 (fetch_clearlydefined_failures (N := garbled) (L := sample_lib)
                           (parsed "pkg:npm/express") "npm" "npm" "express"
                           eq_refl eq_refl eq_refl eq_refl))
             {| status_code := 200; body := None |}); reflexivity.
Defined.
